(** * Health monitoring system: anomaly detection and alerting

    A shallow embedding of [app/services/anomaly_detection.py] and
    [app/services/alert_service.py], with the properties their
    specification states about them, and of the endpoints of
    [app/api/patients.py] and [app/api/alerts.py] that call them.

    Conventions of the embedding:
    - a Python float is an exact rational ([Q]); the square root taken by
      [pandas.Series.std] is a parameter of the statistical detector;
    - a [datetime] is a number of microseconds ([Z]); one call reads one
      clock value;
    - a [dict] iterated in insertion order is an association list, a
      [dict] used only through lookup and item assignment is a [gmap];
    - code that can raise lives in an error monad, code that also mutates
      the process or the database session in a state-and-error monad. *)

From Stdlib Require Import QArith Qminmax Qabs ZArith String List Bool Lia Lqa.
From stdpp Require Import base option gmap strings.

Local Open Scope string_scope.
Local Open Scope Z_scope.
Local Open Scope Q_scope.

(** ** Python runtime: exceptions and results *)

Module Py.

Inductive exn :=
| NameError (name : string)
| TypeError
| ZeroDivisionError
| IntegrityError
| OperationalError
| UnicodeEncodeError.

Inductive result (A : Type) :=
| Ok (a : A)
| Raise (e : exn).
Arguments Ok {A} a.
Arguments Raise {A} e.

Definition bind {A B} (m : result A) (k : A -> result B) : result B :=
  match m with
  | Ok a => k a
  | Raise e => Raise e
  end.

Definition raises {A} (m : result A) : bool :=
  match m with Ok _ => false | Raise _ => true end.

(** Values a [Dict[str, Any]] of vital signs holds: the caller stores
    floats, [None], strings ([patient_id], [device_id]) and a
    [datetime] ([timestamp]) in it. *)
Inductive pyval :=
| PyNone
| PyFloat (x : Q)
| PyStr (s : string)
| PyDatetime (t : Z).

Definition is_none (v : pyval) : bool :=
  match v with PyNone => true | _ => false end.

(** An ordering comparison or an arithmetic operation between a value
    and a float raises [TypeError] unless the value is a number. *)
Definition as_number (v : pyval) : result Q :=
  match v with
  | PyFloat x => Ok x
  | _ => Raise TypeError
  end.

Definition Qlt_bool (x y : Q) : bool := negb (Qle_bool y x).

(** [a / b] on floats. *)
Definition div (a b : Q) : result Q :=
  if Qeq_bool b 0 then Raise ZeroDivisionError else Ok (a / b).

End Py.

Import Py.

Notation "x <- m ;; k" := (Py.bind m (fun x => k))
  (at level 100, m at next level, right associativity, only parsing).

(** ** [app/models/schemas.py] *)

Inductive SeverityLevel := INFO | WARNING | CRITICAL.

Definition SeverityLevel_eqb (a b : SeverityLevel) : bool :=
  match a, b with
  | INFO, INFO | WARNING, WARNING | CRITICAL, CRITICAL => true
  | _, _ => false
  end.

(** ** [AnomalyDetector] *)

(** One entry of [AnomalyDetector.thresholds]: [{"min": .., "max": ..}]. *)
Record threshold := { tmin : Q; tmax : Q }.

(** The arguments of the f-string a description is rendered from. *)
Inductive description_text :=
| BelowNormal (metric : string) (delta min_val max_val : Q)
| AboveNormal (metric : string) (delta min_val max_val : Q)
| StatisticalText (metric : string) (z_score current_value mean : Q).

(** The dict a detector emits for one anomaly. *)
Record anomaly_data := {
  anomaly_type : string;
  confidence_score : Q;
  severity : SeverityLevel;
  description : description_text;
  recommendation : string
}.

(** [AnomalyDetector.__init__] *)
Definition default_thresholds : gmap string threshold :=
  <["heart_rate" := {| tmin := 50; tmax := 120 |}]>
  (<["spo2" := {| tmin := 90; tmax := 100 |}]>
  (<["glucose" := {| tmin := 70; tmax := 200 |}]>
  (<["blood_pressure_systolic" := {| tmin := 90; tmax := 140 |}]>
  (<["blood_pressure_diastolic" := {| tmin := 60; tmax := 90 |}]>
  (<["temperature" := {| tmin := 97; tmax := 99.5 |}]> ∅))))).

Definition _determine_severity (metric : string) (value : Q) (th : threshold)
  : result SeverityLevel :=
  let min_val := tmin th in
  let max_val := tmax th in
  let normal_range := max_val - min_val in
  deviation <- (if Qlt_bool value min_val
                then div (min_val - value) normal_range
                else div (value - max_val) normal_range) ;;
  if Qlt_bool 0.5 deviation then Ok CRITICAL
  else if Qlt_bool 0.2 deviation then Ok WARNING
  else Ok INFO.

Definition _determine_statistical_severity (z_score : Q) : SeverityLevel :=
  if Qlt_bool 3.0 z_score then CRITICAL
  else if Qlt_bool 2.5 z_score then WARNING
  else INFO.

Definition _calculate_confidence (metric : string) (value : Q) (th : threshold)
  : result Q :=
  let min_val := tmin th in
  let max_val := tmax th in
  let normal_range := max_val - min_val in
  deviation <- (if Qlt_bool value min_val
                then div (min_val - value) normal_range
                else div (value - max_val) normal_range) ;;
  Ok (Qmin 0.99 (0.5 + deviation * 0.5)).

Definition _generate_description (metric : string) (value : Q) (th : threshold)
  : description_text :=
  let min_val := tmin th in
  let max_val := tmax th in
  if Qlt_bool value min_val
  then BelowNormal metric (min_val - value) min_val max_val
  else AboveNormal metric (value - max_val) min_val max_val.

Definition recommendations : list (string * (SeverityLevel -> string)) :=
  [ ("heart_rate", fun s => match s with
       | INFO => "Monitor heart rate closely"
       | WARNING => "Consider immediate medical attention"
       | CRITICAL => "Seek immediate medical attention" end);
    ("spo2", fun s => match s with
       | INFO => "Monitor oxygen saturation"
       | WARNING => "Check oxygen levels and breathing"
       | CRITICAL => "Immediate medical attention required - low oxygen" end);
    ("glucose", fun s => match s with
       | INFO => "Monitor blood glucose levels"
       | WARNING => "Check blood sugar and consider medication adjustment"
       | CRITICAL => "Immediate medical attention required - blood sugar emergency" end);
    ("blood_pressure_systolic", fun s => match s with
       | INFO => "Monitor blood pressure"
       | WARNING => "Consider blood pressure medication review"
       | CRITICAL => "Immediate medical attention required - blood pressure emergency" end);
    ("blood_pressure_diastolic", fun s => match s with
       | INFO => "Monitor blood pressure"
       | WARNING => "Consider blood pressure medication review"
       | CRITICAL => "Immediate medical attention required - blood pressure emergency" end);
    ("temperature", fun s => match s with
       | INFO => "Monitor body temperature"
       | WARNING => "Check for fever or hypothermia"
       | CRITICAL => "Immediate medical attention required - temperature emergency" end) ].

Fixpoint assoc {V} (k : string) (l : list (string * V)) : option V :=
  match l with
  | [] => None
  | (k', v) :: rest => if String.eqb k k' then Some v else assoc k rest
  end.

Definition _generate_recommendation (metric : string) (sev : SeverityLevel) : string :=
  match assoc metric recommendations with
  | Some by_severity => by_severity sev
  | None => "Monitor closely and consult healthcare provider"
  end.

(** The body of the loop of [detect_threshold_anomalies] for one item of
    [vitals_data]: the anomalies it appends. *)
Definition threshold_item (thresholds : gmap string threshold)
    (metric : string) (value : pyval) : result (list anomaly_data) :=
  if is_none value then Ok []
  else match thresholds !! metric with
  | None => Ok []
  | Some th =>
      x <- as_number value ;;
      if Qlt_bool x (tmin th) || Qlt_bool (tmax th) x then
        sev <- _determine_severity metric x th ;;
        confidence <- _calculate_confidence metric x th ;;
        Ok [ {| anomaly_type := metric;
                confidence_score := confidence;
                severity := sev;
                description := _generate_description metric x th;
                recommendation := _generate_recommendation metric sev |} ]
      else Ok []
  end.

Fixpoint detect_threshold_anomalies (thresholds : gmap string threshold)
    (vitals_data : list (string * pyval)) : result (list anomaly_data) :=
  match vitals_data with
  | [] => Ok []
  | (metric, value) :: rest =>
      here <- threshold_item thresholds metric value ;;
      more <- detect_threshold_anomalies thresholds rest ;;
      Ok (here ++ more)%list
  end.

(** ** [app/database.py]: the tables

    Columns the ORM fills by itself ([id], [created_at], [updated_at]) are
    left out. *)

Module Patient.
Record t := {
  patient_id : string;
  name : string;
  age : Z;
  gender : string
}.
End Patient.

Module VitalSign.
Record t := {
  patient_id : string;
  timestamp : Z;
  heart_rate : option Q;
  spo2 : option Q;
  glucose : option Q;
  blood_pressure_systolic : option Q;
  blood_pressure_diastolic : option Q;
  temperature : option Q;
  device_id : option string
}.
End VitalSign.

Module Anomaly.
Record t := {
  patient_id : string;
  timestamp : Z;
  anomaly_type : string;
  confidence_score : Q;
  severity : SeverityLevel;
  description : description_text;
  recommendation : string;
  is_acknowledged : bool
}.
End Anomaly.

(** The arguments of the f-string of [_generate_alert_message]. *)
Record alert_message := {
  severity_text : string;
  about : description_text;
  advice : option string
}.

Module Alert.
Record t := {
  patient_id : string;
  alert_type : string;
  severity : SeverityLevel;
  message : alert_message;
  timestamp : Z;
  is_sent : bool;
  is_acknowledged : bool;
  acknowledged_by : option string;
  acknowledged_at : option Z
}.

Definition set_is_sent (b : bool) (a : t) : t :=
  {| patient_id := patient_id a; alert_type := alert_type a;
     severity := severity a; message := message a;
     timestamp := timestamp a; is_sent := b;
     is_acknowledged := is_acknowledged a;
     acknowledged_by := acknowledged_by a;
     acknowledged_at := acknowledged_at a |}.
End Alert.

Module AlertConfiguration.
Record t := {
  patient_id : string;
  metric_name : string;
  min_threshold : option Q;
  max_threshold : option Q;
  is_active : bool;
  notification_email : option string
}.
End AlertConfiguration.

(** The committed rows, in insertion order. *)
Record Database := {
  patients : list Patient.t;
  vital_signs : list VitalSign.t;
  anomalies : list Anomaly.t;
  alerts : list Alert.t;
  alert_configurations : list AlertConfiguration.t
}.

(** [timedelta(days=d)], [timedelta(hours=h)] in microseconds. *)
Definition timedelta_days (d : Z) : Z := (d * 86400000000)%Z.
Definition timedelta_hours (h : Z) : Z := (h * 3600000000)%Z.
Definition timedelta_minutes (m : Z) : Z := (m * 60000000)%Z.

(** ** [AnomalyDetector.detect_statistical_anomalies] *)

(** The columns of the data frame built from the historical rows. *)
Definition df_column (metric : string) : option (VitalSign.t -> option Q) :=
  if String.eqb metric "heart_rate" then Some VitalSign.heart_rate
  else if String.eqb metric "spo2" then Some VitalSign.spo2
  else if String.eqb metric "glucose" then Some VitalSign.glucose
  else if String.eqb metric "blood_pressure_systolic"
       then Some VitalSign.blood_pressure_systolic
  else if String.eqb metric "blood_pressure_diastolic"
       then Some VitalSign.blood_pressure_diastolic
  else if String.eqb metric "temperature" then Some VitalSign.temperature
  else None.

(** [Series.dropna] *)
Fixpoint dropna (col : list (option Q)) : list Q :=
  match col with
  | [] => []
  | Some x :: rest => x :: dropna rest
  | None :: rest => dropna rest
  end.

Definition Qsum (l : list Q) : Q := fold_right Qplus 0 l.

(** [Series.mean]; only taken of five values or more. *)
Definition mean (l : list Q) : Q := Qsum l / inject_Z (Z.of_nat (length l)).

(** The query of the historical rows: the patient's rows of the trailing
    seven days. *)
Definition historical_vitals (patient_id : string) (now : Z) (db : Database)
  : list VitalSign.t :=
  let end_time := now in
  let start_time := (end_time - timedelta_days 7)%Z in
  List.filter (fun v => String.eqb (VitalSign.patient_id v) patient_id
                   && (start_time <=? VitalSign.timestamp v)%Z
                   && (VitalSign.timestamp v <=? end_time)%Z)
         (vital_signs db).

Section Statistics.

(** The square root on floats, as [Series.std] takes it. *)
Variable sqrt : Q -> Q.

(** [Series.std]: the sample standard deviation (n - 1 in the
    denominator); only taken of five values or more. *)
Definition std (l : list Q) : Q :=
  let m := mean l in
  sqrt (Qsum (map (fun x => (x - m) * (x - m)) l)
        / inject_Z (Z.of_nat (length l) - 1)).

(** The body of the loop over [vitals_data]. *)
Definition statistical_item (history : list VitalSign.t)
    (metric : string) (current_value : pyval) : result (list anomaly_data) :=
  if is_none current_value then Ok []
  else match df_column metric with
  | None => Ok []
  | Some col =>
      let metric_data := dropna (map col history) in
      if (length metric_data <? 5)%nat then Ok []
      else
        let mean := mean metric_data in
        let std := std metric_data in
        if Qeq_bool std 0 then Ok []
        else
          x <- as_number current_value ;;
          let z_score := Qabs ((x - mean) / std) in
          if Qlt_bool 2.5 z_score then
            let sev := _determine_statistical_severity z_score in
            let confidence := Qmin 0.99 (z_score / 3.0) in
            Ok [ {| anomaly_type := metric +:+ "_statistical";
                    confidence_score := confidence;
                    severity := sev;
                    description := StatisticalText metric z_score x mean;
                    recommendation := _generate_recommendation metric sev |} ]
          else Ok []
  end.

Fixpoint statistical_loop (history : list VitalSign.t)
    (vitals_data : list (string * pyval)) : result (list anomaly_data) :=
  match vitals_data with
  | [] => Ok []
  | (metric, current_value) :: rest =>
      here <- statistical_item history metric current_value ;;
      more <- statistical_loop history rest ;;
      Ok (here ++ more)%list
  end.

Definition detect_statistical_anomalies (patient_id : string)
    (vitals_data : list (string * pyval)) (now : Z) (db : Database)
  : result (list anomaly_data) :=
  let history := historical_vitals patient_id now db in
  if (length history <? 10)%nat then Ok []
  else statistical_loop history vitals_data.

End Statistics.

(** A square root on rationals that is exact on the squares of rationals
    (and rounds down the integer root otherwise); it instantiates the
    parameter of the statistical detector in the worked examples. *)
Definition sqrt_exact (q : Q) : Q :=
  let r := Qred q in
  Qmake (Z.sqrt (Qnum r * Zpos (Qden r))) (Qden r).

(** ** The process and its collaborators *)

(** What the code calls and does not define: the float square root, the
    verdict of the database engine on a row to insert, the terminal the
    console notification is printed on, and whether the session the email
    notification opens for itself can be opened. *)
Record Platform := {
  np_sqrt : Q -> Q;
  insert_anomaly_ok : Anomaly.t -> bool;
  insert_alert_ok : Alert.t -> bool;
  stdout_ok : bool;
  get_db_ok : bool
}.

(** What the process does that an observer sees, oldest first. *)
Inductive event :=
| Commit
| Rollback
| LogException (origin : string) (e : exn)
| Log (text : string)
| Console (a : Alert.t)
| Email (to : string) (a : Alert.t).

(** The state the two services run in: the thresholds of the one
    [anomaly_detector] of the process, the committed rows, and the rows the
    session has been given by [db.add] and has not flushed. The session
    is made with [autoflush=False]: a query reads committed rows only. *)
Record World := {
  thresholds : gmap string threshold;
  db : Database;
  new_anomalies : list Anomaly.t;
  new_alerts : list Alert.t;
  journal : list event
}.

Module W.

Definition M (A : Type) : Type := World -> result A * World.

Definition ret {A} (a : A) : M A := fun w => (Ok a, w).

Definition bind {A B} (m : M A) (k : A -> M B) : M B :=
  fun w => match m w with
           | (Ok a, w') => k a w'
           | (Raise e, w') => (Raise e, w')
           end.

Definition lift {A} (r : result A) : M A := fun w => (r, w).

Definition get : M World := fun w => (Ok w, w).

Definition emit (ev : event) : M unit :=
  fun w => (Ok tt,
            {| thresholds := thresholds w; db := db w;
               new_anomalies := new_anomalies w; new_alerts := new_alerts w;
               journal := journal w ++ [ev] |}).

Definition set_thresholds (th : gmap string threshold) : M unit :=
  fun w => (Ok tt,
            {| thresholds := th; db := db w;
               new_anomalies := new_anomalies w; new_alerts := new_alerts w;
               journal := journal w |}).

(** [db.add(anomaly)] *)
Definition add_anomaly (a : Anomaly.t) : M unit :=
  fun w => (Ok tt,
            {| thresholds := thresholds w; db := db w;
               new_anomalies := new_anomalies w ++ [a];
               new_alerts := new_alerts w;
               journal := journal w |}).

(** [db.add(alert)] *)
Definition add_alert (a : Alert.t) : M unit :=
  fun w => (Ok tt,
            {| thresholds := thresholds w; db := db w;
               new_anomalies := new_anomalies w;
               new_alerts := new_alerts w ++ [a];
               journal := journal w |}).

(** [db.commit()]: the new rows are inserted in one transaction; when
    the engine refuses one of them the commit raises and inserts
    nothing. *)
Definition commit (P : Platform) : M unit :=
  fun w =>
    if forallb (insert_anomaly_ok P) (new_anomalies w)
       && forallb (insert_alert_ok P) (new_alerts w)
    then (Ok tt,
          {| thresholds := thresholds w;
             db := {| patients := patients (db w);
                      vital_signs := vital_signs (db w);
                      anomalies := anomalies (db w) ++ new_anomalies w;
                      alerts := alerts (db w) ++ new_alerts w;
                      alert_configurations := alert_configurations (db w) |};
             new_anomalies := []; new_alerts := [];
             journal := journal w ++ [Commit] |})
    else (Raise IntegrityError, w).

(** [db.rollback()] *)
Definition rollback : M unit :=
  fun w => (Ok tt,
            {| thresholds := thresholds w; db := db w;
               new_anomalies := []; new_alerts := [];
               journal := journal w ++ [Rollback] |}).

(** [try: m except Exception as e: handler e] *)
Definition try_except {A} (m : M A) (handler : exn -> M A) : M A :=
  fun w => match m w with
           | (Ok a, w') => (Ok a, w')
           | (Raise e, w') => handler e w'
           end.

(** The lookup of a name in the globals of a module. *)
Definition load_global (globals : list string) (name : string) : M unit :=
  if existsb (String.eqb name) globals then ret tt
  else lift (Raise (NameError name)).

End W.

Notation "x <~ m ;; k" := (W.bind m (fun x => k))
  (at level 100, m at next level, right associativity, only parsing).

(** ** [detect_anomalies] *)

(** The body of the loop over [custom_configs]: item assignments into the
    entry of the shared [anomaly_detector.thresholds]. *)
Definition apply_config (th : gmap string threshold)
    (config : AlertConfiguration.t) : gmap string threshold :=
  let metric := AlertConfiguration.metric_name config in
  match th !! metric with
  | None => th
  | Some t =>
      let t1 := match AlertConfiguration.min_threshold config with
                | Some m => {| tmin := m; tmax := tmax t |}
                | None => t
                end in
      let t2 := match AlertConfiguration.max_threshold config with
                | Some m => {| tmin := tmin t1; tmax := m |}
                | None => t1
                end in
      <[metric := t2]> th
  end.

Definition custom_configs (patient_id : string) (db : Database)
  : list AlertConfiguration.t :=
  List.filter (fun c => String.eqb (AlertConfiguration.patient_id c) patient_id
                   && Bool.eqb (AlertConfiguration.is_active c) true)
         (alert_configurations db).

Definition make_anomaly (patient_id : string) (now : Z) (d : anomaly_data)
  : Anomaly.t :=
  {| Anomaly.patient_id := patient_id;
     Anomaly.timestamp := now;
     Anomaly.anomaly_type := anomaly_type d;
     Anomaly.confidence_score := confidence_score d;
     Anomaly.severity := severity d;
     Anomaly.description := description d;
     Anomaly.recommendation := recommendation d;
     Anomaly.is_acknowledged := false |}.

Fixpoint save_anomalies (patient_id : string) (now : Z)
    (all_anomalies : list anomaly_data) : W.M (list Anomaly.t) :=
  match all_anomalies with
  | [] => W.ret []
  | anomaly_data :: rest =>
      let anomaly := make_anomaly patient_id now anomaly_data in
      _ <~ W.add_anomaly anomaly ;;
      more <~ save_anomalies patient_id now rest ;;
      W.ret (anomaly :: more)
  end.

(** The [try] block. *)
Definition detect_anomalies_try (P : Platform) (patient_id : string)
    (vitals_data : list (string * pyval)) (now : Z) : W.M (list Anomaly.t) :=
  w <~ W.get ;;
  let configs := custom_configs patient_id (db w) in
  _ <~ W.set_thresholds (fold_left apply_config configs (thresholds w)) ;;
  w <~ W.get ;;
  threshold_anomalies <~
    W.lift (detect_threshold_anomalies (thresholds w) vitals_data) ;;
  statistical_anomalies <~
    W.lift (detect_statistical_anomalies (np_sqrt P) patient_id vitals_data
              now (db w)) ;;
  let all_anomalies := (threshold_anomalies ++ statistical_anomalies)%list in
  anomalies <~ save_anomalies patient_id now all_anomalies ;;
  _ <~ (match anomalies with
        | [] => W.ret tt
        | _ :: _ => _ <~ W.commit P ;; W.emit (Log "Detected anomalies")
        end) ;;
  W.ret anomalies.

Definition detect_anomalies (P : Platform) (patient_id : string)
    (vitals_data : list (string * pyval)) (now : Z) : W.M (list Anomaly.t) :=
  W.try_except
    (detect_anomalies_try P patient_id vitals_data now)
    (fun e =>
       _ <~ W.emit (LogException "Error in anomaly detection" e) ;;
       _ <~ W.rollback ;;
       W.ret []).

(** ** [AlertService] *)

(** The names bound in the module [alert_service] when its functions run:
    what it imports and what it defines. The module imports [datetime]
    from [datetime] and nothing else; [get_alert_statistics] imports
    [timedelta] into its own local scope. No builtin is called
    [timedelta]. *)
Definition alert_service_globals : list string :=
  [ "smtplib"; "logging"; "MIMEText"; "MIMEMultipart";
    "List"; "Dict"; "Any"; "Optional"; "datetime"; "Session";
    "Alert"; "AlertConfiguration"; "Patient"; "SeverityLevel";
    "logger"; "AlertService"; "alert_service";
    "check_and_create_alerts"; "send_alert_notification"; "send_test_alert" ].

Definition _generate_alert_message (anomaly : Anomaly.t) : alert_message :=
  {| severity_text := match Anomaly.severity anomaly with
                      | INFO => "Information"
                      | WARNING => "Warning"
                      | CRITICAL => "Critical Alert"
                      end;
     about := Anomaly.description anomaly;
     advice := if String.eqb (Anomaly.recommendation anomaly) ""
               then None
               else Some (Anomaly.recommendation anomaly) |}.

Definition _send_console_notification (P : Platform) (alert : Alert.t)
  : W.M unit :=
  if stdout_ok P then W.emit (Console alert)
  else W.lift (Raise UnicodeEncodeError).

(** The object the function was given, as it leaves it. *)
Definition _send_email_notification (P : Platform) (alert : Alert.t)
  : W.M Alert.t :=
  W.try_except
    (_ <~ (if get_db_ok P then W.ret tt else W.lift (Raise OperationalError)) ;;
     w <~ W.get ;;
     let patient :=
       head (List.filter (fun p => String.eqb (Patient.patient_id p)
                                         (Alert.patient_id alert))
                    (patients (db w))) in
     match patient with
     | None =>
         _ <~ W.emit (Log "Patient not found for email notification") ;;
         W.ret alert
     | Some patient =>
         let config :=
           head (List.filter (fun c =>
                           String.eqb (AlertConfiguration.patient_id c)
                                      (Alert.patient_id alert)
                           && String.eqb (AlertConfiguration.metric_name c)
                                         (Alert.alert_type alert))
                        (alert_configurations (db w))) in
         let notification_email :=
           match config with
           | Some c => AlertConfiguration.notification_email c
           | None => None
           end in
         match notification_email with
         | None =>
             _ <~ W.emit (Log "No notification email configured") ;;
             W.ret alert
         | Some to =>
             if String.eqb to "" then
               _ <~ W.emit (Log "No notification email configured") ;;
               W.ret alert
             else
               _ <~ W.emit (Email to alert) ;;
               W.ret (Alert.set_is_sent true alert)
         end
     end)
    (fun e =>
       _ <~ W.emit (LogException "Error sending email notification" e) ;;
       W.ret alert).

(** The result, and the object the function was given as it leaves it. *)
Definition send_alert_notification (P : Platform) (alert : Alert.t)
  : W.M (bool * Alert.t) :=
  W.try_except
    (_ <~ _send_console_notification P alert ;;
     alert' <~ _send_email_notification P alert ;;
     W.ret (true, alert'))
    (fun e =>
       _ <~ W.emit (LogException "Error sending alert notification" e) ;;
       W.ret (false, alert)).

(** The query of the recent alert: the first committed alert of the
    patient and of the anomaly's type that is at most one hour old. *)
Definition recent_alert (patient_id : string) (anomaly : Anomaly.t) (now : Z)
    (db : Database) : option Alert.t :=
  head (List.filter (fun a => String.eqb (Alert.patient_id a) patient_id
                         && String.eqb (Alert.alert_type a)
                                       (Anomaly.anomaly_type anomaly)
                         && (now - timedelta_hours 1 <=? Alert.timestamp a)%Z)
               (alerts db)).

Definition make_alert (patient_id : string) (anomaly : Anomaly.t) (now : Z)
  : Alert.t :=
  {| Alert.patient_id := patient_id;
     Alert.alert_type := Anomaly.anomaly_type anomaly;
     Alert.severity := Anomaly.severity anomaly;
     Alert.message := _generate_alert_message anomaly;
     Alert.timestamp := now;
     Alert.is_sent := false;
     Alert.is_acknowledged := false;
     Alert.acknowledged_by := None;
     Alert.acknowledged_at := None |}.

Section AlertService.

(** The globals of the module the methods are defined in. *)
Variable globals : list string.
Variable P : Platform.

(** The body of the loop over [anomalies]: the alerts it appends. *)
Definition alert_item (patient_id : string) (now : Z) (anomaly : Anomaly.t)
  : W.M (list Alert.t) :=
  _ <~ W.load_global globals "SeverityLevel" ;;
  if existsb (SeverityLevel_eqb (Anomaly.severity anomaly)) [WARNING; CRITICAL]
  then
    _ <~ W.load_global globals "Alert" ;;
    _ <~ W.load_global globals "datetime" ;;
    _ <~ W.load_global globals "timedelta" ;;
    w <~ W.get ;;
    match recent_alert patient_id anomaly now (db w) with
    | Some _ => W.ret []
    | None =>
        let alert := make_alert patient_id anomaly now in
        _ <~ W.add_alert alert ;;
        W.ret [alert]
    end
  else W.ret [].

Fixpoint alerts_loop (patient_id : string) (now : Z)
    (anomalies : list Anomaly.t) : W.M (list Alert.t) :=
  match anomalies with
  | [] => W.ret []
  | anomaly :: rest =>
      here <~ alert_item patient_id now anomaly ;;
      more <~ alerts_loop patient_id now rest ;;
      W.ret (here ++ more)%list
  end.

(** The loop that sends the notifications; the objects of [alerts] as
    the notifications leave them. *)
Fixpoint notify_all (alerts : list Alert.t) : W.M (list Alert.t) :=
  match alerts with
  | [] => W.ret []
  | alert :: rest =>
      r <~ send_alert_notification P alert ;;
      more <~ notify_all rest ;;
      W.ret (snd r :: more)
  end.

(** The [try] block. *)
Definition check_and_create_alerts_try (patient_id : string)
    (anomalies : list Anomaly.t) (now : Z) : W.M (list Alert.t) :=
  alerts <~ alerts_loop patient_id now anomalies ;;
  match alerts with
  | [] => W.ret []
  | _ :: _ =>
      _ <~ W.commit P ;;
      _ <~ W.emit (Log "Created alerts") ;;
      notify_all alerts
  end.

Definition check_and_create_alerts (patient_id : string)
    (anomalies : list Anomaly.t) (now : Z) : W.M (list Alert.t) :=
  W.try_except
    (check_and_create_alerts_try patient_id anomalies now)
    (fun e =>
       _ <~ W.emit (LogException "Error creating alerts" e) ;;
       _ <~ W.rollback ;;
       W.ret []).

End AlertService.

(** The module as it would read with [timedelta] imported. *)
Definition globals_with_timedelta : list string :=
  "timedelta" :: alert_service_globals.

(** ** The specification's vocabulary *)

(** The deviation fraction [d] of the specification: the distance of a
    value from the range, over the width of the range. *)
Definition deviation (value : Q) (th : threshold) : Q :=
  if Qlt_bool value (tmin th)
  then (tmin th - value) / (tmax th - tmin th)
  else (value - tmax th) / (tmax th - tmin th).

(** A value lies outside the range of a threshold. *)
Definition outside (value : Q) (th : threshold) : bool :=
  Qlt_bool value (tmin th) || Qlt_bool (tmax th) value.

(** The severity the specification gives a deviation fraction. *)
Definition severity_of_deviation (d : Q) : SeverityLevel :=
  if Qlt_bool 0.5 d then CRITICAL
  else if Qlt_bool 0.2 d then WARNING
  else INFO.

(** A value of a sample is a number or is absent. *)
Definition number_or_none (v : pyval) : bool :=
  match v with
  | PyNone | PyFloat _ => true
  | _ => false
  end.

(** What the specification has the threshold detector flag for one item
    of the sample: a present metric that has an entry in the threshold
    map and whose value falls outside the range. *)
Definition flagged_item (th : gmap string threshold) (item : string * pyval)
  : list (string * Q * threshold) :=
  match snd item, th !! fst item with
  | PyFloat x, Some t => if outside x t then [(fst item, x, t)] else []
  | _, _ => []
  end.


(** A candidate anomaly is the one the specification describes for a
    flagged metric. *)
Definition candidate_of (f : string * Q * threshold) (a : anomaly_data) : Prop :=
  let '(metric, x, t) := f in
  let d := deviation x t in
  anomaly_type a = metric
  /\ severity a = severity_of_deviation d
  /\ confidence_score a = Qmin 0.99 (0.5 + d * 0.5).

(** A threshold map in which a range has no width. *)
Definition spo2_degenerate : gmap string threshold :=
  <["spo2" := {| tmin := 95; tmax := 95 |}]> default_thresholds.

(** The z-score of the specification: the distance of a value from the
    historical mean, in historical standard deviations. *)
Definition z_score_of (sqrt : Q -> Q) (data : list Q) (x : Q) : Q :=
  Qabs ((x - mean data) / std sqrt data).

(** What the specification has the statistical detector flag for one
    item of the sample: a present metric with five historical values or
    more, a standard deviation that is not zero, and a z-score above
    2.5. *)
Definition statistically_flagged_item (sqrt : Q -> Q)
    (history : list VitalSign.t) (item : string * pyval) : list (string * Q) :=
  match snd item, df_column (fst item) with
  | PyFloat x, Some col =>
      let data := dropna (map col history) in
      if (length data <? 5)%nat then []
      else if Qeq_bool (std sqrt data) 0 then []
      else if Qlt_bool 2.5 (z_score_of sqrt data x)
           then [(fst item, z_score_of sqrt data x)]
           else []
  | _, _ => []
  end.

Definition statistically_flagged (sqrt : Q -> Q) (history : list VitalSign.t)
    (vitals_data : list (string * pyval)) : list (string * Q) :=
  flat_map (statistically_flagged_item sqrt history) vitals_data.

(** A candidate anomaly is the one the specification describes for a
    statistically flagged metric. *)
Definition statistical_candidate_of (f : string * Q) (a : anomaly_data) : Prop :=
  anomaly_type a = fst f +:+ "_statistical"
  /\ confidence_score a = Qmin 0.99 (snd f / 3.0).

(** An anomaly the alert policy looks at: WARNING or CRITICAL. *)
Definition qualifies (anomaly : Anomaly.t) : bool :=
  existsb (SeverityLevel_eqb (Anomaly.severity anomaly)) [WARNING; CRITICAL].

(** The anomalies the specification admits to an alert on a database:
    the qualifying ones with no committed alert of their patient and type
    in the hour before the evaluation. *)
Definition admitted (patient_id : string) (now : Z) (d : Database)
    (anomalies : list Anomaly.t) : list Anomaly.t :=
  List.filter (fun a => qualifies a
                   && negb (bool_decide
                              (is_Some (recent_alert patient_id a now d))))
         anomalies.

(** The names the loop of [check_and_create_alerts] looks up. *)
Definition names_bound (globals : list string) : bool :=
  forallb (fun n => existsb (String.eqb n) globals)
          ["SeverityLevel"; "Alert"; "datetime"; "timedelta"].

(** A notification, as an observer sees it. *)
Definition is_notification (ev : event) : bool :=
  match ev with
  | Console _ | Email _ _ => true
  | _ => false
  end.

(** An event that writes to or reverts the session. *)
Definition is_transaction (ev : event) : bool :=
  match ev with
  | Commit | Rollback => true
  | _ => false
  end.

(** The address an alert is mailed to on a database: the one of the
    first configuration of its patient and type, when the patient is on
    record and the address is not empty. *)
Definition notification_email_of (d : Database) (alert : Alert.t)
  : option string :=
  match head (List.filter (fun p => String.eqb (Patient.patient_id p)
                                          (Alert.patient_id alert))
                     (patients d)) with
  | None => None
  | Some _ =>
      match head (List.filter (fun c =>
                            String.eqb (AlertConfiguration.patient_id c)
                                       (Alert.patient_id alert)
                            && String.eqb (AlertConfiguration.metric_name c)
                                          (Alert.alert_type alert))
                         (alert_configurations d)) with
      | Some c =>
          match AlertConfiguration.notification_email c with
          | Some to => if String.eqb to "" then None else Some to
          | None => None
          end
      | None => None
      end
  end.

(** The email notification of an alert goes out: the console accepts the
    print that precedes it, the session of the email path opens, and an
    address is configured. *)
Definition emailed (P : Platform) (d : Database) (alert : Alert.t) : bool :=
  stdout_ok P && get_db_ok P
  && bool_decide (is_Some (notification_email_of d alert)).

(** An alert object as its notification leaves it. *)
Definition notified (P : Platform) (d : Database) (alert : Alert.t) : Alert.t :=
  if emailed P d alert then Alert.set_is_sent true alert else alert.

(** A step of the alert service leaves the world as it was but for the
    alerts it added to the session. *)
Definition alerts_added (w : World) (created : list Alert.t) (w' : World)
  : Prop :=
  thresholds w' = thresholds w
  /\ db w' = db w
  /\ new_anomalies w' = new_anomalies w
  /\ new_alerts w' = (new_alerts w ++ created)%list
  /\ journal w' = journal w.

(** An alert is the one created for a qualifying anomaly of a list. *)
Definition created_from (patient_id : string) (now : Z)
    (anomalies : list Anomaly.t) (alert : Alert.t) : Prop :=
  exists a, In a anomalies /\ qualifies a = true
            /\ alert = make_alert patient_id a now.

(** A step of the alert service touches the journal only: it appends
    events, none of which commits or rolls back. *)
Definition only_journals (w : World) (w' : World) : Prop :=
  thresholds w' = thresholds w
  /\ db w' = db w
  /\ new_anomalies w' = new_anomalies w
  /\ new_alerts w' = new_alerts w
  /\ exists evs, journal w' = (journal w ++ evs)%list
                 /\ forallb (fun ev => negb (is_transaction ev)) evs = true.

(** ** Worked inputs *)

(** A platform on which nothing fails. *)
Definition sound_platform : Platform :=
  {| np_sqrt := sqrt_exact;
     insert_anomaly_ok := fun _ => true;
     insert_alert_ok := fun _ => true;
     stdout_ok := true;
     get_db_ok := true |}.

Definition empty_db : Database :=
  {| patients := []; vital_signs := []; anomalies := []; alerts := [];
     alert_configurations := [] |}.

(** The process as it starts on a database [d]. *)
Definition start (d : Database) : World :=
  {| thresholds := default_thresholds; db := d;
     new_anomalies := []; new_alerts := []; journal := [] |}.

(** A reading that holds a heart rate only. *)
Definition heart_rate_reading (patient_id : string) (t : Z) (hr : Q)
  : VitalSign.t :=
  {| VitalSign.patient_id := patient_id;
     VitalSign.timestamp := t;
     VitalSign.heart_rate := Some hr;
     VitalSign.spo2 := None;
     VitalSign.glucose := None;
     VitalSign.blood_pressure_systolic := None;
     VitalSign.blood_pressure_diastolic := None;
     VitalSign.temperature := None;
     VitalSign.device_id := None |}.

(** Ten readings of patient P1 with mean 75 and standard deviation 10. *)
Definition steady_history : Database :=
  {| patients := [];
     vital_signs := map (heart_rate_reading "P1" 1000)
                        [90; 60; 90; 60; 75; 75; 75; 75; 75; 75];
     anomalies := []; alerts := []; alert_configurations := [] |}.

(** A WARNING anomaly of the heart rate of patient P1. *)
Definition warning_anomaly (t : Z) : Anomaly.t :=
  {| Anomaly.patient_id := "P1";
     Anomaly.timestamp := t;
     Anomaly.anomaly_type := "heart_rate";
     Anomaly.confidence_score := 0.65;
     Anomaly.severity := WARNING;
     Anomaly.description := AboveNormal "heart_rate" 21 50 120;
     Anomaly.recommendation := "Consider immediate medical attention";
     Anomaly.is_acknowledged := false |}.

(** Patient A has an active override that narrows spo2 to 94-100;
    patient B has none. *)
Definition spo2_override : AlertConfiguration.t :=
  {| AlertConfiguration.patient_id := "A";
     AlertConfiguration.metric_name := "spo2";
     AlertConfiguration.min_threshold := Some 94;
     AlertConfiguration.max_threshold := Some 100;
     AlertConfiguration.is_active := true;
     AlertConfiguration.notification_email := None |}.

Definition overrides_db : Database :=
  {| patients := []; vital_signs := []; anomalies := []; alerts := [];
     alert_configurations := [spo2_override] |}.

Definition spo2_default : threshold := {| tmin := 90; tmax := 100 |}.

(** Patient A has an active override that gives spo2 a range without
    width. *)
Definition degenerate_override : AlertConfiguration.t :=
  {| AlertConfiguration.patient_id := "A";
     AlertConfiguration.metric_name := "spo2";
     AlertConfiguration.min_threshold := Some 95;
     AlertConfiguration.max_threshold := Some 95;
     AlertConfiguration.is_active := true;
     AlertConfiguration.notification_email := None |}.

Definition degenerate_db : Database :=
  {| patients := []; vital_signs := []; anomalies := []; alerts := [];
     alert_configurations := [degenerate_override] |}.

(** A platform whose database refuses the rows of spo2 anomalies. *)
Definition picky_platform : Platform :=
  {| np_sqrt := sqrt_exact;
     insert_anomaly_ok :=
       fun a => negb (String.eqb (Anomaly.anomaly_type a) "spo2");
     insert_alert_ok := fun _ => true;
     stdout_ok := true;
     get_db_ok := true |}.

(** Patient P1 on record, without and with a notification address for
    heart-rate alerts. *)
Definition patient_P1 : Patient.t :=
  {| Patient.patient_id := "P1"; Patient.name := "Pat One";
     Patient.age := 61; Patient.gender := "OTHER" |}.

Definition clinic_db : Database :=
  {| patients := [patient_P1]; vital_signs := []; anomalies := [];
     alerts := []; alert_configurations := [] |}.



Definition heart_rate_default : threshold := {| tmin := 50; tmax := 120 |}.

(** An INFO anomaly of the heart rate of patient P1: 130 under the
    default range. *)
Definition info_anomaly (t : Z) : Anomaly.t :=
  {| Anomaly.patient_id := "P1";
     Anomaly.timestamp := t;
     Anomaly.anomaly_type := "heart_rate";
     Anomaly.confidence_score :=
       Qmin 0.99 (0.5 + deviation 130 heart_rate_default * 0.5);
     Anomaly.severity := INFO;
     Anomaly.description := AboveNormal "heart_rate" 10 50 120;
     Anomaly.recommendation := "Monitor heart rate closely";
     Anomaly.is_acknowledged := false |}.

(** ** [AlertService.get_alert_statistics]

    From here on a [datetime] counts its microseconds from
    [datetime.min], the first instant of year 1. *)

(** [datetime.max], the last microsecond of year 9999. *)
Definition datetime_max : Z := 315537897599999999.

(** [timedelta(hours=h)]; [None] stands for the [OverflowError] beyond
    999999999 days either way. *)
Definition timedelta_of_hours (h : Z) : option Z :=
  let us := timedelta_hours h in
  if (-999999999 * 86400000000 <=? us)%Z
     && (us <=? 999999999 * 86400000000 + 86399999999)%Z
  then Some us else None.

(** [t - delta]; [None] stands for the [OverflowError] outside
    [datetime.min .. datetime.max]. *)
Definition datetime_minus (t delta : Z) : option Z :=
  let r := (t - delta)%Z in
  if (0 <=? r)%Z && (r <=? datetime_max)%Z then Some r else None.

Record AlertStatistics := {
  total_alerts : nat;
  critical_alerts : nat;
  warning_alerts : nat;
  info_alerts : nat;
  acknowledged_alerts : nat;
  sent_alerts : nat;
  alerts_by_type : gmap string nat;
  alerts_by_patient : gmap string nat
}.

(** [if k not in counts: counts[k] = 0] followed by [counts[k] += 1]. The
    second lookup finds the key the first statement made sure of. *)
Definition count_in (k : string) (counts : gmap string nat) : gmap string nat :=
  let counts1 := match counts !! k with
                 | None => <[k := 0%nat]> counts
                 | Some _ => counts
                 end in
  match counts1 !! k with
  | Some n => <[k := (n + 1)%nat]> counts1
  | None => counts1
  end.

(** The query of the alerts in a time range. *)
Definition alerts_in_window (start_time end_time : Z) (d : Database)
  : list Alert.t :=
  List.filter (fun a => (start_time <=? Alert.timestamp a)%Z
                        && (Alert.timestamp a <=? end_time)%Z)
              (alerts d).

Definition alert_statistics_of (alerts : list Alert.t) : AlertStatistics :=
  {| total_alerts := length alerts;
     critical_alerts :=
       length (List.filter (fun a => SeverityLevel_eqb (Alert.severity a) CRITICAL)
                           alerts);
     warning_alerts :=
       length (List.filter (fun a => SeverityLevel_eqb (Alert.severity a) WARNING)
                           alerts);
     info_alerts :=
       length (List.filter (fun a => SeverityLevel_eqb (Alert.severity a) INFO)
                           alerts);
     acknowledged_alerts := length (List.filter Alert.is_acknowledged alerts);
     sent_alerts := length (List.filter Alert.is_sent alerts);
     alerts_by_type :=
       fold_left (fun counts a => count_in (Alert.alert_type a) counts) alerts ∅;
     alerts_by_patient :=
       fold_left (fun counts a => count_in (Alert.patient_id a) counts) alerts ∅
  |}.

(** The statistics, or [None] for the empty dict the handler returns. The
    function imports [timedelta] itself. *)
Definition get_alert_statistics (hours : Z) (now : Z)
  : W.M (option AlertStatistics) :=
  fun w =>
    let end_time := now in
    match match timedelta_of_hours hours with
          | Some delta => datetime_minus end_time delta
          | None => None
          end with
    | Some start_time =>
        (Ok (Some (alert_statistics_of
                     (alerts_in_window start_time end_time (db w)))), w)
    | None =>
        W.bind (W.emit (Log "Error getting alert statistics"))
               (fun _ => W.ret None) w
    end.

(** ** [app/api]: the endpoints that call the services

    An endpoint runs in a session of its own. The queries of an endpoint
    succeed, as those of the services do, and [db.refresh] reads back the
    row the commit before it wrote. *)

(** The request bodies of [app/models/schemas.py]. *)
Module VitalSignCreate.
Record t := {
  heart_rate : option Q;
  spo2 : option Q;
  glucose : option Q;
  blood_pressure_systolic : option Q;
  blood_pressure_diastolic : option Q;
  temperature : option Q;
  device_id : option string
}.
End VitalSignCreate.

Module PatientCreate.
Record t := {
  patient_id : string;
  name : string;
  age : Z;
  gender : string;
  medical_history : option string;
  emergency_contact : option string
}.
End PatientCreate.

Module PatientStatus.
Record t := {
  patient_id : string;
  name : string;
  status : string;
  latest_vitals : option VitalSign.t;
  recent_anomalies : list Anomaly.t;
  last_updated : option Z
}.
End PatientStatus.

Module Api.

(** What is raised inside an endpoint: an [HTTPException], which is an
    [Exception] too, or another exception. *)
Inductive raised :=
| Http (status_code : Z) (detail : string)
| UnboundLocalError (name : string)
| AttributeError (name : string)
| ValidationError
| Other (e : exn).

Inductive outcome (A : Type) :=
| Value (a : A)
| Raised (r : raised).
Arguments Value {A} a.
Arguments Raised {A} r.

Definition M (A : Type) : Type := World -> outcome A * World.

Definition ret {A} (a : A) : M A := fun w => (Value a, w).

Definition bind {A B} (m : M A) (k : A -> M B) : M B :=
  fun w => match m w with
           | (Value a, w') => k a w'
           | (Raised r, w') => (Raised r, w')
           end.

Definition raise {A} (r : raised) : M A := fun w => (Raised r, w).

Definition raise_http {A} (status_code : Z) (detail : string) : M A :=
  raise (Http status_code detail).

(** A call into a service. *)
Definition lift {A} (m : W.M A) : M A :=
  fun w => match m w with
           | (Ok a, w') => (Value a, w')
           | (Raise e, w') => (Raised (Other e), w')
           end.

(** [try: m except Exception as e: handler e] *)
Definition except_exception {A} (m : M A) (handler : raised -> M A) : M A :=
  fun w => match m w with
           | (Value a, w') => (Value a, w')
           | (Raised r, w') => handler r w'
           end.

(** [try: m except HTTPException: raise except Exception as e: handler e] *)
Definition except_http_reraise {A} (m : M A) (handler : raised -> M A) : M A :=
  fun w => match m w with
           | (Value a, w') => (Value a, w')
           | (Raised (Http s d), w') => (Raised (Http s d), w')
           | (Raised r, w') => handler r w'
           end.

(** [logger.error(f"<origin>: {e}")] *)
Definition log_error (origin : string) (r : raised) : M unit :=
  lift (W.emit (match r with
                | Other e => LogException origin e
                | _ => Log origin
                end)).

(** The verdict of the database engine on the rows the endpoints write,
    and, for the id of an alert, the position in the table of the row
    that carries it. *)
Record Engine := {
  vital_sign_ok : VitalSign.t -> bool;
  patient_ok : Patient.t -> bool;
  alert_update_ok : Alert.t -> bool;
  configuration_ok : AlertConfiguration.t -> bool;
  alert_row : Z -> option nat
}.

(** [db.commit()] of a session that holds one write of the endpoint
    beside the rows it was given by the services: one transaction. *)
Definition commit_with (P : Platform) (row_ok : bool)
    (write : Database -> Database) : M unit :=
  fun w =>
    if row_ok
       && forallb (insert_anomaly_ok P) (new_anomalies w)
       && forallb (insert_alert_ok P) (new_alerts w)
    then (Value tt,
          {| thresholds := thresholds w;
             db := write
                     {| patients := patients (db w);
                        vital_signs := vital_signs (db w);
                        anomalies := anomalies (db w) ++ new_anomalies w;
                        alerts := alerts (db w) ++ new_alerts w;
                        alert_configurations := alert_configurations (db w) |};
             new_anomalies := []; new_alerts := [];
             journal := journal w ++ [Commit] |})
    else (Raised (Other IntegrityError), w).

Definition add_patient (row : Patient.t) (d : Database) : Database :=
  {| patients := patients d ++ [row]; vital_signs := vital_signs d;
     anomalies := anomalies d; alerts := alerts d;
     alert_configurations := alert_configurations d |}.

Definition add_vital_sign (row : VitalSign.t) (d : Database) : Database :=
  {| patients := patients d; vital_signs := vital_signs d ++ [row];
     anomalies := anomalies d; alerts := alerts d;
     alert_configurations := alert_configurations d |}.

Definition add_configuration (row : AlertConfiguration.t) (d : Database)
  : Database :=
  {| patients := patients d; vital_signs := vital_signs d;
     anomalies := anomalies d; alerts := alerts d;
     alert_configurations := alert_configurations d ++ [row] |}.


Definition set_configuration (i : nat) (row : AlertConfiguration.t)
    (d : Database) : Database :=
  {| patients := patients d; vital_signs := vital_signs d;
     anomalies := anomalies d; alerts := alerts d;
     alert_configurations := <[i := row]> (alert_configurations d) |}.

(** [query.order_by(<key>.desc())]; rows of one key stay in the order of
    the table. *)
Fixpoint insert_desc {A} (key : A -> Z) (x : A) (l : list A) : list A :=
  match l with
  | [] => [x]
  | y :: rest => if (key y <=? key x)%Z then x :: y :: rest
                 else y :: insert_desc key x rest
  end.

Definition order_by_desc {A} (key : A -> Z) (l : list A) : list A :=
  fold_right (insert_desc key) [] l.

(** *** [app/api/patients.py] *)

Definition find_patient (patient_id : string) (d : Database)
  : option Patient.t :=
  head (List.filter (fun p => String.eqb (Patient.patient_id p) patient_id)
                    (patients d)).

(** The row [Patient] built from the items of [patient.dict()]; the
    table of the model keeps the columns the services read. *)
Definition patient_row (patient : PatientCreate.t) : Patient.t :=
  {| Patient.patient_id := PatientCreate.patient_id patient;
     Patient.name := PatientCreate.name patient;
     Patient.age := PatientCreate.age patient;
     Patient.gender := PatientCreate.gender patient |}.

Definition py_float (o : option Q) : pyval :=
  match o with Some x => PyFloat x | None => PyNone end.

Definition py_str (o : option string) : pyval :=
  match o with Some s => PyStr s | None => PyNone end.

(** [vitals.dict()] with the two items the endpoint adds. *)
Definition vitals_data_of (patient_id : string) (vitals : VitalSignCreate.t)
    (now : Z) : list (string * pyval) :=
  [ ("heart_rate", py_float (VitalSignCreate.heart_rate vitals));
    ("spo2", py_float (VitalSignCreate.spo2 vitals));
    ("glucose", py_float (VitalSignCreate.glucose vitals));
    ("blood_pressure_systolic",
     py_float (VitalSignCreate.blood_pressure_systolic vitals));
    ("blood_pressure_diastolic",
     py_float (VitalSignCreate.blood_pressure_diastolic vitals));
    ("temperature", py_float (VitalSignCreate.temperature vitals));
    ("device_id", py_str (VitalSignCreate.device_id vitals));
    ("patient_id", PyStr patient_id);
    ("timestamp", PyDatetime now) ].

(** The row [VitalSign] built from the items of [vitals_data]. *)
Definition vital_sign_row (patient_id : string) (vitals : VitalSignCreate.t)
    (now : Z) : VitalSign.t :=
  {| VitalSign.patient_id := patient_id;
     VitalSign.timestamp := now;
     VitalSign.heart_rate := VitalSignCreate.heart_rate vitals;
     VitalSign.spo2 := VitalSignCreate.spo2 vitals;
     VitalSign.glucose := VitalSignCreate.glucose vitals;
     VitalSign.blood_pressure_systolic :=
       VitalSignCreate.blood_pressure_systolic vitals;
     VitalSign.blood_pressure_diastolic :=
       VitalSignCreate.blood_pressure_diastolic vitals;
     VitalSign.temperature := VitalSignCreate.temperature vitals;
     VitalSign.device_id := VitalSignCreate.device_id vitals |}.

(** [status.<attribute>] inside [get_current_status]. The function
    assigns to [status], so the name is a local of it everywhere in its
    body, and never the module [fastapi.status]: unbound before the
    assignment, a [str] after it. *)
Definition status_attribute {A} (status : option string) (attribute : string)
  : M A :=
  match status with
  | None => raise (UnboundLocalError "status")
  | Some _ => raise (AttributeError attribute)
  end.

Section Patients.

(** The globals of the module of the alert service, the platform of the
    services and the engine. *)
Variable globals : list string.
Variable P : Platform.
Variable E : Engine.

(** [create_patient]; the handler catches the [HTTPException] of the
    body as well. *)
Definition create_patient (patient : PatientCreate.t) : M Patient.t :=
  except_exception
    (bind (lift W.get) (fun w =>
     match find_patient (PatientCreate.patient_id patient) (db w) with
     | Some _ => raise_http 400 "Patient with this ID already exists"
     | None =>
         let db_patient := patient_row patient in
         bind (commit_with P (patient_ok E db_patient) (add_patient db_patient))
           (fun _ =>
         bind (lift (W.emit (Log "Created new patient")))
           (fun _ => ret db_patient))
     end))
    (fun r =>
       bind (log_error "Error creating patient" r) (fun _ =>
       bind (lift W.rollback) (fun _ =>
       raise_http 500 "Failed to create patient"))).

(** [get_patient] *)
Definition get_patient (patient_id : string) : M Patient.t :=
  except_http_reraise
    (bind (lift W.get) (fun w =>
     match find_patient patient_id (db w) with
     | None => raise_http 404 "Patient not found"
     | Some patient => ret patient
     end))
    (fun r =>
       bind (log_error "Error fetching patient" r) (fun _ =>
       raise_http 500 "Failed to fetch patient")).

(** The inner [try] of [record_vital_signs]: detection on the sample,
    and the alerts of what it found. *)
Definition run_detection (patient_id : string)
    (vitals_data : list (string * pyval)) (detection_time alert_time : Z)
  : M unit :=
  except_exception
    (bind (lift (detect_anomalies P patient_id vitals_data detection_time))
       (fun anomalies =>
        match anomalies with
        | [] => ret tt
        | _ :: _ =>
            bind (lift (W.emit (Log "Detected anomalies for patient")))
              (fun _ =>
            bind (lift (check_and_create_alerts globals P patient_id
                          anomalies alert_time))
              (fun _ => ret tt))
        end))
    (fun r => log_error "Error in anomaly detection" r).

(** [record_vital_signs]; [now] is the clock the endpoint reads, and
    [detection_time] and [alert_time] are the clocks the two services
    read after it. *)
Definition record_vital_signs (patient_id : string)
    (vitals : VitalSignCreate.t) (now detection_time alert_time : Z)
  : M VitalSign.t :=
  except_http_reraise
    (bind (lift W.get) (fun w =>
     match find_patient patient_id (db w) with
     | None => raise_http 404 "Patient not found"
     | Some patient =>
         let vitals_data := vitals_data_of patient_id vitals now in
         let db_vitals := vital_sign_row patient_id vitals now in
         bind (commit_with P (vital_sign_ok E db_vitals)
                 (add_vital_sign db_vitals)) (fun _ =>
         bind (run_detection patient_id vitals_data detection_time
                 alert_time) (fun _ =>
         bind (lift (W.emit (Log "Recorded vital signs for patient")))
           (fun _ => ret db_vitals)))
     end))
    (fun r =>
       bind (log_error "Error recording vital signs" r) (fun _ =>
       bind (lift W.rollback) (fun _ =>
       raise_http 500 "Failed to record vital signs"))).

(** The value the body of [get_current_status] assigns to [status]. *)
Definition overall_status (recent_anomalies : list Anomaly.t) : string :=
  match recent_anomalies with
  | [] => "NORMAL"
  | _ :: _ =>
      let critical_anomalies :=
        List.filter (fun a => SeverityLevel_eqb (Anomaly.severity a) CRITICAL)
                    recent_anomalies in
      let warning_anomalies :=
        List.filter (fun a => SeverityLevel_eqb (Anomaly.severity a) WARNING)
                    recent_anomalies in
      match critical_anomalies with
      | _ :: _ => "CRITICAL"
      | [] => match warning_anomalies with
              | _ :: _ => "WARNING"
              | [] => "INFO"
              end
      end
  end.

(** The handler of [get_current_status], where the local [status] is as
    given. *)
Definition get_current_status_handler (status : option string) (r : raised)
  : M PatientStatus.t :=
  bind (log_error "Error fetching patient status" r) (fun _ =>
  status_attribute status "HTTP_500_INTERNAL_SERVER_ERROR").

(** The [PatientStatus] the body of [get_current_status] builds for a
    patient it found, from its two other queries. *)
Definition patient_status (patient_id : string) (now : Z) (d : Database)
    (patient : Patient.t) : PatientStatus.t :=
  let latest_vitals :=
    head (order_by_desc VitalSign.timestamp
            (List.filter (fun v => String.eqb (VitalSign.patient_id v)
                                              patient_id)
                         (vital_signs d))) in
  let recent_anomalies :=
    order_by_desc Anomaly.timestamp
      (List.filter (fun a => String.eqb (Anomaly.patient_id a) patient_id
                             && (now - timedelta_hours 24
                                 <=? Anomaly.timestamp a)%Z)
                   (anomalies d)) in
  let status := overall_status recent_anomalies in
  {| PatientStatus.patient_id := patient_id;
     PatientStatus.name := Patient.name patient;
     PatientStatus.status := status;
     PatientStatus.latest_vitals := latest_vitals;
     PatientStatus.recent_anomalies := recent_anomalies;
     PatientStatus.last_updated :=
       match latest_vitals with
       | Some v => Some (VitalSign.timestamp v)
       | None => None
       end |}.

(** [get_current_status]; [validates] is the verdict of the response
    model on the fields it is built from. *)
Definition get_current_status (validates : PatientStatus.t -> bool)
    (patient_id : string) (now : Z) : M PatientStatus.t :=
  bind (lift W.get) (fun w =>
  match find_patient patient_id (db w) with
  | None =>
      except_http_reraise
        (status_attribute None "HTTP_404_NOT_FOUND")
        (get_current_status_handler None)
  | Some patient =>
      let response := patient_status patient_id now (db w) patient in
      except_http_reraise
        (if validates response then ret response else raise ValidationError)
        (get_current_status_handler (Some (PatientStatus.status response)))
  end).

End Patients.

(** *** [app/api/alerts.py] *)

(** The first row of a table that a filter keeps, with its position. *)
Fixpoint first_at {A} (f : A -> bool) (l : list A) : option (nat * A) :=
  match l with
  | [] => None
  | x :: rest =>
      if f x then Some (O, x)
      else match first_at f rest with
           | Some (i, y) => Some (S i, y)
           | None => None
           end
  end.


(** The filter of the query of [create_alert_configuration]: the
    configurations of the patient and the metric of [config]. *)
Definition same_key (config c : AlertConfiguration.t) : bool :=
  String.eqb (AlertConfiguration.patient_id c)
             (AlertConfiguration.patient_id config)
  && String.eqb (AlertConfiguration.metric_name c)
                (AlertConfiguration.metric_name config).


Section Alerts.

Variable P : Platform.
Variable E : Engine.


(** [create_alert_configuration]; [config.dict()] has the columns of the
    row. *)
Definition create_alert_configuration (config : AlertConfiguration.t)
  : M AlertConfiguration.t :=
  except_exception
    (bind (lift W.get) (fun w =>
     match first_at (same_key config) (alert_configurations (db w)) with
     | Some (i, existing) =>
         let existing :=
           {| AlertConfiguration.patient_id :=
                AlertConfiguration.patient_id existing;
              AlertConfiguration.metric_name :=
                AlertConfiguration.metric_name existing;
              AlertConfiguration.min_threshold :=
                AlertConfiguration.min_threshold config;
              AlertConfiguration.max_threshold :=
                AlertConfiguration.max_threshold config;
              AlertConfiguration.is_active :=
                AlertConfiguration.is_active config;
              AlertConfiguration.notification_email :=
                AlertConfiguration.notification_email config |} in
         bind (commit_with P (configuration_ok E existing)
                 (set_configuration i existing))
           (fun _ => ret existing)
     | None =>
         let new_config := config in
         bind (commit_with P (configuration_ok E new_config)
                 (add_configuration new_config))
           (fun _ => ret new_config)
     end))
    (fun r =>
       bind (log_error "Error creating alert configuration" r) (fun _ =>
       bind (lift W.rollback) (fun _ =>
       raise_http 500 "Failed to create alert configuration"))).

End Alerts.

End Api.

(** ** Vocabulary of the further properties *)

(** The bound the overrides of a list leave for one side of the range of
    a metric: the one of the last configuration of the metric that sets
    that side. *)
Definition last_bound (side : AlertConfiguration.t -> option Q)
    (metric : string) (configs : list AlertConfiguration.t) : option Q :=
  fold_left (fun acc c =>
               if String.eqb (AlertConfiguration.metric_name c) metric
               then match side c with Some b => Some b | None => acc end
               else acc)
            configs None.

(** A range with each bound replaced by the last override of it. *)
Definition overridden (configs : list AlertConfiguration.t) (metric : string)
    (t : threshold) : threshold :=
  {| tmin := default (tmin t)
               (last_bound AlertConfiguration.min_threshold metric configs);
     tmax := default (tmax t)
               (last_bound AlertConfiguration.max_threshold metric configs) |}.

(** A configuration switched off, and a database with every
    configuration switched off. *)
Definition deactivate (c : AlertConfiguration.t) : AlertConfiguration.t :=
  {| AlertConfiguration.patient_id := AlertConfiguration.patient_id c;
     AlertConfiguration.metric_name := AlertConfiguration.metric_name c;
     AlertConfiguration.min_threshold := AlertConfiguration.min_threshold c;
     AlertConfiguration.max_threshold := AlertConfiguration.max_threshold c;
     AlertConfiguration.is_active := false;
     AlertConfiguration.notification_email :=
       AlertConfiguration.notification_email c |}.

Definition deactivate_all (d : Database) : Database :=
  {| patients := patients d; vital_signs := vital_signs d;
     anomalies := anomalies d; alerts := alerts d;
     alert_configurations := map deactivate (alert_configurations d) |}.

(** A count as a dict of counts holds it: a key that was never counted is
    absent. *)
Definition counted (n : nat) : option nat :=
  match n with O => None | S _ => Some n end.

(** The number of alerts of a list that a projection sends to a key. *)
Definition occurrences (key : Alert.t -> string) (k : string)
    (alerts : list Alert.t) : nat :=
  length (List.filter (fun a => String.eqb (key a) k) alerts).

(** The sum of the counts of a dict. *)
Definition sum_counts (counts : gmap string nat) : nat :=
  map_fold (fun _ n acc => (n + acc)%nat) 0%nat counts.

(** Three alerts of two patients, 10, 95 and 99 hours after the first
    instant. *)
Definition alert_at (patient_id alert_type : string) (hours : Z) : Alert.t :=
  {| Alert.patient_id := patient_id;
     Alert.alert_type := alert_type;
     Alert.severity := WARNING;
     Alert.message := _generate_alert_message (warning_anomaly 0);
     Alert.timestamp := timedelta_hours hours;
     Alert.is_sent := false;
     Alert.is_acknowledged := false;
     Alert.acknowledged_by := None;
     Alert.acknowledged_at := None |}.

Definition alerts_db : Database :=
  {| patients := [patient_P1]; vital_signs := []; anomalies := [];
     alerts := [ alert_at "P1" "heart_rate" 10;
                 alert_at "P1" "heart_rate" 95;
                 alert_at "P2" "spo2" 99 ];
     alert_configurations := [] |}.

(** The pair a configuration is looked up by. *)
Definition configuration_key (c : AlertConfiguration.t) : string * string :=
  (AlertConfiguration.patient_id c, AlertConfiguration.metric_name c).

(** The table of configurations after a call that returned. *)
Definition upserted (config : AlertConfiguration.t)
    (configs : list AlertConfiguration.t) : list AlertConfiguration.t :=
  match Api.first_at (Api.same_key config) configs with
  | Some (i, _) => <[i := config]> configs
  | None => (configs ++ [config])%list
  end.

(** ** Worked inputs of the endpoints *)

(** An engine that accepts every row, with the ids of a table that
    was filled from empty: the row at position [i] has id [i + 1]. *)
Definition lenient_engine : Api.Engine :=
  {| Api.vital_sign_ok := fun _ => true;
     Api.patient_ok := fun _ => true;
     Api.alert_update_ok := fun _ => true;
     Api.configuration_ok := fun _ => true;
     Api.alert_row := fun alert_id =>
                        if (1 <=? alert_id)%Z
                        then Some (Z.to_nat (alert_id - 1))
                        else None |}.

(** Requests that hold one measurement. *)
Definition heart_rate_request (hr : Q) : VitalSignCreate.t :=
  {| VitalSignCreate.heart_rate := Some hr;
     VitalSignCreate.spo2 := None;
     VitalSignCreate.glucose := None;
     VitalSignCreate.blood_pressure_systolic := None;
     VitalSignCreate.blood_pressure_diastolic := None;
     VitalSignCreate.temperature := None;
     VitalSignCreate.device_id := Some "watch-7" |}.

Definition spo2_request (x : Q) : VitalSignCreate.t :=
  {| VitalSignCreate.heart_rate := None;
     VitalSignCreate.spo2 := Some x;
     VitalSignCreate.glucose := None;
     VitalSignCreate.blood_pressure_systolic := None;
     VitalSignCreate.blood_pressure_diastolic := None;
     VitalSignCreate.temperature := None;
     VitalSignCreate.device_id := None |}.

(** Patient A on record, with the override that gives spo2 a range
    without width. *)
Definition patient_A : Patient.t :=
  {| Patient.patient_id := "A"; Patient.name := "Pat A";
     Patient.age := 40; Patient.gender := "FEMALE" |}.

Definition ward_db : Database :=
  {| patients := [patient_A]; vital_signs := []; anomalies := [];
     alerts := []; alert_configurations := [degenerate_override] |}.

(** Patient P1 with three anomalies on record: a WARNING at the first
    instant, an acknowledged WARNING 30 hours later and an INFO 47 hours
    later. *)
Definition acknowledged_anomaly (a : Anomaly.t) : Anomaly.t :=
  {| Anomaly.patient_id := Anomaly.patient_id a;
     Anomaly.timestamp := Anomaly.timestamp a;
     Anomaly.anomaly_type := Anomaly.anomaly_type a;
     Anomaly.confidence_score := Anomaly.confidence_score a;
     Anomaly.severity := Anomaly.severity a;
     Anomaly.description := Anomaly.description a;
     Anomaly.recommendation := Anomaly.recommendation a;
     Anomaly.is_acknowledged := true |}.

Definition observed_db : Database :=
  {| patients := [patient_P1]; vital_signs := [];
     anomalies := [ warning_anomaly 0;
                    acknowledged_anomaly (warning_anomaly (timedelta_hours 30));
                    info_anomaly (timedelta_hours 47) ];
     alerts := []; alert_configurations := [] |}.

(** The request body of patient P1. *)
Definition patient_P1_request : PatientCreate.t :=
  {| PatientCreate.patient_id := "P1"; PatientCreate.name := "Pat One";
     PatientCreate.age := 61; PatientCreate.gender := "OTHER";
     PatientCreate.medical_history := None;
     PatientCreate.emergency_contact := Some "555-0100" |}.

(** Patient P1 with nine readings on record, one short of the ten the
    statistical detector asks for. *)
Definition nine_readings_db : Database :=
  {| patients := [patient_P1];
     vital_signs := map (heart_rate_reading "P1" 1000)
                        [74; 76; 76; 76; 78; 78; 80; 80; 80];
     anomalies := []; alerts := []; alert_configurations := [] |}.

(** * Properties *)

(** ** Arithmetic of the runtime *)

Lemma Qlt_bool_iff x y : Qlt_bool x y = true <-> x < y.
Proof.
  unfold Qlt_bool. rewrite negb_true_iff.
  split; intros H.
  - apply Qnot_le_lt. intros Hle. apply Qle_bool_iff in Hle. congruence.
  - destruct (Qle_bool y x) eqn:E; [|reflexivity].
    apply Qle_bool_iff in E. exfalso. apply (Qlt_not_le _ _ H E).
Qed.

Lemma Qlt_bool_false x y : Qlt_bool x y = false <-> y <= x.
Proof.
  unfold Qlt_bool. rewrite negb_false_iff. apply Qle_bool_iff.
Qed.

Lemma div_ok a b : ~ b == 0 -> div a b = Ok (a / b).
Proof.
  intros H. unfold div. destruct (Qeq_bool b 0) eqn:E; [|reflexivity].
  apply Qeq_bool_iff in E. contradiction.
Qed.

Lemma div_zero a b : b == 0 -> div a b = Raise ZeroDivisionError.
Proof.
  intros H. unfold div. apply Qeq_bool_iff in H. now rewrite H.
Qed.

Lemma SeverityLevel_eqb_eq a b : SeverityLevel_eqb a b = true <-> a = b.
Proof. destruct a, b; simpl; split; congruence. Qed.

(** ** The classifier of threshold anomalies *)

Lemma deviation_computed value th :
  ~ tmax th - tmin th == 0 ->
  (if Qlt_bool value (tmin th)
   then div (tmin th - value) (tmax th - tmin th)
   else div (value - tmax th) (tmax th - tmin th)) = Ok (deviation value th).
Proof.
  intros H. unfold deviation.
  destruct (Qlt_bool value (tmin th)); now apply div_ok.
Qed.

Lemma determine_severity_of_deviation metric value th :
  ~ tmax th - tmin th == 0 ->
  _determine_severity metric value th =
  Ok (if Qlt_bool 0.5 (deviation value th) then CRITICAL
      else if Qlt_bool 0.2 (deviation value th) then WARNING
      else INFO).
Proof.
  intros H. unfold _determine_severity. cbv zeta.
  rewrite (deviation_computed _ _ H). simpl.
  destruct (Qlt_bool 0.5 _); [reflexivity|].
  destruct (Qlt_bool 0.2 _); reflexivity.
Qed.

Lemma calculate_confidence_of_deviation metric value th :
  ~ tmax th - tmin th == 0 ->
  _calculate_confidence metric value th =
  Ok (Qmin 0.99 (0.5 + deviation value th * 0.5)).
Proof.
  intros H. unfold _calculate_confidence. cbv zeta.
  now rewrite (deviation_computed _ _ H).
Qed.



(** ** The threshold detector *)

Lemma threshold_item_flags th metric value :
  (forall t, th !! metric = Some t -> ~ tmax t - tmin t == 0) ->
  (is_Some (th !! metric) -> number_or_none value = true) ->
  exists here,
    threshold_item th metric value = Ok here
    /\ Forall2 candidate_of (flagged_item th (metric, value)) here.
Proof.
  intros Hw Hn. unfold threshold_item, flagged_item. simpl.
  destruct value as [|x|s|t0]; simpl.
  - exists []. split; [reflexivity|]. destruct (th !! metric); constructor.
  - destruct (th !! metric) as [t|] eqn:Et.
    + specialize (Hw t eq_refl). unfold outside.
      destruct (Qlt_bool x (tmin t) || Qlt_bool (tmax t) x).
      * rewrite (determine_severity_of_deviation _ _ _ Hw).
        rewrite (calculate_confidence_of_deviation _ _ _ Hw). simpl.
        eexists. split; [reflexivity|].
        constructor; [|constructor].
        unfold candidate_of, severity_of_deviation. simpl. auto.
      * exists []. split; [reflexivity|constructor].
    + exists []. split; [reflexivity|constructor].
  - destruct (th !! metric) as [t|] eqn:Et.
    + discriminate Hn. eauto.
    + exists []. split; [reflexivity|constructor].
  - destruct (th !! metric) as [t|] eqn:Et.
    + discriminate Hn. eauto.
    + exists []. split; [reflexivity|constructor].
Qed.


Lemma default_ranges_have_width metric t :
  default_thresholds !! metric = Some t -> ~ tmax t - tmin t == 0.
Proof.
  unfold default_thresholds. intros H.
  repeat (apply lookup_insert_Some in H;
          destruct H as [[_ <-]|[_ H]]; [intros E; discriminate E|]).
  rewrite lookup_empty in H. discriminate H.
Qed.



(** ** The statistical detector *)

Section StatisticalDetector.

Variable sqrt : Q -> Q.

Lemma statistical_item_flags history metric value :
  (is_Some (df_column metric) -> number_or_none value = true) ->
  exists here,
    statistical_item sqrt history metric value = Ok here
    /\ Forall2 statistical_candidate_of
         (statistically_flagged_item sqrt history (metric, value)) here.
Proof.
  intros Hn. unfold statistical_item, statistically_flagged_item.
  cbn [fst snd].
  destruct value as [|x|s|t0]; cbn [is_none as_number Py.bind].
  - exists []. split; [reflexivity|]. destruct (df_column metric); constructor.
  - destruct (df_column metric) as [col|].
    + destruct (length (dropna (map col history)) <? 5)%nat.
      { exists []. split; [reflexivity|constructor]. }
      destruct (Qeq_bool (std sqrt (dropna (map col history))) 0).
      { exists []. split; [reflexivity|constructor]. }
      fold (z_score_of sqrt (dropna (map col history)) x).
      destruct (Qlt_bool 2.5 (z_score_of sqrt (dropna (map col history)) x)).
      * eexists. split; [reflexivity|].
        constructor; [|constructor]. split; reflexivity.
      * exists []. split; [reflexivity|constructor].
    + exists []. split; [reflexivity|constructor].
  - destruct (df_column metric).
    + discriminate Hn. eauto.
    + exists []. split; [reflexivity|constructor].
  - destruct (df_column metric).
    + discriminate Hn. eauto.
    + exists []. split; [reflexivity|constructor].
Qed.

Lemma statistical_loop_flags history vitals_data :
  (forall metric value,
     In (metric, value) vitals_data -> is_Some (df_column metric) ->
     number_or_none value = true) ->
  exists out,
    statistical_loop sqrt history vitals_data = Ok out
    /\ Forall2 statistical_candidate_of
         (statistically_flagged sqrt history vitals_data) out.
Proof.
  induction vitals_data as [|[metric value] rest IH]; intros Hn.
  - exists []. split; [reflexivity|constructor].
  - destruct IH as (more & Hmore & Fmore).
    { intros m v Hin. apply Hn. now right. }
    destruct (statistical_item_flags history metric value)
      as (here & Hhere & Fhere).
    { apply Hn. now left. }
    exists (here ++ more)%list. split.
    + simpl. rewrite Hhere. simpl. rewrite Hmore. reflexivity.
    + unfold statistically_flagged. simpl. apply Forall2_app; assumption.
Qed.

End StatisticalDetector.



(** ** The classifier of statistical anomalies *)

(** C7, as the specification states it, fails at a z-score of exactly
    2.5: the classifier answers INFO, not WARNING. *)
Lemma statistical_severity_at_boundary :
  _determine_statistical_severity 2.5 = INFO
  /\ _determine_statistical_severity 2.5 <> WARNING.
Proof. split; [reflexivity|discriminate]. Qed.

(** C7, as the code has it. The classifier maps [z > 3.0] to CRITICAL,
    [2.5 < z <= 3.0] to WARNING and [z <= 2.5], 2.5 included, to INFO;
    the detector calls it above 2.5 only. For a history with mean 75 and
    standard deviation 10 and a current value of 110 the z-score is 3.5
    and the detector emits one anomaly, CRITICAL, of confidence 0.99. *)
Theorem statistical_severity_classes :
  (forall z,
     (3.0 < z -> _determine_statistical_severity z = CRITICAL)
     /\ (2.5 < z -> z <= 3.0 -> _determine_statistical_severity z = WARNING)
     /\ (z <= 2.5 -> _determine_statistical_severity z = INFO))
  /\ (forall sqrt patient_id now db,
        let history := historical_vitals patient_id now db in
        let data := dropna (map VitalSign.heart_rate history) in
        (10 <= length history)%nat -> (5 <= length data)%nat ->
        mean data == 75 -> std sqrt data == 10 ->
        z_score_of sqrt data 110 == 3.5
        /\ exists a,
             detect_statistical_anomalies sqrt patient_id
               [("heart_rate", PyFloat 110)] now db = Ok [a]
             /\ anomaly_type a = "heart_rate_statistical"
             /\ severity a = CRITICAL
             /\ confidence_score a == 0.99).
Proof.
  split.
  - intros z. unfold _determine_statistical_severity. repeat split.
    + intros H. apply Qlt_bool_iff in H. now rewrite H.
    + intros H1 H2. apply Qlt_bool_iff in H1. apply Qlt_bool_false in H2.
      now rewrite H2, H1.
    + intros H.
      assert (H3 : z <= 3.0) by lra.
      apply Qlt_bool_false in H, H3. now rewrite H3, H.
  - intros sqrt patient_id now db history data Hh Hd Hm Hs.
    assert (Hz : z_score_of sqrt data 110 == 3.5).
    { unfold z_score_of. rewrite Hm, Hs. reflexivity. }
    split; [exact Hz|].
    unfold detect_statistical_anomalies. fold history.
    apply Nat.ltb_ge in Hh. rewrite Hh.
    cbn [statistical_loop]. unfold statistical_item.
    cbn [is_none as_number Py.bind].
    change (df_column "heart_rate") with (Some VitalSign.heart_rate).
    cbv beta iota zeta. fold data.
    apply Nat.ltb_ge in Hd. rewrite Hd.
    destruct (Qeq_bool (std sqrt data) 0) eqn:Ez.
    { apply Qeq_bool_iff in Ez. rewrite Hs in Ez. discriminate Ez. }
    fold (z_score_of sqrt data 110).
    assert (H25 : Qlt_bool 2.5 (z_score_of sqrt data 110) = true).
    { apply Qlt_bool_iff. rewrite Hz. reflexivity. }
    rewrite H25. cbn [Py.bind app].
    eexists. split; [reflexivity|].
    cbn [anomaly_type severity confidence_score].
    split; [reflexivity|]. split.
    + unfold _determine_statistical_severity.
      assert (H3 : Qlt_bool 3.0 (z_score_of sqrt data 110) = true).
      { apply Qlt_bool_iff. rewrite Hz. reflexivity. }
      now rewrite H3.
    + apply Q.min_l. rewrite Hz. discriminate.
Qed.

Lemma statistical_severity_classes_witness :
  z_score_of sqrt_exact
    (dropna (map VitalSign.heart_rate
                 (historical_vitals "P1" 2000 steady_history))) 110 == 3.5
  /\ exists a,
       detect_statistical_anomalies sqrt_exact "P1"
         [("heart_rate", PyFloat 110)] 2000 steady_history = Ok [a]
       /\ anomaly_type a = "heart_rate_statistical"
       /\ severity a = CRITICAL
       /\ confidence_score a == 0.99.
Proof.
  apply (proj2 statistical_severity_classes sqrt_exact "P1" 2000%Z steady_history).
  - apply Nat.leb_le. reflexivity.
  - apply Nat.leb_le. reflexivity.
  - reflexivity.
  - reflexivity.
Defined.

(** ** The alert service, as the module is written *)

Lemma alert_item_as_written patient_id now anomaly w :
  alert_item alert_service_globals patient_id now anomaly w =
  (if qualifies anomaly then Raise (NameError "timedelta") else Ok [], w).
Proof.
  unfold alert_item, W.bind. fold (qualifies anomaly).
  change (W.load_global alert_service_globals "SeverityLevel" w)
    with (Ok tt, w).
  cbv beta iota.
  destruct (qualifies anomaly); reflexivity.
Qed.

Lemma alerts_loop_as_written patient_id now anomalies w :
  alerts_loop alert_service_globals patient_id now anomalies w =
  (if existsb qualifies anomalies
   then Raise (NameError "timedelta") else Ok [], w).
Proof.
  induction anomalies as [|anomaly rest IH]; [reflexivity|].
  cbn [alerts_loop existsb]. unfold W.bind at 1.
  rewrite alert_item_as_written.
  destruct (qualifies anomaly); [reflexivity|].
  cbn [orb]. unfold W.bind at 1. rewrite IH.
  destruct (existsb qualifies rest); reflexivity.
Qed.

(** C1, on the code as written. [check_and_create_alerts] never creates
    an alert: the module never imports [timedelta], so the query of the
    recent alert raises [NameError] for every WARNING or CRITICAL
    anomaly, and the handler rolls back and returns the empty list. With
    no alert on record, a qualifying anomaly produces no AlertRecord, and
    neither does a second one 90 minutes later. *)
Theorem no_alert_is_created_as_written :
  (forall P patient_id anomalies now w,
     exists w',
       check_and_create_alerts alert_service_globals P patient_id
         anomalies now w = (Ok [], w')
       /\ db w' = db w
       /\ (existsb qualifies anomalies = true ->
           new_alerts w' = []
           /\ journal w'
              = (journal w
                 ++ [LogException "Error creating alerts"
                       (NameError "timedelta");
                     Rollback])%list))
  /\ (let first_call :=
        check_and_create_alerts alert_service_globals sound_platform "P1"
          [warning_anomaly 0] 0 (start empty_db) in
      let second_call :=
        check_and_create_alerts alert_service_globals sound_platform "P1"
          [warning_anomaly (timedelta_minutes 90)] (timedelta_minutes 90)
          (snd first_call) in
      admitted "P1" 0 empty_db [warning_anomaly 0] = [warning_anomaly 0]
      /\ fst first_call = Ok []
      /\ alerts (db (snd first_call)) = []
      /\ fst second_call = Ok []
      /\ alerts (db (snd second_call)) = []).
Proof.
  split.
  - intros P patient_id anomalies now w.
    unfold check_and_create_alerts, W.try_except,
      check_and_create_alerts_try.
    unfold W.bind at 1. rewrite alerts_loop_as_written.
    destruct (existsb qualifies anomalies).
    + eexists. split; [reflexivity|]. split; [reflexivity|].
      intros _. split; [reflexivity|].
      cbn. rewrite <- app_assoc. reflexivity.
    + exists w. split; [reflexivity|]. split; [reflexivity|].
      intros H. discriminate H.
  - vm_compute. repeat split.
Qed.

(** ** The shared threshold map *)

(** C2, on the code as written. [detect_anomalies] writes a patient's
    overrides into the one threshold map of the process and never
    restores it. After a call for patient A, whose override narrows spo2
    to 94-100, the shared map holds 94-100, and a later call for patient
    B, who has no override, flags an spo2 of 93, which lies inside the
    default range 90-100 and which a fresh process does not flag. *)
Theorem override_leaks_to_other_patients :
  let after_A :=
    snd (detect_anomalies sound_platform "A" [("spo2", PyFloat 95)] 1000
           (start overrides_db)) in
  let call_B := detect_anomalies sound_platform "B" [("spo2", PyFloat 93)] 2000 in
  custom_configs "B" overrides_db = []
  /\ default_thresholds !! "spo2" = Some spo2_default
  /\ outside 93 spo2_default = false
  /\ thresholds after_A !! "spo2" = Some {| tmin := 94; tmax := 100 |}
  /\ thresholds after_A <> default_thresholds
  /\ fst (call_B (start overrides_db)) = Ok []
  /\ exists a,
       fst (call_B after_A) = Ok [a]
       /\ Anomaly.patient_id a = "B"
       /\ Anomaly.anomaly_type a = "spo2"
       /\ Anomaly.description a = BelowNormal "spo2" 1 94 100.
Proof.
  cbv zeta.
  split; [reflexivity|]. split; [reflexivity|]. split; [reflexivity|].
  split; [vm_compute; reflexivity|].
  split.
  { intros E.
    assert (H : thresholds
                  (snd (detect_anomalies sound_platform "A"
                          [("spo2", PyFloat 95)] 1000 (start overrides_db)))
                !! "spo2" = Some spo2_default)
      by (rewrite E; reflexivity).
    vm_compute in H. discriminate H. }
  split; [vm_compute; reflexivity|].
  eexists. split; [vm_compute; reflexivity|].
  repeat split.
Qed.

(** ** [detect_anomalies]: what a call leaves behind *)

Lemma save_anomalies_adds patient_id now all w :
  save_anomalies patient_id now all w =
  (Ok (map (make_anomaly patient_id now) all),
   {| thresholds := thresholds w; db := db w;
      new_anomalies :=
        (new_anomalies w ++ map (make_anomaly patient_id now) all)%list;
      new_alerts := new_alerts w; journal := journal w |}).
Proof.
  revert w. induction all as [|d rest IH]; intros w.
  - cbn. rewrite app_nil_r. destruct w; reflexivity.
  - cbn [save_anomalies map]. unfold W.bind at 1. unfold W.add_anomaly.
    unfold W.bind at 1. rewrite IH. cbn.
    rewrite <- app_assoc. reflexivity.
Qed.

(** The thresholds a call for a patient leaves in the shared map. *)
Lemma detect_anomalies_outcome P patient_id vitals_data now w :
  let th' :=
    fold_left apply_config (custom_configs patient_id (db w)) (thresholds w) in
  exists l w',
    detect_anomalies P patient_id vitals_data now w = (Ok l, w')
    /\ thresholds w' = th'
    /\ ((exists th st,
           detect_threshold_anomalies th' vitals_data = Ok th
           /\ detect_statistical_anomalies (np_sqrt P) patient_id vitals_data
                now (db w) = Ok st
           /\ l = map (make_anomaly patient_id now) (th ++ st)
           /\ Forall (fun a => In a (anomalies (db w'))) l)
        \/ (l = []
            /\ db w' = db w
            /\ new_anomalies w' = [] /\ new_alerts w' = []
            /\ exists e w1,
                 detect_anomalies_try P patient_id vitals_data now w
                 = (Raise e, w1)
                 /\ journal w'
                    = (journal w1
                       ++ [LogException "Error in anomaly detection" e;
                           Rollback])%list)).
Proof.
  intros th'.
  unfold detect_anomalies, W.try_except, detect_anomalies_try.
  unfold W.bind, W.get, W.set_thresholds, W.lift.
  cbn [thresholds db]. fold th'.
  destruct (detect_threshold_anomalies th' vitals_data) as [th|e] eqn:Eth.
  2:{ eexists. eexists. split; [reflexivity|]. split; [reflexivity|].
      right. repeat split. eexists. eexists. split; [reflexivity|].
      cbn. rewrite <- app_assoc. reflexivity. }
  destruct (detect_statistical_anomalies (np_sqrt P) patient_id vitals_data
              now (db w)) as [st|e] eqn:Est.
  2:{ eexists. eexists. split; [reflexivity|]. split; [reflexivity|].
      right. repeat split. eexists. eexists. split; [reflexivity|].
      cbn. rewrite <- app_assoc. reflexivity. }
  rewrite save_anomalies_adds. cbn [thresholds db new_anomalies new_alerts journal].
  destruct (map (make_anomaly patient_id now) (th ++ st)) as [|a l] eqn:El.
  - eexists. eexists. split; [reflexivity|]. split; [reflexivity|].
    left. exists th, st. repeat split; try assumption; try (now symmetry).
    constructor.
  - unfold W.commit, W.emit, W.ret.
    cbn [thresholds db new_anomalies new_alerts journal].
    destruct (forallb (insert_anomaly_ok P) (new_anomalies w ++ a :: l)
              && forallb (insert_alert_ok P) (new_alerts w)) eqn:Ec.
    + eexists. eexists. split; [reflexivity|]. split; [reflexivity|].
      left. exists th, st. repeat split; try assumption; try (now symmetry).
      cbn [db anomalies]. apply List.Forall_forall. intros x Hx.
      apply in_or_app. right. apply in_or_app. right. exact Hx.
    + eexists. eexists. split; [reflexivity|]. split; [reflexivity|].
      right. repeat split. eexists. eexists. split; [reflexivity|].
      cbn. rewrite <- app_assoc. reflexivity.
Qed.

(** C3, as the specification states it, fails twice. A division by zero
    on spo2 (an override gives it a range without width) suppresses the
    heart-rate anomaly of the same sample, which the same call reports
    when the sample holds the heart rate only; and a database that
    refuses the spo2 row persists and reports neither row, though it
    accepts the heart-rate row alone. *)
Lemma one_failure_discards_the_sample :
  (custom_configs "A" degenerate_db = [degenerate_override]
   /\ fst (detect_anomalies sound_platform "A"
             [("heart_rate", PyFloat 180); ("spo2", PyFloat 93)] 1000
             (start degenerate_db)) = Ok []
   /\ anomalies (db (snd (detect_anomalies sound_platform "A"
             [("heart_rate", PyFloat 180); ("spo2", PyFloat 93)] 1000
             (start degenerate_db)))) = []
   /\ length (anomalies (db (snd (detect_anomalies sound_platform "A"
             [("heart_rate", PyFloat 180)] 1000
             (start degenerate_db))))) = 1%nat)
  /\ (fst (detect_anomalies picky_platform "P1"
             [("heart_rate", PyFloat 180); ("spo2", PyFloat 80)] 1000
             (start empty_db)) = Ok []
      /\ anomalies (db (snd (detect_anomalies picky_platform "P1"
             [("heart_rate", PyFloat 180); ("spo2", PyFloat 80)] 1000
             (start empty_db)))) = []
      /\ length (anomalies (db (snd (detect_anomalies picky_platform "P1"
             [("heart_rate", PyFloat 180)] 1000
             (start empty_db))))) = 1%nat).
Proof. vm_compute. repeat split. Qed.

(** C3, as the code has it. A call of [detect_anomalies] is all or
    nothing: either both detectors return for every metric of the sample
    and every candidate is returned and persisted, or the call returns
    the empty list and persists nothing; an exception of the threshold
    detector on any metric, and a commit the database refuses, give the
    second outcome. *)
Theorem detection_is_all_or_nothing (P : Platform) (patient_id : string)
    (vitals_data : list (string * pyval)) (now : Z) (w : World) :
  let th' :=
    fold_left apply_config (custom_configs patient_id (db w)) (thresholds w) in
  exists l w',
    detect_anomalies P patient_id vitals_data now w = (Ok l, w')
    /\ ((exists th st,
           detect_threshold_anomalies th' vitals_data = Ok th
           /\ detect_statistical_anomalies (np_sqrt P) patient_id vitals_data
                now (db w) = Ok st
           /\ l = map (make_anomaly patient_id now) (th ++ st)
           /\ Forall (fun a => In a (anomalies (db w'))) l)
        \/ (l = [] /\ db w' = db w /\ new_anomalies w' = []))
    /\ (raises (detect_threshold_anomalies th' vitals_data) = true ->
        l = [] /\ db w' = db w)
    /\ (forall e w1,
          detect_anomalies_try P patient_id vitals_data now w = (Raise e, w1) ->
          l = [] /\ db w' = db w).
Proof.
  intros th'.
  destruct (detect_anomalies_outcome P patient_id vitals_data now w)
    as (l & w' & Hrun & _ & Hcases).
  fold th' in Hcases.
  exists l, w'. split; [exact Hrun|].
  split; [|split].
  - destruct Hcases as [Hall|(Hl & Hdb & Hp & _)]; [now left|now right].
  - intros Hraise.
    destruct Hcases as [(th & st & Hth & _)|(Hl & Hdb & _)]; [|now split].
    rewrite Hth in Hraise. discriminate Hraise.
  - intros e w1 Htry.
    destruct Hcases as [(th & st & Hth & Hst & Hl & Hin)|(Hl & Hdb & _)];
      [|now split].
    exfalso. unfold detect_anomalies, W.try_except in Hrun.
    rewrite Htry in Hrun. cbn in Hrun.
    injection Hrun as Hl' Hw'. subst l w'.
    unfold detect_anomalies_try, W.bind, W.get, W.set_thresholds, W.lift in Htry.
    cbn [thresholds db] in Htry. fold th' in Htry.
    rewrite Hth, Hst, save_anomalies_adds in Htry.
    rewrite <- Hl in Htry.
    cbn in Htry. discriminate Htry.
Qed.

(** ** The alert service, whatever its module binds *)

Lemma alerts_added_refl w : alerts_added w [] w.
Proof. unfold alerts_added. rewrite app_nil_r. repeat split. Qed.

Lemma alerts_added_trans w1 c1 w2 c2 w3 :
  alerts_added w1 c1 w2 -> alerts_added w2 c2 w3 ->
  alerts_added w1 (c1 ++ c2) w3.
Proof.
  intros (A1 & A2 & A3 & A4 & A5) (B1 & B2 & B3 & B4 & B5).
  unfold alerts_added. rewrite B1, B2, B3, B4, B5, A1, A2, A3, A4, A5.
  rewrite app_assoc. repeat split.
Qed.

Lemma load_global_cases globals name w :
  W.load_global globals name w = (Ok tt, w)
  \/ W.load_global globals name w = (Raise (NameError name), w).
Proof.
  unfold W.load_global. destruct (existsb _ globals); [left|right]; reflexivity.
Qed.

Lemma alert_item_frame globals patient_id now anomaly w :
  exists r created w',
    alert_item globals patient_id now anomaly w = (r, w')
    /\ alerts_added w created w'
    /\ Forall (created_from patient_id now [anomaly]) created
    /\ (forall l, r = Ok l -> l = created)
    /\ (raises r = true -> created = []).
Proof.
  unfold alert_item. fold (qualifies anomaly).
  assert (Hnone : forall e,
    exists r created w',
      (Raise e : result (list Alert.t), w) = (r, w')
      /\ alerts_added w created w'
      /\ Forall (created_from patient_id now [anomaly]) created
      /\ (forall l, r = Ok l -> l = created)
      /\ (raises r = true -> created = [])).
  { intros e. exists (Raise e), [], w. split; [reflexivity|].
    split; [apply alerts_added_refl|]. split; [constructor|].
    split; [discriminate|reflexivity]. }
  assert (Hskip :
    exists r created w',
      (Ok [] : result (list Alert.t), w) = (r, w')
      /\ alerts_added w created w'
      /\ Forall (created_from patient_id now [anomaly]) created
      /\ (forall l, r = Ok l -> l = created)
      /\ (raises r = true -> created = [])).
  { exists (Ok []), [], w. split; [reflexivity|].
    split; [apply alerts_added_refl|]. split; [constructor|].
    split; [congruence|reflexivity]. }
  unfold W.bind at 1.
  destruct (load_global_cases globals "SeverityLevel" w) as [-> | ->];
    [|apply Hnone].
  destruct (qualifies anomaly) eqn:Eq; [|exact Hskip].
  unfold W.bind at 1.
  destruct (load_global_cases globals "Alert" w) as [-> | ->]; [|apply Hnone].
  unfold W.bind at 1.
  destruct (load_global_cases globals "datetime" w) as [-> | ->]; [|apply Hnone].
  unfold W.bind at 1.
  destruct (load_global_cases globals "timedelta" w) as [-> | ->]; [|apply Hnone].
  unfold W.bind at 1. unfold W.get.
  destruct (recent_alert patient_id anomaly now (db w)); [exact Hskip|].
  unfold W.bind, W.add_alert, W.ret.
  eexists. exists [make_alert patient_id anomaly now]. eexists.
  split; [reflexivity|].
  split; [unfold alerts_added; cbn; repeat split|].
  split.
  { constructor; [|constructor]. exists anomaly.
    split; [now left|]. split; [exact Eq|reflexivity]. }
  split; [congruence|discriminate].
Qed.

Lemma created_from_incl patient_id now l1 l2 alert :
  (forall a, In a l1 -> In a l2) ->
  created_from patient_id now l1 alert -> created_from patient_id now l2 alert.
Proof.
  intros Hincl (a & Hin & Hq & He). exists a. auto.
Qed.

Lemma alerts_loop_frame globals patient_id now anomalies w :
  exists r created w',
    alerts_loop globals patient_id now anomalies w = (r, w')
    /\ alerts_added w created w'
    /\ Forall (created_from patient_id now anomalies) created
    /\ (forall l, r = Ok l -> l = created).
Proof.
  revert w. induction anomalies as [|anomaly rest IH]; intros w.
  - exists (Ok []), [], w. split; [reflexivity|].
    split; [apply alerts_added_refl|]. split; [constructor|congruence].
  - cbn [alerts_loop]. unfold W.bind at 1.
    destruct (alert_item_frame globals patient_id now anomaly w)
      as (r1 & c1 & w1 & -> & A1 & F1 & R1 & _).
    assert (F1' : Forall (created_from patient_id now (anomaly :: rest)) c1).
    { eapply List.Forall_impl; [|exact F1]. intros al.
      apply created_from_incl. intros a [<-|[]]. now left. }
    destruct r1 as [here|e].
    2:{ exists (Raise e), c1, w1. split; [reflexivity|].
        split; [exact A1|]. split; [exact F1'|discriminate]. }
    specialize (R1 here eq_refl). subst here.
    unfold W.bind at 1.
    destruct (IH w1) as (r2 & c2 & w2 & -> & A2 & F2 & R2).
    assert (F2' : Forall (created_from patient_id now (anomaly :: rest)) c2).
    { eapply List.Forall_impl; [|exact F2]. intros al.
      apply created_from_incl. intros a Ha. now right. }
    destruct r2 as [more|e].
    + specialize (R2 more eq_refl). subst more.
      exists (Ok (c1 ++ c2)%list), (c1 ++ c2)%list, w2.
      split; [reflexivity|].
      split; [eapply alerts_added_trans; eassumption|].
      split; [apply Forall_app; now split|congruence].
    + exists (Raise e), (c1 ++ c2)%list, w2.
      split; [reflexivity|].
      split; [eapply alerts_added_trans; eassumption|].
      split; [apply Forall_app; now split|discriminate].
Qed.

(** ** The notification of an alert *)

Lemma only_journals_refl w : only_journals w w.
Proof.
  unfold only_journals. repeat split. exists [].
  rewrite app_nil_r. split; reflexivity.
Qed.

Lemma only_journals_trans w1 w2 w3 :
  only_journals w1 w2 -> only_journals w2 w3 -> only_journals w1 w3.
Proof.
  intros (A1 & A2 & A3 & A4 & e1 & A5 & A6) (B1 & B2 & B3 & B4 & e2 & B5 & B6).
  unfold only_journals. rewrite B1, B2, B3, B4, B5, A1, A2, A3, A4, A5.
  repeat split. exists (e1 ++ e2)%list. rewrite app_assoc.
  split; [reflexivity|]. rewrite forallb_app, A6, B6. reflexivity.
Qed.

Lemma emit_only_journals ev w :
  is_transaction ev = false ->
  exists w', W.emit ev w = (Ok tt, w') /\ only_journals w w'.
Proof.
  intros H. eexists. split; [reflexivity|].
  unfold only_journals. cbn. repeat split.
  exists [ev]. split; [reflexivity|]. cbn. now rewrite H.
Qed.

Lemma send_email_notification_outcome P alert w :
  exists w',
    _send_email_notification P alert w
    = (Ok (if get_db_ok P
              && bool_decide (is_Some (notification_email_of (db w) alert))
           then Alert.set_is_sent true alert else alert), w')
    /\ only_journals w w'.
Proof.
  unfold _send_email_notification, W.try_except, notification_email_of.
  unfold W.bind at 1.
  destruct (get_db_ok P).
  2:{ cbn [W.lift andb].
      destruct (emit_only_journals
                  (LogException "Error sending email notification"
                     OperationalError) w eq_refl) as (w' & Hw & Hj).
      exists w'. unfold W.bind. rewrite Hw. split; [reflexivity|exact Hj]. }
  cbn [W.ret andb]. unfold W.bind at 1. unfold W.get.
  destruct (head (List.filter _ (patients (db w)))) as [patient|].
  2:{ destruct (emit_only_journals
                  (Log "Patient not found for email notification") w eq_refl)
        as (w' & Hw & Hj).
      exists w'. unfold W.bind. rewrite Hw. split; [reflexivity|exact Hj]. }
  destruct (head (List.filter _ (alert_configurations (db w)))) as [c|].
  2:{ destruct (emit_only_journals
                  (Log "No notification email configured") w eq_refl)
        as (w' & Hw & Hj).
      exists w'. unfold W.bind. rewrite Hw. split; [reflexivity|exact Hj]. }
  destruct (AlertConfiguration.notification_email c) as [to|].
  2:{ destruct (emit_only_journals
                  (Log "No notification email configured") w eq_refl)
        as (w' & Hw & Hj).
      exists w'. unfold W.bind. rewrite Hw. split; [reflexivity|exact Hj]. }
  destruct (String.eqb to "").
  - destruct (emit_only_journals
                (Log "No notification email configured") w eq_refl)
      as (w' & Hw & Hj).
    exists w'. unfold W.bind. rewrite Hw. split; [reflexivity|exact Hj].
  - destruct (emit_only_journals (Email to alert) w eq_refl)
      as (w' & Hw & Hj).
    exists w'. unfold W.bind. rewrite Hw. split; [reflexivity|exact Hj].
Qed.

Lemma send_alert_notification_outcome P alert w :
  exists w',
    send_alert_notification P alert w
    = (Ok (stdout_ok P, notified P (db w) alert), w')
    /\ only_journals w w'.
Proof.
  unfold send_alert_notification, W.try_except, _send_console_notification,
    notified, emailed.
  unfold W.bind at 1.
  destruct (stdout_ok P).
  - destruct (emit_only_journals (Console alert) w eq_refl) as (w1 & -> & J1).
    unfold W.bind at 1.
    destruct (send_email_notification_outcome P alert w1) as (w2 & Hw2 & J2).
    destruct J1 as (T1 & D1 & N1 & L1 & E1).
    rewrite D1 in Hw2. rewrite Hw2.
    exists w2. split; [reflexivity|].
    eapply only_journals_trans; [|exact J2].
    unfold only_journals. auto.
  - cbn [W.lift andb].
    destruct (emit_only_journals
                (LogException "Error sending alert notification"
                   UnicodeEncodeError) w eq_refl) as (w' & Hw & Hj).
    exists w'. unfold W.bind. rewrite Hw. split; [reflexivity|exact Hj].
Qed.

Lemma notify_all_outcome P alerts w :
  exists w',
    notify_all P alerts w = (Ok (map (notified P (db w)) alerts), w')
    /\ only_journals w w'.
Proof.
  revert w. induction alerts as [|alert rest IH]; intros w.
  - exists w. split; [reflexivity|apply only_journals_refl].
  - cbn [notify_all map]. unfold W.bind at 1.
    destruct (send_alert_notification_outcome P alert w) as (w1 & -> & J1).
    unfold W.bind at 1.
    destruct (IH w1) as (w2 & -> & J2).
    assert (D1 : db w1 = db w) by apply J1.
    rewrite D1.
    exists w2. split; [reflexivity|].
    eapply only_journals_trans; eassumption.
Qed.

(** ** [check_and_create_alerts]: what a call leaves behind *)

Lemma check_and_create_alerts_try_outcome globals P patient_id anomalies now w :
  exists r w',
    check_and_create_alerts_try globals P patient_id anomalies now w = (r, w')
    /\ match r with
       | Ok l =>
           (exists created,
              created <> []
              /\ Forall (created_from patient_id now anomalies) created
              /\ alerts (db w')
                 = (alerts (db w) ++ new_alerts w ++ created)%list
              /\ patients (db w') = patients (db w)
              /\ alert_configurations (db w') = alert_configurations (db w)
              /\ l = map (notified P (db w')) created
              /\ exists evs,
                   journal w'
                   = (journal w ++ Commit :: Log "Created alerts" :: evs)%list
                   /\ forallb (fun ev => negb (is_transaction ev)) evs = true)
           \/ (l = [] /\ alerts_added w [] w')
       | Raise e => db w' = db w /\ journal w' = journal w
       end.
Proof.
  unfold check_and_create_alerts_try.
  unfold W.bind at 1.
  destruct (alerts_loop_frame globals patient_id now anomalies w)
    as (r & created & w1 & -> & A & F & R).
  destruct A as (A1 & A2 & A3 & A4 & A5).
  destruct r as [l0|e].
  2:{ exists (Raise e), w1. split; [reflexivity|]. now split. }
  specialize (R l0 eq_refl). subst l0.
  destruct created as [|al created].
  { exists (Ok []), w1. split; [reflexivity|]. right.
    split; [reflexivity|]. unfold alerts_added. auto. }
  unfold W.bind at 1. unfold W.commit.
  destruct (forallb (insert_anomaly_ok P) (new_anomalies w1)
            && forallb (insert_alert_ok P) (new_alerts w1)) eqn:Ec.
  2:{ exists (Raise IntegrityError), w1. split; [reflexivity|]. now split. }
  unfold W.bind at 1. unfold W.emit at 1.
  match goal with
  | |- context [notify_all P ?l ?wc] =>
      destruct (notify_all_outcome P l wc) as (w2 & -> & J)
  end.
  destruct J as (J1 & J2 & J3 & J4 & evs & J5 & J6).
  cbn [thresholds db new_anomalies new_alerts journal] in J1, J2, J3, J4, J5.
  eexists. exists w2. split; [reflexivity|].
  left. exists (al :: created).
  split; [discriminate|]. split; [exact F|].
  rewrite J2. cbn [db alerts patients alert_configurations].
  rewrite A2, A4.
  split; [reflexivity|]. split; [reflexivity|]. split; [reflexivity|].
  split; [reflexivity|].
  exists evs. rewrite J5, A5. split; [|exact J6].
  rewrite <- !app_assoc. reflexivity.
Qed.

Lemma check_and_create_alerts_outcome globals P patient_id anomalies now w :
  exists l w',
    check_and_create_alerts globals P patient_id anomalies now w = (Ok l, w')
    /\ ((exists created,
           created <> []
           /\ Forall (created_from patient_id now anomalies) created
           /\ alerts (db w') = (alerts (db w) ++ new_alerts w ++ created)%list
           /\ patients (db w') = patients (db w)
           /\ alert_configurations (db w') = alert_configurations (db w)
           /\ l = map (notified P (db w')) created
           /\ exists evs,
                journal w'
                = (journal w ++ Commit :: Log "Created alerts" :: evs)%list
                /\ forallb (fun ev => negb (is_transaction ev)) evs = true)
        \/ (l = [] /\ alerts_added w [] w')
        \/ (l = []
            /\ db w' = db w
            /\ new_anomalies w' = [] /\ new_alerts w' = []
            /\ exists e w1,
                 check_and_create_alerts_try globals P patient_id anomalies
                   now w = (Raise e, w1)
                 /\ journal w'
                    = (journal w
                       ++ [LogException "Error creating alerts" e;
                           Rollback])%list)).
Proof.
  destruct (check_and_create_alerts_try_outcome globals P patient_id
              anomalies now w) as (r & w1 & Htry & Hr).
  unfold check_and_create_alerts, W.try_except. rewrite Htry.
  destruct r as [l|e].
  - exists l, w1. split; [reflexivity|].
    destruct Hr as [Hc|Hn]; [now left|right; now left].
  - destruct Hr as (D & J).
    eexists. eexists. split; [reflexivity|].
    right. right. cbn. rewrite D, J, <- app_assoc.
    repeat split. exists e, w1. split; reflexivity.
Qed.

(** ** Errors inside the two services *)

Lemma detect_anomalies_try_frame P patient_id vitals_data now w e w1 :
  detect_anomalies_try P patient_id vitals_data now w = (Raise e, w1) ->
  db w1 = db w.
Proof.
  unfold detect_anomalies_try, W.bind, W.get, W.set_thresholds, W.lift.
  cbn [thresholds db].
  destruct (detect_threshold_anomalies _ vitals_data) as [th|e1].
  2:{ intros H. injection H as _ <-. reflexivity. }
  destruct (detect_statistical_anomalies _ _ _ _ _) as [st|e1].
  2:{ intros H. injection H as _ <-. reflexivity. }
  rewrite save_anomalies_adds.
  destruct (map (make_anomaly patient_id now) (th ++ st)) as [|a l].
  { intros H. discriminate H. }
  unfold W.commit, W.emit, W.ret.
  cbn [thresholds db new_anomalies new_alerts journal].
  destruct (forallb _ _ && forallb _ _).
  - intros H. discriminate H.
  - intros H. injection H as _ <-. reflexivity.
Qed.

(** C10. Neither [detect_anomalies] nor [check_and_create_alerts] raises:
    each call returns a list. When the body of the [try] raises, the call
    logs the error, rolls the session back, and returns the empty list;
    the committed rows are then those the call started with and the
    session holds no new row. *)
Theorem services_never_raise :
  (forall P patient_id vitals_data now w,
     exists l w',
       detect_anomalies P patient_id vitals_data now w = (Ok l, w')
       /\ forall e w1,
            detect_anomalies_try P patient_id vitals_data now w
            = (Raise e, w1) ->
            l = [] /\ db w' = db w
            /\ new_anomalies w' = [] /\ new_alerts w' = []
            /\ journal w'
               = (journal w1
                  ++ [LogException "Error in anomaly detection" e;
                      Rollback])%list)
  /\ (forall globals P patient_id anomalies now w,
        exists l w',
          check_and_create_alerts globals P patient_id anomalies now w
          = (Ok l, w')
          /\ forall e w1,
               check_and_create_alerts_try globals P patient_id anomalies
                 now w = (Raise e, w1) ->
               l = [] /\ db w' = db w
               /\ new_anomalies w' = [] /\ new_alerts w' = []
               /\ journal w'
                  = (journal w1
                     ++ [LogException "Error creating alerts" e;
                         Rollback])%list).
Proof.
  split.
  - intros P patient_id vitals_data now w.
    unfold detect_anomalies, W.try_except.
    destruct (detect_anomalies_try P patient_id vitals_data now w)
      as [[l|e] w1] eqn:Htry.
    + exists l, w1. split; [reflexivity|]. intros e w2 H. discriminate H.
    + eexists. eexists. split; [reflexivity|].
      intros e' w2 H. injection H as <- <-.
      cbn. rewrite (detect_anomalies_try_frame _ _ _ _ _ _ _ Htry).
      rewrite <- app_assoc. repeat split.
  - intros globals P patient_id anomalies now w.
    unfold check_and_create_alerts, W.try_except.
    destruct (check_and_create_alerts_try_outcome globals P patient_id
                anomalies now w) as (r & w1 & Htry & Hr).
    rewrite Htry. destruct r as [l|e].
    + exists l, w1. split; [reflexivity|]. intros e w2 H. discriminate H.
    + destruct Hr as (D & J).
      eexists. eexists. split; [reflexivity|].
      intros e' w2 H. injection H as <- <-.
      cbn. rewrite D, <- app_assoc. repeat split.
Qed.

(** ** INFO anomalies *)






(** ** Notification and the sent flag *)






(** ** The alert policy once [timedelta] is bound

    What the loop of [check_and_create_alerts] does in a module that binds
    the four names it looks up: it creates one alert per admitted anomaly.
    The module as written binds three of them. *)

Lemma load_global_bound globals name w :
  existsb (String.eqb name) globals = true ->
  W.load_global globals name w = (Ok tt, w).
Proof. intros H. unfold W.load_global. now rewrite H. Qed.

Lemma alerts_loop_admits globals patient_id now anomalies w :
  names_bound globals = true ->
  exists w',
    alerts_loop globals patient_id now anomalies w
    = (Ok (map (fun a => make_alert patient_id a now)
               (admitted patient_id now (db w) anomalies)), w')
    /\ alerts_added w
         (map (fun a => make_alert patient_id a now)
              (admitted patient_id now (db w) anomalies)) w'.
Proof.
  intros Hb. unfold names_bound in Hb. cbn [forallb] in Hb.
  apply andb_prop in Hb. destruct Hb as [H1 Hb].
  apply andb_prop in Hb. destruct Hb as [H2 Hb].
  apply andb_prop in Hb. destruct Hb as [H3 Hb].
  apply andb_prop in Hb. destruct Hb as [H4 _].
  revert w. induction anomalies as [|anomaly rest IH]; intros w.
  - exists w. split; [reflexivity|apply alerts_added_refl].
  - cbn [alerts_loop]. unfold W.bind at 1. unfold alert_item.
    fold (qualifies anomaly).
    unfold W.bind at 1. rewrite (load_global_bound _ _ _ H1).
    unfold admitted. cbn [List.filter]. fold (admitted patient_id now (db w) rest).
    destruct (qualifies anomaly) eqn:Eq.
    + unfold W.bind at 1. rewrite (load_global_bound _ _ _ H2).
      unfold W.bind at 1. rewrite (load_global_bound _ _ _ H3).
      unfold W.bind at 1. rewrite (load_global_bound _ _ _ H4).
      unfold W.bind at 1. unfold W.get.
      destruct (recent_alert patient_id anomaly now (db w)) as [old|] eqn:Er.
      * rewrite bool_decide_eq_true_2 by eauto. cbn [andb negb W.ret].
        unfold W.bind at 1.
        destruct (IH w) as (w' & -> & A). exists w'. split; [reflexivity|exact A].
      * rewrite bool_decide_eq_false_2 by (intros [x Hx]; discriminate Hx).
        cbn [andb negb map]. unfold W.bind at 1. unfold W.add_alert at 1.
        unfold W.ret at 1. unfold W.bind at 1.
        match goal with
        | |- context [alerts_loop _ _ _ rest ?w1] =>
            destruct (IH w1) as (w' & Hrun & A)
        end.
        cbn [db] in Hrun, A. rewrite Hrun.
        exists w'. split; [reflexivity|].
        destruct A as (A1 & A2 & A3 & A4 & A5).
        cbn [thresholds db new_anomalies new_alerts journal] in A1, A2, A3, A4, A5.
        unfold alerts_added. rewrite A1, A2, A3, A4, A5.
        rewrite <- app_assoc. repeat split.
    + cbn [andb W.ret]. unfold W.bind at 1.
      destruct (IH w) as (w' & -> & A). exists w'. split; [reflexivity|exact A].
Qed.

(** With [timedelta] bound the scenario of the specification goes as it
    says: a first WARNING anomaly creates an alert, a second one ten
    minutes later creates none, and one ninety minutes after the first
    creates another. *)
Lemma dedup_window_once_timedelta_is_bound :
  let run t w :=
    check_and_create_alerts globals_with_timedelta sound_platform "P1"
      [warning_anomaly t] t w in
  let w1 := snd (run 0%Z (start clinic_db)) in
  let w2 := snd (run (timedelta_minutes 10) w1) in
  let w3 := snd (run (timedelta_minutes 90) w2) in
  names_bound globals_with_timedelta = true
  /\ names_bound alert_service_globals = false
  /\ length (alerts (db w1)) = 1%nat
  /\ fst (run (timedelta_minutes 10) w1) = Ok []
  /\ length (alerts (db w2)) = 1%nat
  /\ length (alerts (db w3)) = 2%nat.
Proof. vm_compute. repeat split. Qed.

(** * Further properties of the detectors *)

(** ** Confidence and severity of what the detectors emit *)






Lemma statistical_item_never_info sqrt history metric value here :
  statistical_item sqrt history metric value = Ok here ->
  Forall (fun a => severity a <> INFO
                   /\ 5 # 6 < confidence_score a
                   /\ confidence_score a <= 0.99
                   /\ anomaly_type a = metric +:+ "_statistical") here.
Proof.
  unfold statistical_item.
  destruct (is_none value); [intros H; injection H as <-; constructor|].
  destruct (df_column metric) as [col|];
    [|intros H; injection H as <-; constructor].
  cbv zeta.
  destruct (length (dropna (map col history)) <? 5)%nat;
    [intros H; injection H as <-; constructor|].
  destruct (Qeq_bool (std sqrt (dropna (map col history))) 0);
    [intros H; injection H as <-; constructor|].
  destruct (as_number value) as [x|e]; [|discriminate].
  cbn [Py.bind].
  set (z := Qabs ((x - mean (dropna (map col history)))
                  / std sqrt (dropna (map col history)))).
  destruct (Qlt_bool 2.5 z) eqn:Ez;
    [|intros H; injection H as <-; constructor].
  apply Qlt_bool_iff in Ez.
  intros H. injection H as <-. constructor; [|constructor].
  cbn [severity confidence_score anomaly_type].
  split; [|split; [|split]].
  - unfold _determine_statistical_severity.
    destruct (Qlt_bool 3.0 z); [discriminate|].
    apply Qlt_bool_iff in Ez. rewrite Ez. discriminate.
  - apply Q.min_glb_lt; [reflexivity|].
    apply Qlt_shift_div_l; [reflexivity|]. lra.
  - apply Q.le_min_l.
  - reflexivity.
Qed.

(** Whatever the history, the statistical detector emits no INFO
    anomaly: each anomaly it returns is WARNING or CRITICAL, has a
    confidence above 5/6 and at most 0.99, and is labelled with a metric
    of the sample and the suffix [_statistical]. *)
Theorem statistical_anomalies_never_info (sqrt : Q -> Q) (patient_id : string)
    (vitals_data : list (string * pyval)) (now : Z) (db : Database)
    (out : list anomaly_data) :
  detect_statistical_anomalies sqrt patient_id vitals_data now db = Ok out ->
  Forall (fun a => severity a <> INFO
                   /\ 5 # 6 < confidence_score a
                   /\ confidence_score a <= 0.99
                   /\ exists metric, In metric (map fst vitals_data)
                        /\ anomaly_type a = metric +:+ "_statistical") out.
Proof.
  unfold detect_statistical_anomalies.
  destruct (length (historical_vitals patient_id now db) <? 10)%nat.
  { intros H. injection H as <-. constructor. }
  generalize (historical_vitals patient_id now db). intros history.
  revert out. induction vitals_data as [|[metric value] rest IH]; intros out.
  - intros H. injection H as <-. constructor.
  - cbn [statistical_loop].
    destruct (statistical_item sqrt history metric value) as [here|e] eqn:Eh;
      [|discriminate].
    cbn [Py.bind].
    destruct (statistical_loop sqrt history rest) as [more|e] eqn:Em;
      [|discriminate].
    cbn [Py.bind]. intros H. injection H as <-.
    apply Forall_app. split.
    + eapply List.Forall_impl;
        [|eapply statistical_item_never_info; eassumption].
      intros a (H1 & H2 & H3 & H4). repeat split; try assumption.
      exists metric. split; [now left|exact H4].
    + eapply List.Forall_impl; [|apply IH; reflexivity].
      intros a (H1 & H2 & H3 & m & Hm & H4). repeat split; try assumption.
      exists m. split; [now right|exact H4].
Qed.

Lemma statistical_anomalies_never_info_witness :
  exists out,
    detect_statistical_anomalies sqrt_exact "P1"
      [("heart_rate", PyFloat 110)] 2000 steady_history = Ok out
    /\ length out = 1%nat
    /\ Forall (fun a => severity a <> INFO
                     /\ 5 # 6 < confidence_score a
                     /\ confidence_score a <= 0.99
                     /\ exists metric,
                          In metric (map fst [("heart_rate", PyFloat 110)])
                          /\ anomaly_type a = metric +:+ "_statistical") out.
Proof.
  eexists. split; [vm_compute; reflexivity|]. split; [reflexivity|].
  apply (statistical_anomalies_never_info sqrt_exact "P1"
           [("heart_rate", PyFloat 110)] 2000 steady_history).
  vm_compute. reflexivity.
Defined.

(** ** Samples inside their ranges *)

(** A sample whose thresholded values are numbers inside their ranges,
    or absent, yields no threshold anomaly and no error, whatever the
    width of the ranges: the division is only reached outside a range. *)
Theorem sample_in_range_is_quiet
    (th : gmap string threshold) (vitals_data : list (string * pyval)) :
  (forall metric value t,
     In (metric, value) vitals_data -> th !! metric = Some t ->
     value = PyNone
     \/ exists x, value = PyFloat x /\ tmin t <= x /\ x <= tmax t) ->
  detect_threshold_anomalies th vitals_data = Ok [].
Proof.
  induction vitals_data as [|[metric value] rest IH]; intros Hin.
  - reflexivity.
  - cbn [detect_threshold_anomalies].
    rewrite IH by (intros m v t H; apply Hin; now right).
    assert (Hi : threshold_item th metric value = Ok []).
    { unfold threshold_item.
      destruct (is_none value) eqn:En; [reflexivity|].
      destruct (th !! metric) as [t|] eqn:Et; [|reflexivity].
      destruct (Hin metric value t (or_introl eq_refl) Et)
        as [->|(x & -> & Hlo & Hhi)]; [discriminate En|].
      cbn [as_number Py.bind].
      apply Qlt_bool_false in Hlo, Hhi. now rewrite Hlo, Hhi. }
    rewrite Hi. reflexivity.
Qed.

Lemma sample_in_range_is_quiet_witness :
  detect_threshold_anomalies spo2_degenerate
    [("spo2", PyFloat 95); ("heart_rate", PyNone); ("device_id", PyStr "w-1")]
  = Ok [].
Proof.
  apply sample_in_range_is_quiet.
  intros metric value t Hin Ht.
  repeat (destruct Hin as [Hin|Hin]; [injection Hin as <- <-|]).
  - right. exists 95. vm_compute in Ht. injection Ht as <-.
    split; [reflexivity|]. split; discriminate.
  - now left.
  - vm_compute in Ht. discriminate Ht.
  - destruct Hin.
Defined.

(** ** Recommendations *)

Lemma generate_recommendation_not_empty metric sev :
  _generate_recommendation metric sev <> "".
Proof.
  unfold _generate_recommendation, recommendations. cbn [assoc].
  repeat (destruct (String.eqb metric _);
          [destruct sev; discriminate|]).
  discriminate.
Qed.

(** A metric outside the table of recommendations gets the generic
    recommendation, and no recommendation is the empty string; so the
    message of an alert created for an anomaly of either detector always
    carries the recommendation of the anomaly. *)
Theorem recommendation_always_present :
  (forall metric sev,
     ~ In metric ["heart_rate"; "spo2"; "glucose"; "blood_pressure_systolic";
                  "blood_pressure_diastolic"; "temperature"] ->
     _generate_recommendation metric sev
     = "Monitor closely and consult healthcare provider")
  /\ (forall th vitals_data out a patient_id now,
        detect_threshold_anomalies th vitals_data = Ok out -> In a out ->
        advice (_generate_alert_message (make_anomaly patient_id now a))
        = Some (recommendation a))
  /\ (forall sqrt pid vitals_data t db out a patient_id now,
        detect_statistical_anomalies sqrt pid vitals_data t db = Ok out ->
        In a out ->
        advice (_generate_alert_message (make_anomaly patient_id now a))
        = Some (recommendation a)).
Proof.
  assert (Hmsg : forall a patient_id now,
            recommendation a <> "" ->
            advice (_generate_alert_message (make_anomaly patient_id now a))
            = Some (recommendation a)).
  { intros a patient_id now Hne. unfold _generate_alert_message.
    cbn [make_anomaly Anomaly.recommendation advice].
    destruct (String.eqb (recommendation a) "") eqn:E; [|reflexivity].
    apply String.eqb_eq in E. contradiction. }
  split; [|split].
  - intros metric sev Hnot.
    unfold _generate_recommendation, recommendations. cbn [assoc].
    destruct (String.eqb_spec metric "heart_rate") as [->|_].
    { exfalso. apply Hnot. now left. }
    destruct (String.eqb_spec metric "spo2") as [->|_].
    { exfalso. apply Hnot. right. now left. }
    destruct (String.eqb_spec metric "glucose") as [->|_].
    { exfalso. apply Hnot. do 2 right. now left. }
    destruct (String.eqb_spec metric "blood_pressure_systolic") as [->|_].
    { exfalso. apply Hnot. do 3 right. now left. }
    destruct (String.eqb_spec metric "blood_pressure_diastolic") as [->|_].
    { exfalso. apply Hnot. do 4 right. now left. }
    destruct (String.eqb_spec metric "temperature") as [->|_].
    { exfalso. apply Hnot. do 5 right. now left. }
    reflexivity.
  - intros th vitals_data. induction vitals_data as [|[metric value] rest IH];
      intros out a patient_id now.
    + intros H. injection H as <-. intros [].
    + cbn [detect_threshold_anomalies].
      destruct (threshold_item th metric value) as [here|e] eqn:Eh;
        [|discriminate].
      cbn [Py.bind].
      destruct (detect_threshold_anomalies th rest) as [more|e];
        [|discriminate].
      cbn [Py.bind]. intros H. injection H as <-. intros Hin.
      apply in_app_or in Hin. destruct Hin as [Hin|Hin];
        [|now apply (IH more)].
      apply Hmsg. revert Eh Hin. unfold threshold_item.
      destruct (is_none value); [intros H; injection H as <-; intros []|].
      destruct (th !! metric) as [t|];
        [|intros H; injection H as <-; intros []].
      destruct (as_number value) as [x|e]; [|discriminate].
      cbn [Py.bind].
      destruct (Qlt_bool x (tmin t) || Qlt_bool (tmax t) x);
        [|intros H; injection H as <-; intros []].
      destruct (_determine_severity metric x t) as [sev|e]; [|discriminate].
      cbn [Py.bind].
      destruct (_calculate_confidence metric x t) as [c|e]; [|discriminate].
      cbn [Py.bind]. intros H. injection H as <-. intros [<-|[]].
      apply generate_recommendation_not_empty.
  - intros sqrt pid vitals_data t db out a patient_id now.
    unfold detect_statistical_anomalies.
    destruct (length (historical_vitals pid t db) <? 10)%nat.
    { intros H. injection H as <-. intros []. }
    generalize (historical_vitals pid t db). intros history. revert out.
    induction vitals_data as [|[metric value] rest IH]; intros out.
    + intros H. injection H as <-. intros [].
    + cbn [statistical_loop].
      destruct (statistical_item sqrt history metric value) as [here|e] eqn:Eh;
        [|discriminate].
      cbn [Py.bind].
      destruct (statistical_loop sqrt history rest) as [more|e];
        [|discriminate].
      cbn [Py.bind]. intros H. injection H as <-. intros Hin.
      apply in_app_or in Hin. destruct Hin as [Hin|Hin];
        [|now apply (IH more)].
      apply Hmsg. revert Eh Hin. unfold statistical_item.
      destruct (is_none value); [intros H; injection H as <-; intros []|].
      destruct (df_column metric) as [col|];
        [|intros H; injection H as <-; intros []].
      cbv zeta.
      destruct (length (dropna (map col history)) <? 5)%nat;
        [intros H; injection H as <-; intros []|].
      destruct (Qeq_bool _ 0); [intros H; injection H as <-; intros []|].
      destruct (as_number value) as [x|e]; [|discriminate].
      cbn [Py.bind].
      destruct (Qlt_bool 2.5 _); [|intros H; injection H as <-; intros []].
      intros H. injection H as <-. intros [<-|[]].
      apply generate_recommendation_not_empty.
Qed.

Lemma recommendation_always_present_witness :
  _generate_recommendation "respiratory_rate" WARNING
  = "Monitor closely and consult healthcare provider".
Proof.
  apply (proj1 recommendation_always_present).
  intros Hin. repeat (destruct Hin as [Hin|Hin]; [discriminate Hin|]).
  destruct Hin.
Defined.

(** ** The threshold map under overrides *)

Lemma last_bound_snoc side metric configs c :
  last_bound side metric (configs ++ [c])
  = if String.eqb (AlertConfiguration.metric_name c) metric
    then match side c with
         | Some b => Some b
         | None => last_bound side metric configs
         end
    else last_bound side metric configs.
Proof. unfold last_bound. rewrite fold_left_app. reflexivity. Qed.

Lemma apply_config_lookup th c m :
  apply_config th c !! m
  = (if String.eqb (AlertConfiguration.metric_name c) m
     then overridden [c] m <$> th !! m
     else th !! m).
Proof.
  unfold apply_config, overridden, last_bound. cbn [fold_left].
  destruct (String.eqb_spec (AlertConfiguration.metric_name c) m) as [->|Hne].
  - destruct (th !! m) as [t|] eqn:Et; [|now rewrite Et].
    rewrite lookup_insert_eq. cbn [fmap option_fmap option_map].
    destruct (AlertConfiguration.min_threshold c),
             (AlertConfiguration.max_threshold c), t; reflexivity.
  - destruct (th !! AlertConfiguration.metric_name c); [|reflexivity].
    now rewrite lookup_insert_ne.
Qed.

Lemma fold_apply_config_lookup configs th m :
  fold_left apply_config configs th !! m = overridden configs m <$> th !! m.
Proof.
  induction configs as [|c configs IH] using rev_ind.
  - cbn. destruct (th !! m) as [[lo hi]|]; reflexivity.
  - rewrite fold_left_app. cbn [fold_left].
    rewrite apply_config_lookup, IH.
    unfold overridden. rewrite !last_bound_snoc.
    unfold last_bound at 1 2. cbn [fold_left].
    destruct (String.eqb (AlertConfiguration.metric_name c) m).
    + destruct (th !! m) as [t|]; [|reflexivity].
      cbn [fmap option_fmap option_map tmin tmax].
      destruct (AlertConfiguration.min_threshold c),
               (AlertConfiguration.max_threshold c); reflexivity.
    + reflexivity.
Qed.

Lemma detect_anomalies_thresholds P patient_id vitals_data now w :
  thresholds (snd (detect_anomalies P patient_id vitals_data now w))
  = fold_left apply_config (custom_configs patient_id (db w)) (thresholds w).
Proof.
  destruct (detect_anomalies_outcome P patient_id vitals_data now w)
    as (l & w' & -> & Ht & _).
  exact Ht.
Qed.

Lemma detect_anomalies_frame P patient_id vitals_data now w :
  let w' := snd (detect_anomalies P patient_id vitals_data now w) in
  alert_configurations (db w') = alert_configurations (db w)
  /\ patients (db w') = patients (db w)
  /\ vital_signs (db w') = vital_signs (db w).
Proof.
  unfold detect_anomalies, W.try_except, detect_anomalies_try.
  unfold W.bind, W.get, W.set_thresholds, W.lift.
  cbn [thresholds db].
  destruct (detect_threshold_anomalies _ vitals_data) as [th|e];
    [|cbn; auto].
  destruct (detect_statistical_anomalies _ _ _ _ _) as [st|e]; [|cbn; auto].
  rewrite save_anomalies_adds.
  destruct (map (make_anomaly patient_id now) (th ++ st)) as [|a l];
    [cbn; auto|].
  unfold W.commit, W.emit, W.ret.
  cbn [thresholds db new_anomalies new_alerts journal].
  destruct (forallb _ _ && forallb _ _); cbn; auto.
Qed.

(** The thresholds a call of [detect_anomalies] leaves in the shared map:
    the keys are those it found, and the range of each is the one it
    found with each bound replaced by the last active override of the
    patient that sets it. A configuration for a metric outside the map
    adds no entry, and an override that sets one bound leaves the other
    in place. *)
Theorem thresholds_after_detection (P : Platform) (patient_id : string)
    (vitals_data : list (string * pyval)) (now : Z) (w : World) :
  let w' := snd (detect_anomalies P patient_id vitals_data now w) in
  (forall metric,
     thresholds w' !! metric
     = overridden (custom_configs patient_id (db w)) metric
         <$> thresholds w !! metric)
  /\ dom (thresholds w') = dom (thresholds w).
Proof.
  intros w'. unfold w'. rewrite detect_anomalies_thresholds.
  split.
  - intros metric. apply fold_apply_config_lookup.
  - apply set_eq. intros m. rewrite !elem_of_dom.
    rewrite fold_apply_config_lookup. rewrite fmap_is_Some. reflexivity.
Qed.

(** Detection for one patient twice in a row leaves the shared thresholds
    as the first call left them, whatever the two samples and times; and
    the first call does not change the configurations, patients and
    readings on record. *)
Theorem threshold_update_is_idempotent (P : Platform) (patient_id : string)
    (sample1 sample2 : list (string * pyval)) (t1 t2 : Z) (w : World) :
  let w1 := snd (detect_anomalies P patient_id sample1 t1 w) in
  let w2 := snd (detect_anomalies P patient_id sample2 t2 w1) in
  thresholds w2 = thresholds w1
  /\ alert_configurations (db w1) = alert_configurations (db w)
  /\ patients (db w1) = patients (db w)
  /\ vital_signs (db w1) = vital_signs (db w).
Proof.
  intros w1 w2.
  destruct (detect_anomalies_frame P patient_id sample1 t1 w) as (Fc & Fp & Fv).
  fold w1 in Fc, Fp, Fv.
  split; [|auto].
  unfold w2. rewrite detect_anomalies_thresholds.
  unfold custom_configs. rewrite Fc. fold (custom_configs patient_id (db w)).
  unfold w1. rewrite detect_anomalies_thresholds.
  apply map_eq. intros m. rewrite !fold_apply_config_lookup.
  destruct (thresholds w !! m) as [t|]; [|reflexivity].
  cbn [fmap option_fmap option_map]. f_equal.
  unfold overridden. cbn [tmin tmax].
  destruct (last_bound AlertConfiguration.min_threshold m _),
           (last_bound AlertConfiguration.max_threshold m _); reflexivity.
Qed.

(** ** A call that finds nothing *)

(** When neither detector finds an anomaly, [detect_anomalies] returns
    the empty list without committing or logging: the committed rows,
    the rows waiting in the session and the journal are as they were. *)
Theorem quiet_sample_writes_nothing (P : Platform) (patient_id : string)
    (vitals_data : list (string * pyval)) (now : Z) (w : World) :
  let th' :=
    fold_left apply_config (custom_configs patient_id (db w)) (thresholds w) in
  detect_threshold_anomalies th' vitals_data = Ok [] ->
  detect_statistical_anomalies (np_sqrt P) patient_id vitals_data now (db w)
  = Ok [] ->
  exists w',
    detect_anomalies P patient_id vitals_data now w = (Ok [], w')
    /\ db w' = db w
    /\ new_anomalies w' = new_anomalies w
    /\ new_alerts w' = new_alerts w
    /\ journal w' = journal w.
Proof.
  intros th' Hth Hst.
  unfold detect_anomalies, W.try_except, detect_anomalies_try.
  unfold W.bind, W.get, W.set_thresholds, W.lift.
  cbn [thresholds db]. fold th'. rewrite Hth, Hst.
  rewrite save_anomalies_adds. cbn [app map].
  eexists. split; [reflexivity|].
  cbn [db new_anomalies new_alerts journal].
  rewrite app_nil_r. repeat split.
Qed.

Lemma quiet_sample_writes_nothing_witness :
  exists w',
    detect_anomalies sound_platform "P1"
      [("heart_rate", PyFloat 72); ("spo2", PyFloat 98)] 2000
      (start steady_history) = (Ok [], w')
    /\ db w' = db (start steady_history)
    /\ new_anomalies w' = new_anomalies (start steady_history)
    /\ new_alerts w' = new_alerts (start steady_history)
    /\ journal w' = journal (start steady_history).
Proof.
  apply (quiet_sample_writes_nothing sound_platform "P1"
           [("heart_rate", PyFloat 72); ("spo2", PyFloat 98)] 2000%Z
           (start steady_history)).
  - vm_compute. reflexivity.
  - vm_compute. reflexivity.
Defined.

(** ** Configurations that are switched off *)

Lemma filter_deactivated patient_id cs :
  List.filter
    (fun c => String.eqb (AlertConfiguration.patient_id c) patient_id
              && Bool.eqb (AlertConfiguration.is_active c) true)
    (map deactivate cs) = [].
Proof.
  induction cs as [|c cs IH]; [reflexivity|].
  cbn [map List.filter deactivate AlertConfiguration.is_active
       AlertConfiguration.patient_id].
  rewrite andb_false_r. exact IH.
Qed.

Lemma head_filter_deactivated (f : AlertConfiguration.t -> bool) cs :
  (forall c, f (deactivate c) = f c) ->
  head (List.filter f (map deactivate cs))
  = deactivate <$> head (List.filter f cs).
Proof.
  intros Hf. induction cs as [|c cs IH]; [reflexivity|].
  cbn [map List.filter]. rewrite Hf.
  destruct (f c); [reflexivity|exact IH].
Qed.

(** Switching a configuration off stops its threshold override and not
    its email address: on a database whose configurations are all
    inactive, detection applies no override, and the notification of an
    alert finds the same address and leaves the alert as it does with
    the configurations active. *)
Theorem inactive_configuration_still_mails (P : Platform) (d : Database)
    (patient_id : string) (alert : Alert.t) :
  custom_configs patient_id (deactivate_all d) = []
  /\ notification_email_of (deactivate_all d) alert
     = notification_email_of d alert
  /\ notified P (deactivate_all d) alert = notified P d alert.
Proof.
  assert (He : notification_email_of (deactivate_all d) alert
               = notification_email_of d alert).
  { unfold notification_email_of, deactivate_all.
    cbn [patients alert_configurations].
    destruct (head (List.filter _ (patients d))); [|reflexivity].
    rewrite head_filter_deactivated by reflexivity.
    destruct (head (List.filter _ (alert_configurations d))); reflexivity. }
  split; [apply filter_deactivated|]. split; [exact He|].
  unfold notified, emailed. now rewrite He.
Qed.

(** ** Alert statistics *)

Lemma count_in_insert k counts :
  count_in k counts = <[k := S (default 0%nat (counts !! k))]> counts.
Proof.
  unfold count_in. destruct (counts !! k) as [n|] eqn:E.
  - rewrite E. cbn [default]. now rewrite Nat.add_1_r.
  - rewrite lookup_insert_eq. rewrite insert_insert_eq. reflexivity.
Qed.

Lemma count_in_lookup k counts j :
  count_in k counts !! j
  = if String.eqb k j then Some (S (default 0%nat (counts !! j)))
    else counts !! j.
Proof.
  rewrite count_in_insert.
  destruct (String.eqb_spec k j) as [->|Hne].
  - apply lookup_insert_eq.
  - now apply lookup_insert_ne.
Qed.

Lemma sum_counts_count_in k counts :
  sum_counts (count_in k counts) = S (sum_counts counts).
Proof.
  assert (Hcomm : forall z1 z2 y : nat,
            (z1 + (z2 + y) = z2 + (z1 + y))%nat) by (intros; lia).
  rewrite count_in_insert. unfold sum_counts.
  destruct (counts !! k) as [n|] eqn:E; cbn [default].
  - rewrite <- (insert_delete_eq counts).
    rewrite map_fold_insert_L;
      [|intros; apply Hcomm|apply lookup_delete_eq].
    rewrite (map_fold_delete_L _ _ k n counts);
      [|intros; apply Hcomm|exact E].
    unfold id. lia.
  - rewrite map_fold_insert_L; [|intros; apply Hcomm|exact E].
    unfold id. lia.
Qed.

Lemma fold_count_in_lookup (key : Alert.t -> string) alerts counts j :
  fold_left (fun counts a => count_in (key a) counts) alerts counts !! j
  = counted (default 0%nat (counts !! j) + occurrences key j alerts)
    ∪ counts !! j.
Proof.
  revert counts. induction alerts as [|a rest IH]; intros counts.
  - cbn. rewrite Nat.add_0_r.
    destruct (counts !! j) as [[|n]|]; reflexivity.
  - cbn [fold_left]. rewrite IH. rewrite count_in_lookup.
    unfold occurrences. cbn [List.filter].
    destruct (String.eqb (key a) j); cbn [length default].
    + replace (S (default 0%nat (counts !! j))
               + length (List.filter (fun a0 => String.eqb (key a0) j) rest))%nat
        with (default 0%nat (counts !! j)
              + S (length (List.filter (fun a0 => String.eqb (key a0) j) rest)))%nat
        by lia.
      rewrite Nat.add_succ_r. cbn [counted].
      destruct (counts !! j); reflexivity.
    + reflexivity.
Qed.

Lemma fold_count_in_sum (key : Alert.t -> string) alerts counts :
  sum_counts (fold_left (fun counts a => count_in (key a) counts) alerts counts)
  = (length alerts + sum_counts counts)%nat.
Proof.
  revert counts. induction alerts as [|a rest IH]; intros counts.
  - reflexivity.
  - cbn [fold_left length]. rewrite IH, sum_counts_count_in. lia.
Qed.

(** The statistics [get_alert_statistics] returns count the alerts of the
    last [hours] hours: the dict by type (by patient) holds, for each type
    (patient) with an alert in the window, the number of its alerts there
    and no other key, and the counts of either dict add up to
    [total_alerts]. The call changes nothing. *)
Theorem alert_statistics_group_counts (hours now : Z) (w w' : World)
    (stats : AlertStatistics) :
  get_alert_statistics hours now w = (Ok (Some stats), w') ->
  let window :=
    alerts_in_window (now - timedelta_hours hours) now (db w) in
  w' = w
  /\ total_alerts stats = length window
  /\ (forall k, alerts_by_type stats !! k
                = counted (occurrences Alert.alert_type k window))
  /\ (forall k, alerts_by_patient stats !! k
                = counted (occurrences Alert.patient_id k window))
  /\ sum_counts (alerts_by_type stats) = total_alerts stats
  /\ sum_counts (alerts_by_patient stats) = total_alerts stats.
Proof.
  unfold get_alert_statistics.
  destruct (timedelta_of_hours hours) as [delta|] eqn:Ed;
    [|intros H; discriminate H].
  destruct (datetime_minus now delta) as [start_time|] eqn:Es;
    [|intros H; discriminate H].
  unfold timedelta_of_hours in Ed. cbv zeta in Ed.
  destruct (_ && _) in Ed; [|discriminate Ed]. injection Ed as <-.
  unfold datetime_minus in Es. cbv zeta in Es.
  destruct (_ && _) in Es; [|discriminate Es]. injection Es as <-.
  intros H. injection H as <- <-.
  split; [reflexivity|]. split; [reflexivity|].
  cbn [alert_statistics_of alerts_by_type alerts_by_patient total_alerts].
  split; [|split; [|split]].
  - intros k. rewrite fold_count_in_lookup, lookup_empty. cbn [default].
    destruct (counted _); reflexivity.
  - intros k. rewrite fold_count_in_lookup, lookup_empty. cbn [default].
    destruct (counted _); reflexivity.
  - rewrite fold_count_in_sum. unfold sum_counts. rewrite map_fold_empty. lia.
  - rewrite fold_count_in_sum. unfold sum_counts. rewrite map_fold_empty. lia.
Qed.

Lemma alert_statistics_group_counts_witness :
  exists stats,
    get_alert_statistics 24 (timedelta_hours 100) (start alerts_db)
    = (Ok (Some stats), start alerts_db)
    /\ total_alerts stats = 2%nat
    /\ alerts_by_type stats !! "heart_rate" = Some 1%nat
    /\ alerts_by_patient stats !! "P3" = None
    /\ sum_counts (alerts_by_patient stats) = total_alerts stats.
Proof.
  eexists. split; [vm_compute; reflexivity|].
  split; [reflexivity|]. split; [reflexivity|]. split; [reflexivity|].
  eapply (alert_statistics_group_counts 24 (timedelta_hours 100)
            (start alerts_db) (start alerts_db)).
  vm_compute. reflexivity.
Defined.

Lemma alerts_in_empty_window start_time end_time d :
  (end_time < start_time)%Z -> alerts_in_window start_time end_time d = [].
Proof.
  intros Hlt. unfold alerts_in_window.
  induction (alerts d) as [|a rest IH]; [reflexivity|].
  cbn [List.filter].
  destruct (start_time <=? Alert.timestamp a)%Z eqn:E1;
    [|exact IH].
  destruct (Alert.timestamp a <=? end_time)%Z eqn:E2; [|exact IH].
  apply Z.leb_le in E1, E2. lia.
Qed.

(** [get_alert_statistics] never raises and never changes the state but
    for its log. It returns statistics whenever the window starts within
    the range of [datetime], and the empty dict, after logging, when the
    window would start before year 1. A negative number of hours gives a
    window that holds no alert: all counts zero and both dicts empty. *)
Theorem alert_statistics_edges (hours now : Z) (w : World) :
  exists r w',
    get_alert_statistics hours now w = (Ok r, w')
    /\ thresholds w' = thresholds w /\ db w' = db w
    /\ new_anomalies w' = new_anomalies w /\ new_alerts w' = new_alerts w
    /\ ((0 <= hours)%Z -> (timedelta_hours hours <= now)%Z ->
        (now <= datetime_max)%Z ->
        r = Some (alert_statistics_of
                    (alerts_in_window (now - timedelta_hours hours) now (db w)))
        /\ w' = w)
    /\ ((now < timedelta_hours hours)%Z ->
        r = None
        /\ journal w' = (journal w ++ [Log "Error getting alert statistics"])%list)
    /\ ((hours < 0)%Z ->
        forall stats, r = Some stats ->
          total_alerts stats = 0%nat
          /\ alerts_by_type stats = ∅ /\ alerts_by_patient stats = ∅).
Proof.
  unfold get_alert_statistics, timedelta_of_hours, datetime_minus,
    timedelta_hours, datetime_max.
  cbv zeta.
  destruct ((-999999999 * 86400000000 <=? hours * 3600000000)%Z
            && (hours * 3600000000
                <=? 999999999 * 86400000000 + 86399999999)%Z) eqn:E1.
  - destruct ((0 <=? now - hours * 3600000000)%Z
              && (now - hours * 3600000000 <=? 315537897599999999)%Z) eqn:E2.
    + eexists. exists w. split; [reflexivity|].
      repeat (split; [reflexivity|]).
      apply andb_prop in E2. destruct E2 as [E2 E3].
      apply Z.leb_le in E2, E3.
      split; [intros; now split|]. split; [intros; lia|].
      intros Hneg stats H. injection H as <-.
      rewrite alerts_in_empty_window by lia. repeat split.
    + eexists. eexists. split; [reflexivity|].
      cbn [thresholds db new_anomalies new_alerts journal].
      repeat (split; [reflexivity|]).
      apply andb_false_iff in E2.
      split; [|split].
      * intros. exfalso. destruct E2 as [E2|E2]; apply Z.leb_gt in E2; lia.
      * intros. now split.
      * intros _ stats H. discriminate H.
  - eexists. eexists. split; [reflexivity|].
    cbn [thresholds db new_anomalies new_alerts journal].
    repeat (split; [reflexivity|]).
    apply andb_false_iff in E1.
    split; [|split].
    + intros. exfalso. destruct E1 as [E1|E1]; apply Z.leb_gt in E1; lia.
    + intros. now split.
    + intros _ stats H. discriminate H.
Qed.

Lemma alert_statistics_edges_witness :
  exists stats,
    get_alert_statistics (-24) (timedelta_hours 100) (start alerts_db)
    = (Ok (Some stats), start alerts_db)
    /\ total_alerts stats = 0%nat
    /\ alerts_by_type stats = ∅ /\ alerts_by_patient stats = ∅.
Proof.
  destruct (alert_statistics_edges (-24) (timedelta_hours 100)
              (start alerts_db))
    as (r & w' & Hrun & _ & _ & _ & _ & _ & _ & Hneg).
  eexists. split; [vm_compute; reflexivity|].
  apply Hneg; [reflexivity|].
  vm_compute in Hrun. injection Hrun as <- _. reflexivity.
Defined.

(** * Properties of the endpoints *)

(** ** [record_vital_signs] *)

Lemma check_and_create_alerts_frame globals P patient_id anomalies now w :
  let w' := snd (check_and_create_alerts globals P patient_id anomalies now w) in
  vital_signs (db w') = vital_signs (db w)
  /\ patients (db w') = patients (db w)
  /\ alert_configurations (db w') = alert_configurations (db w)
  /\ thresholds w' = thresholds w.
Proof.
  intros w'. subst w'.
  destruct (check_and_create_alerts globals P patient_id anomalies now w)
    as [r0 w0] eqn:Hc.
  cbn [snd]. revert Hc.
  unfold check_and_create_alerts, W.try_except, check_and_create_alerts_try.
  unfold W.bind at 1.
  destruct (alerts_loop_frame globals patient_id now anomalies w)
    as (r & created & w1 & -> & (A1 & A2 & A3 & A4 & A5) & _ & R).
  destruct r as [l|e].
  2:{ intros H. injection H as _ <-. cbn. rewrite A1, A2. auto. }
  destruct l as [|al l].
  { intros H. injection H as _ <-. rewrite A1, A2. auto. }
  unfold W.bind at 1. unfold W.commit.
  destruct (forallb (insert_anomaly_ok P) (new_anomalies w1)
            && forallb (insert_alert_ok P) (new_alerts w1)).
  2:{ intros H. injection H as _ <-. cbn. rewrite A1, A2. auto. }
  unfold W.bind at 1. unfold W.emit at 1.
  match goal with
  | |- context [notify_all P ?l ?wc] =>
      destruct (notify_all_outcome P l wc) as (w2 & -> & (J1 & J2 & _))
  end.
  intros H. injection H as _ <-.
  rewrite J1, J2. cbn. rewrite A1, A2. auto.
Qed.

Lemma check_and_create_alerts_returns globals P patient_id anomalies now w :
  exists l,
    fst (check_and_create_alerts globals P patient_id anomalies now w) = Ok l.
Proof.
  destruct (check_and_create_alerts_outcome globals P patient_id anomalies
              now w) as (l & w' & -> & _).
  now exists l.
Qed.

Lemma detect_anomalies_returns P patient_id vitals_data now w :
  exists l, fst (detect_anomalies P patient_id vitals_data now w) = Ok l.
Proof.
  destruct (detect_anomalies_outcome P patient_id vitals_data now w)
    as (l & w' & -> & _).
  now exists l.
Qed.

Lemma run_detection_outcome globals P patient_id vitals_data detection_time
    alert_time w :
  exists w',
    Api.run_detection globals P patient_id vitals_data detection_time
      alert_time w = (Api.Value tt, w')
    /\ vital_signs (db w') = vital_signs (db w)
    /\ patients (db w') = patients (db w)
    /\ alert_configurations (db w') = alert_configurations (db w).
Proof.
  unfold Api.run_detection, Api.except_exception.
  unfold Api.bind at 1. unfold Api.lift at 1.
  destruct (detect_anomalies_returns P patient_id vitals_data detection_time w)
    as (l & Hl).
  destruct (detect_anomalies_frame P patient_id vitals_data detection_time w)
    as (Fc & Fp & Fv).
  destruct (detect_anomalies P patient_id vitals_data detection_time w)
    as [r1 w1].
  cbn [fst snd] in Hl, Fc, Fp, Fv. subst r1.
  destruct l as [|a l].
  { exists w1. auto. }
  unfold Api.bind at 1. unfold Api.lift at 1. unfold W.emit.
  unfold Api.bind at 1. unfold Api.lift at 1.
  match goal with
  | |- context [check_and_create_alerts globals P patient_id ?l ?t ?wc] =>
      destruct (check_and_create_alerts_returns globals P patient_id l t wc)
        as (l2 & Hl2);
      destruct (check_and_create_alerts_frame globals P patient_id l t wc)
        as (Gv & Gp & Gc & _);
      destruct (check_and_create_alerts globals P patient_id l t wc)
        as [r2 w2]
  end.
  cbn [fst snd db] in Hl2, Gv, Gp, Gc. subst r2.
  exists w2. unfold Api.ret. split; [reflexivity|].
  rewrite Gv, Gp, Gc. auto.
Qed.

Lemma record_vital_signs_unknown globals P E patient_id vitals now
    detection_time alert_time w :
  Api.find_patient patient_id (db w) = None ->
  Api.record_vital_signs globals P E patient_id vitals now detection_time
    alert_time w
  = (Api.Raised (Api.Http 404 "Patient not found"), w).
Proof.
  intros Ep.
  unfold Api.record_vital_signs, Api.except_http_reraise.
  unfold Api.bind at 1. unfold Api.lift at 1, W.get. cbv beta iota.
  rewrite Ep. reflexivity.
Qed.

Lemma record_vital_signs_refused globals P E patient_id vitals now
    detection_time alert_time w :
  Api.find_patient patient_id (db w) <> None ->
  Api.vital_sign_ok E (Api.vital_sign_row patient_id vitals now)
  && forallb (insert_anomaly_ok P) (new_anomalies w)
  && forallb (insert_alert_ok P) (new_alerts w) = false ->
  Api.record_vital_signs globals P E patient_id vitals now detection_time
    alert_time w
  = (Api.Raised (Api.Http 500 "Failed to record vital signs"),
     {| thresholds := thresholds w; db := db w;
        new_anomalies := []; new_alerts := [];
        journal :=
          (journal w
           ++ [LogException "Error recording vital signs" IntegrityError;
               Rollback])%list |}).
Proof.
  intros Ep Hc.
  unfold Api.record_vital_signs, Api.except_http_reraise.
  unfold Api.bind at 1. unfold Api.lift at 1, W.get. cbv beta iota.
  destruct (Api.find_patient patient_id (db w)) as [patient|]; [|now elim Ep].
  cbv zeta. unfold Api.bind at 1. unfold Api.commit_with. rewrite Hc.
  cbn. rewrite <- app_assoc. reflexivity.
Qed.

Lemma record_vital_signs_accepted globals P E patient_id vitals now
    detection_time alert_time w :
  Api.find_patient patient_id (db w) <> None ->
  Api.vital_sign_ok E (Api.vital_sign_row patient_id vitals now)
  && forallb (insert_anomaly_ok P) (new_anomalies w)
  && forallb (insert_alert_ok P) (new_alerts w) = true ->
  exists w',
    Api.record_vital_signs globals P E patient_id vitals now detection_time
      alert_time w
    = (Api.Value (Api.vital_sign_row patient_id vitals now), w')
    /\ vital_signs (db w')
       = (vital_signs (db w) ++ [Api.vital_sign_row patient_id vitals now])%list
    /\ patients (db w') = patients (db w)
    /\ alert_configurations (db w') = alert_configurations (db w).
Proof.
  intros Ep Hc.
  unfold Api.record_vital_signs, Api.except_http_reraise.
  unfold Api.bind at 1. unfold Api.lift at 1, W.get. cbv beta iota.
  destruct (Api.find_patient patient_id (db w)) as [patient|]; [|now elim Ep].
  cbv zeta. unfold Api.bind at 1. unfold Api.commit_with. rewrite Hc.
  unfold Api.bind at 1.
  match goal with
  | |- context [Api.run_detection globals P patient_id ?s ?t1 ?t2 ?wc] =>
      destruct (run_detection_outcome globals P patient_id s t1 t2 wc)
        as (w1 & -> & Fv & Fp & Fc)
  end.
  cbn [db vital_signs patients alert_configurations Api.add_vital_sign]
    in Fv, Fp, Fc.
  eexists. split; [reflexivity|]. cbn. auto.
Qed.

(** [record_vital_signs] answers 404 for a patient it does not find and
    leaves everything as it was. For a patient on record the reading is
    committed before detection runs: when the engine accepts the row the
    endpoint returns it and the table of readings ends with it, whatever
    detection and the alert service do or fail to do after it; when the
    engine refuses the commit the endpoint answers 500, the committed
    rows are unchanged, the session is emptied, and the journal gains
    the logged error and the rollback. No other answer exists. *)
Theorem recording_outlives_detection (globals : list string) (P : Platform)
    (E : Api.Engine) (patient_id : string) (vitals : VitalSignCreate.t)
    (now detection_time alert_time : Z) (w : World) :
  let call := Api.record_vital_signs globals P E patient_id vitals now
                detection_time alert_time w in
  let row := Api.vital_sign_row patient_id vitals now in
  let accepted :=
    Api.vital_sign_ok E row
    && forallb (insert_anomaly_ok P) (new_anomalies w)
    && forallb (insert_alert_ok P) (new_alerts w) in
  (Api.find_patient patient_id (db w) = None ->
   call = (Api.Raised (Api.Http 404 "Patient not found"), w))
  /\ (Api.find_patient patient_id (db w) <> None ->
      accepted = true ->
      exists w',
        call = (Api.Value row, w')
        /\ vital_signs (db w') = (vital_signs (db w) ++ [row])%list
        /\ patients (db w') = patients (db w)
        /\ alert_configurations (db w') = alert_configurations (db w))
  /\ (Api.find_patient patient_id (db w) <> None ->
      accepted = false ->
      call = (Api.Raised (Api.Http 500 "Failed to record vital signs"),
              {| thresholds := thresholds w; db := db w;
                 new_anomalies := []; new_alerts := [];
                 journal :=
                   (journal w
                    ++ [LogException "Error recording vital signs"
                          IntegrityError;
                        Rollback])%list |})).
Proof.
  intros call row accepted. split; [|split].
  - apply record_vital_signs_unknown.
  - apply record_vital_signs_accepted.
  - apply record_vital_signs_refused.
Qed.

Lemma filter_notification_app (j : list event) (evs : list event) :
  forallb (fun ev => negb (is_notification ev)) evs = true ->
  List.filter is_notification (j ++ evs)%list = List.filter is_notification j.
Proof.
  intros H. rewrite List.filter_app.
  replace (List.filter is_notification evs) with (@nil event).
  - apply app_nil_r.
  - induction evs as [|ev evs IH]; [reflexivity|].
    cbn in H. apply andb_prop in H as [H1 H2].
    cbn. destruct (is_notification ev); [discriminate H1|]. now apply IH.
Qed.

Lemma detect_anomalies_alerts P patient_id vitals_data now w :
  new_alerts w = [] ->
  let w' := snd (detect_anomalies P patient_id vitals_data now w) in
  alerts (db w') = alerts (db w)
  /\ new_alerts w' = []
  /\ List.filter is_notification (journal w')
     = List.filter is_notification (journal w).
Proof.
  intros Hn w'. subst w'.
  destruct (detect_anomalies P patient_id vitals_data now w) as [r0 w0] eqn:Hc.
  cbn [snd]. revert Hc.
  unfold detect_anomalies, W.try_except, detect_anomalies_try.
  unfold W.bind, W.get, W.set_thresholds, W.lift.
  cbn [thresholds db].
  destruct (detect_threshold_anomalies _ vitals_data) as [th|e].
  2:{ intros H. injection H as _ <-. cbn.
      split; [reflexivity|]. split; [reflexivity|].
      rewrite <- app_assoc. now apply filter_notification_app. }
  destruct (detect_statistical_anomalies _ _ _ _ _) as [st|e].
  2:{ intros H. injection H as _ <-. cbn.
      split; [reflexivity|]. split; [reflexivity|].
      rewrite <- app_assoc. now apply filter_notification_app. }
  rewrite save_anomalies_adds.
  destruct (map (make_anomaly patient_id now) (th ++ st)) as [|a l].
  { intros H. injection H as _ <-. cbn. auto. }
  unfold W.commit, W.emit, W.ret.
  cbn [thresholds db new_anomalies new_alerts journal].
  destruct (forallb _ _ && forallb _ _).
  - intros H. injection H as _ <-. cbn. rewrite Hn, app_nil_r.
    split; [reflexivity|]. split; [reflexivity|].
    rewrite <- app_assoc. now apply filter_notification_app.
  - intros H. injection H as _ <-. cbn.
    split; [reflexivity|]. split; [reflexivity|].
    rewrite <- app_assoc. now apply filter_notification_app.
Qed.

Lemma check_and_create_alerts_as_written P patient_id anomalies now w :
  check_and_create_alerts alert_service_globals P patient_id anomalies now w
  = (Ok [],
     if existsb qualifies anomalies
     then {| thresholds := thresholds w; db := db w;
             new_anomalies := []; new_alerts := [];
             journal :=
               (journal w
                ++ [LogException "Error creating alerts"
                      (NameError "timedelta");
                    Rollback])%list |}
     else w).
Proof.
  unfold check_and_create_alerts, W.try_except, check_and_create_alerts_try.
  unfold W.bind at 1. rewrite alerts_loop_as_written.
  destruct (existsb qualifies anomalies); [|reflexivity].
  cbn. rewrite <- app_assoc. reflexivity.
Qed.

Lemma run_detection_as_written P patient_id vitals_data detection_time
    alert_time w :
  new_alerts w = [] ->
  exists w',
    Api.run_detection alert_service_globals P patient_id vitals_data
      detection_time alert_time w = (Api.Value tt, w')
    /\ alerts (db w') = alerts (db w)
    /\ new_alerts w' = []
    /\ List.filter is_notification (journal w')
       = List.filter is_notification (journal w).
Proof.
  intros Hn.
  unfold Api.run_detection, Api.except_exception.
  unfold Api.bind at 1. unfold Api.lift at 1.
  destruct (detect_anomalies_returns P patient_id vitals_data detection_time w)
    as (l & Hl).
  destruct (detect_anomalies_alerts P patient_id vitals_data detection_time w
              Hn) as (Fa & Fn & Fj).
  destruct (detect_anomalies P patient_id vitals_data detection_time w)
    as [r1 w1].
  cbn [fst snd] in Hl, Fa, Fn, Fj. subst r1.
  destruct l as [|a l].
  { exists w1. auto. }
  unfold Api.bind at 1. unfold Api.lift at 1. unfold W.emit.
  unfold Api.bind at 1. unfold Api.lift at 1.
  rewrite check_and_create_alerts_as_written.
  cbn [db journal new_alerts].
  eexists. unfold Api.ret. split; [reflexivity|].
  destruct (existsb qualifies (a :: l)); cbn [db journal new_alerts].
  - split; [exact Fa|]. split; [reflexivity|].
    rewrite <- Fj, <- app_assoc. now apply filter_notification_app.
  - split; [exact Fa|]. split; [exact Fn|].
    rewrite <- Fj. now apply filter_notification_app.
Qed.

(** As the module of the alert service is written, recording a reading
    never raises an alert, whatever the reading: in a session that holds
    no alert, the table of alerts after [record_vital_signs] is the one
    before it, the session holds no alert, and the journal gains no
    console or email notification. *)
Theorem recording_never_alerts_as_written (P : Platform) (E : Api.Engine)
    (patient_id : string) (vitals : VitalSignCreate.t)
    (now detection_time alert_time : Z) (w : World) :
  new_alerts w = [] ->
  let w' := snd (Api.record_vital_signs alert_service_globals P E patient_id
                   vitals now detection_time alert_time w) in
  alerts (db w') = alerts (db w)
  /\ new_alerts w' = []
  /\ List.filter is_notification (journal w')
     = List.filter is_notification (journal w).
Proof.
  intros Hn w'. subst w'.
  destruct (Api.find_patient patient_id (db w)) as [patient|] eqn:Ep.
  2:{ rewrite record_vital_signs_unknown by exact Ep. cbn [snd]. auto. }
  destruct (Api.vital_sign_ok E (Api.vital_sign_row patient_id vitals now)
            && forallb (insert_anomaly_ok P) (new_anomalies w)
            && forallb (insert_alert_ok P) (new_alerts w)) eqn:Hc.
  2:{ rewrite record_vital_signs_refused; [|congruence|exact Hc].
      cbn [snd db new_alerts journal]. split; [reflexivity|].
      split; [reflexivity|]. now apply filter_notification_app. }
  destruct (Api.record_vital_signs alert_service_globals P E patient_id
              vitals now detection_time alert_time w) as [o w0] eqn:Hcall.
  cbn [snd]. revert Hcall.
  unfold Api.record_vital_signs, Api.except_http_reraise.
  unfold Api.bind at 1. unfold Api.lift at 1, W.get. cbv beta iota.
  rewrite Ep.
  cbv zeta. unfold Api.bind at 1. unfold Api.commit_with. rewrite Hc.
  unfold Api.bind at 1.
  match goal with
  | |- context [Api.run_detection _ P patient_id ?s ?t1 ?t2 ?wc] =>
      destruct (run_detection_as_written P patient_id s t1 t2 wc eq_refl)
        as (w1 & -> & Fa & Fn & Fj)
  end.
  cbn [db alerts journal Api.add_vital_sign] in Fa, Fj.
  intros H. injection H as _ <-.
  cbn. rewrite Fa, Fn, Hn, app_nil_r. split; [reflexivity|].
  split; [reflexivity|].
  rewrite filter_notification_app by reflexivity.
  rewrite Fj. now apply filter_notification_app.
Qed.

Lemma detect_threshold_anomalies_returns th vitals_data :
  (forall metric t, th !! metric = Some t -> ~ tmax t - tmin t == 0) ->
  (forall metric value,
     In (metric, value) vitals_data -> is_Some (th !! metric) ->
     number_or_none value = true) ->
  exists out, detect_threshold_anomalies th vitals_data = Ok out.
Proof.
  intros Hw Hn.
  induction vitals_data as [|[metric value] rest IH].
  - now exists [].
  - destruct IH as (more & Hmore).
    { intros m v Hin. apply Hn. now right. }
    destruct (threshold_item_flags th metric value) as (here & Hhere & _).
    { apply Hw. }
    { apply Hn. now left. }
    exists (here ++ more)%list.
    cbn [detect_threshold_anomalies]. rewrite Hhere. cbn [Py.bind].
    rewrite Hmore. reflexivity.
Qed.

Lemma number_or_none_py_float o : number_or_none (Api.py_float o) = true.
Proof. now destruct o. Qed.

Lemma outside_default_keys (th : gmap string threshold) k :
  dom th = dom default_thresholds ->
  default_thresholds !! k = None ->
  th !! k = None.
Proof.
  intros Hd Hk. apply not_elem_of_dom. rewrite Hd.
  now apply not_elem_of_dom.
Qed.

(** The sample [record_vital_signs] hands to the detectors holds three
    items that are no measurement: the device, the patient and the
    timestamp. Neither detector reads them: while the shared thresholds
    have the keys of the defaults and no range without width, the
    threshold detector returns on every sample the endpoint builds, and
    the statistical detector returns on it whatever the history. *)
Theorem endpoint_samples_fit_the_detectors (sqrt : Q -> Q)
    (th : gmap string threshold) (patient_id : string)
    (vitals : VitalSignCreate.t) (now detection_time : Z) (d : Database) :
  dom th = dom default_thresholds ->
  (forall metric t, th !! metric = Some t -> ~ tmax t - tmin t == 0) ->
  let sample := Api.vitals_data_of patient_id vitals now in
  (exists out, detect_threshold_anomalies th sample = Ok out)
  /\ (exists out,
        detect_statistical_anomalies sqrt patient_id sample detection_time d
        = Ok out).
Proof.
  intros Hd Hw sample. split.
  - apply detect_threshold_anomalies_returns; [exact Hw|].
    intros metric value Hin [t Ht]. cbn in Hin.
    repeat (destruct Hin as [Hin|Hin];
            [injection Hin as <- <-;
             first [ apply number_or_none_py_float
                   | rewrite (outside_default_keys th _ Hd) in Ht;
                     [discriminate Ht|reflexivity] ]|]).
    destruct Hin.
  - unfold detect_statistical_anomalies.
    destruct (length _ <? 10)%nat; [now exists []|].
    destruct (statistical_loop_flags sqrt
                (historical_vitals patient_id detection_time d) sample)
      as (out & Hout & _); [|now exists out].
    intros metric value Hin [col Hcol]. cbn in Hin.
    repeat (destruct Hin as [Hin|Hin];
            [injection Hin as <- <-;
             first [ apply number_or_none_py_float | discriminate Hcol ]|]).
    destruct Hin.
Qed.

Lemma endpoint_samples_fit_the_detectors_witness :
  (exists out,
     detect_threshold_anomalies default_thresholds
       (Api.vitals_data_of "P1" (heart_rate_request 200) 0) = Ok out)
  /\ (exists out,
        detect_statistical_anomalies sqrt_exact "P1"
          (Api.vitals_data_of "P1" (heart_rate_request 200) 0) 0
          steady_history = Ok out).
Proof.
  apply (endpoint_samples_fit_the_detectors sqrt_exact default_thresholds
           "P1" (heart_rate_request 200) 0 0 steady_history).
  - reflexivity.
  - apply default_ranges_have_width.
Defined.

Lemma recording_never_alerts_as_written_witness :
  let call := Api.record_vital_signs alert_service_globals sound_platform
                lenient_engine "P1" (heart_rate_request 200) 0 0 0
                (start clinic_db) in
  (alerts (db (snd call)) = []
   /\ new_alerts (snd call) = []
   /\ List.filter is_notification (journal (snd call)) = [])
  /\ map Anomaly.severity (anomalies (db (snd call))) = [CRITICAL].
Proof.
  split.
  - exact (recording_never_alerts_as_written sound_platform lenient_engine
             "P1" (heart_rate_request 200) 0 0 0 (start clinic_db) eq_refl).
  - vm_compute. reflexivity.
Defined.

Lemma recording_outlives_detection_witness :
  let call := Api.record_vital_signs alert_service_globals sound_platform
                lenient_engine "A" (spo2_request 90) 0 0 0 (start ward_db) in
  (exists w',
     call = (Api.Value (Api.vital_sign_row "A" (spo2_request 90) 0), w')
     /\ vital_signs (db w') = [Api.vital_sign_row "A" (spo2_request 90) 0]
     /\ patients (db w') = [patient_A]
     /\ alert_configurations (db w') = [degenerate_override])
  /\ In (LogException "Error in anomaly detection" ZeroDivisionError)
        (journal (snd call)).
Proof.
  split.
  - apply (proj1 (proj2 (recording_outlives_detection alert_service_globals
                           sound_platform lenient_engine "A" (spo2_request 90)
                           0 0 0 (start ward_db)))).
    + discriminate.
    + reflexivity.
  - vm_compute. right. left. reflexivity.
Defined.

(** ** [create_patient] *)

Lemma create_patient_existing P E patient w existing :
  Api.find_patient (PatientCreate.patient_id patient) (db w) = Some existing ->
  Api.create_patient P E patient w
  = (Api.Raised (Api.Http 500 "Failed to create patient"),
     {| thresholds := thresholds w; db := db w;
        new_anomalies := []; new_alerts := [];
        journal := (journal w
                    ++ [Log "Error creating patient"; Rollback])%list |}).
Proof.
  intros Ep.
  unfold Api.create_patient, Api.except_exception.
  unfold Api.bind at 1. unfold Api.lift at 1, W.get. cbv beta iota.
  rewrite Ep. cbn. rewrite <- app_assoc. reflexivity.
Qed.

Lemma create_patient_refused P E patient w :
  Api.find_patient (PatientCreate.patient_id patient) (db w) = None ->
  Api.patient_ok E (Api.patient_row patient)
  && forallb (insert_anomaly_ok P) (new_anomalies w)
  && forallb (insert_alert_ok P) (new_alerts w) = false ->
  Api.create_patient P E patient w
  = (Api.Raised (Api.Http 500 "Failed to create patient"),
     {| thresholds := thresholds w; db := db w;
        new_anomalies := []; new_alerts := [];
        journal :=
          (journal w
           ++ [LogException "Error creating patient" IntegrityError;
               Rollback])%list |}).
Proof.
  intros Ep Hc.
  unfold Api.create_patient, Api.except_exception.
  unfold Api.bind at 1. unfold Api.lift at 1, W.get. cbv beta iota.
  rewrite Ep. cbv zeta. unfold Api.bind at 1. unfold Api.commit_with.
  rewrite Hc. cbn. rewrite <- app_assoc. reflexivity.
Qed.

Lemma create_patient_accepted P E patient w :
  Api.find_patient (PatientCreate.patient_id patient) (db w) = None ->
  Api.patient_ok E (Api.patient_row patient)
  && forallb (insert_anomaly_ok P) (new_anomalies w)
  && forallb (insert_alert_ok P) (new_alerts w) = true ->
  Api.create_patient P E patient w
  = (Api.Value (Api.patient_row patient),
     {| thresholds := thresholds w;
        db := {| patients := patients (db w) ++ [Api.patient_row patient];
                 vital_signs := vital_signs (db w);
                 anomalies := anomalies (db w) ++ new_anomalies w;
                 alerts := alerts (db w) ++ new_alerts w;
                 alert_configurations := alert_configurations (db w) |};
        new_anomalies := []; new_alerts := [];
        journal := (journal w ++ [Commit; Log "Created new patient"])%list |}).
Proof.
  intros Ep Hc.
  unfold Api.create_patient, Api.except_exception.
  unfold Api.bind at 1. unfold Api.lift at 1, W.get. cbv beta iota.
  rewrite Ep. cbv zeta. unfold Api.bind at 1. unfold Api.commit_with.
  rewrite Hc. cbn. rewrite <- app_assoc. reflexivity.
Qed.

Lemma find_patient_none patient_id d :
  Api.find_patient patient_id d = None <->
  ~ In patient_id (map Patient.patient_id (patients d)).
Proof.
  unfold Api.find_patient.
  induction (patients d) as [|p l IH]; cbn.
  - tauto.
  - destruct (String.eqb_spec (Patient.patient_id p) patient_id) as [->|Hne].
    + cbn. split; [discriminate|]. intros H. elim H. now left.
    + rewrite IH. tauto.
Qed.

Lemma find_patient_some patient_id d p :
  Api.find_patient patient_id d = Some p ->
  In p (patients d) /\ Patient.patient_id p = patient_id.
Proof.
  unfold Api.find_patient.
  induction (patients d) as [|q l IH]; cbn; [discriminate|].
  destruct (String.eqb_spec (Patient.patient_id q) patient_id) as [E|Hne].
  - cbn. intros H. injection H as <-. auto.
  - intros H. destruct (IH H). auto.
Qed.

Lemma find_patient_added patient_id d row :
  Api.find_patient patient_id d = None ->
  Patient.patient_id row = patient_id ->
  Api.find_patient patient_id (Api.add_patient row d) = Some row.
Proof.
  unfold Api.find_patient, Api.add_patient. cbn [patients].
  intros Hn Hr. rewrite List.filter_app.
  destruct (List.filter _ (patients d)) as [|x l]; [|discriminate Hn].
  cbn. rewrite Hr, String.eqb_refl. reflexivity.
Qed.

(** A request for a patient id that is on record is not answered 400:
    the [HTTPException] of the check is caught by the handler of the
    same endpoint, which logs it, rolls back and answers 500, the answer
    of a refused commit. No call of [create_patient] is answered 400,
    and none raises anything but the 500. *)
Theorem duplicate_patient_is_answered_500 (P : Platform) (E : Api.Engine)
    (patient : PatientCreate.t) (w : World) :
  let call := Api.create_patient P E patient w in
  (forall existing,
     Api.find_patient (PatientCreate.patient_id patient) (db w)
     = Some existing ->
     call = (Api.Raised (Api.Http 500 "Failed to create patient"),
             {| thresholds := thresholds w; db := db w;
                new_anomalies := []; new_alerts := [];
                journal := (journal w
                            ++ [Log "Error creating patient";
                                Rollback])%list |}))
  /\ (forall r, fst call = Api.Raised r ->
      r = Api.Http 500 "Failed to create patient"
      /\ db (snd call) = db w).
Proof.
  intros call. subst call. split.
  - intros existing. apply create_patient_existing.
  - destruct (Api.find_patient (PatientCreate.patient_id patient) (db w))
      as [existing|] eqn:Ep.
    { rewrite (create_patient_existing P E patient w existing Ep).
      cbn. intros r H. injection H as <-. auto. }
    destruct (Api.patient_ok E (Api.patient_row patient)
              && forallb (insert_anomaly_ok P) (new_anomalies w)
              && forallb (insert_alert_ok P) (new_alerts w)) eqn:Hc.
    + rewrite (create_patient_accepted P E patient w Ep Hc).
      cbn. discriminate.
    + rewrite (create_patient_refused P E patient w Ep Hc).
      cbn. intros r H. injection H as <-. auto.
Qed.

(** A patient that [create_patient] returns is on record from then on:
    [get_patient] answers the id with the row, and a second request for
    the id is answered 500. Whatever the answer, patient ids that were
    pairwise distinct stay so. *)
Theorem created_patient_is_on_record (P : Platform) (E : Api.Engine)
    (patient : PatientCreate.t) (w : World) :
  let call := Api.create_patient P E patient w in
  let patient_id := PatientCreate.patient_id patient in
  (forall row, fst call = Api.Value row ->
     row = Api.patient_row patient
     /\ Api.find_patient patient_id (db w) = None
     /\ patients (db (snd call)) = (patients (db w) ++ [row])%list
     /\ Api.get_patient patient_id (snd call) = (Api.Value row, snd call)
     /\ forall P' E' again,
          PatientCreate.patient_id again = patient_id ->
          fst (Api.create_patient P' E' again (snd call))
          = Api.Raised (Api.Http 500 "Failed to create patient"))
  /\ (List.NoDup (map Patient.patient_id (patients (db w))) ->
      List.NoDup (map Patient.patient_id (patients (db (snd call))))).
Proof.
  intros call patient_id. subst call patient_id.
  destruct (Api.find_patient (PatientCreate.patient_id patient) (db w))
    as [existing|] eqn:Ep.
  { rewrite (create_patient_existing P E patient w existing Ep).
    cbn. split; [discriminate|auto]. }
  destruct (Api.patient_ok E (Api.patient_row patient)
            && forallb (insert_anomaly_ok P) (new_anomalies w)
            && forallb (insert_alert_ok P) (new_alerts w)) eqn:Hc.
  2:{ rewrite (create_patient_refused P E patient w Ep Hc).
      cbn. split; [discriminate|auto]. }
  rewrite (create_patient_accepted P E patient w Ep Hc).
  cbn [fst snd db patients].
  assert (Hfound :
    Api.find_patient (PatientCreate.patient_id patient)
      {| patients := patients (db w) ++ [Api.patient_row patient];
         vital_signs := vital_signs (db w);
         anomalies := anomalies (db w) ++ new_anomalies w;
         alerts := alerts (db w) ++ new_alerts w;
         alert_configurations := alert_configurations (db w) |}
    = Some (Api.patient_row patient)).
  { unfold Api.find_patient in *. cbn [patients].
    rewrite List.filter_app.
    destruct (List.filter _ (patients (db w))) as [|x l]; [|discriminate Ep].
    cbn. rewrite String.eqb_refl. reflexivity. }
  split.
  - intros row H. injection H as <-.
    split; [reflexivity|]. split; [reflexivity|]. split; [reflexivity|].
    split.
    + unfold Api.get_patient, Api.except_http_reraise.
      unfold Api.bind at 1. unfold Api.lift at 1, W.get. cbv beta iota.
      cbn [db]. rewrite Hfound. reflexivity.
    + intros P' E' again Hid.
      erewrite create_patient_existing; [reflexivity|].
      cbn [db]. rewrite Hid. exact Hfound.
  - intros Hnd. rewrite map_app. cbn [map].
    apply List.NoDup_app; [exact Hnd| |].
    + constructor; [intros []|constructor].
    + intros x Hx [<-|[]].
      apply find_patient_none in Ep. now apply Ep.
Qed.

(** ** [acknowledge_alert] *)







(** ** [get_current_status] *)

Lemma insert_desc_In {A} (key : A -> Z) x y l :
  In y (Api.insert_desc key x l) <-> y = x \/ In y l.
Proof.
  induction l as [|z l IH]; cbn.
  - intuition.
  - destruct (key z <=? key x)%Z; cbn; [intuition|].
    rewrite IH. intuition.
Qed.

Lemma order_by_desc_In {A} (key : A -> Z) y l :
  In y (Api.order_by_desc key l) <-> In y l.
Proof.
  induction l as [|x l IH]; cbn; [tauto|].
  rewrite insert_desc_In, IH. intuition.
Qed.

Lemma filter_head_existsb {A} (f : A -> bool) l :
  match List.filter f l with
  | [] => existsb f l = false
  | _ :: _ => existsb f l = true
  end.
Proof.
  induction l as [|x l IH]; cbn; [reflexivity|].
  destruct (f x); cbn; [reflexivity|exact IH].
Qed.

Lemma overall_status_cases l :
  Api.overall_status l
  = match l with
    | [] => "NORMAL"
    | _ :: _ =>
        if existsb (fun a => SeverityLevel_eqb (Anomaly.severity a) CRITICAL) l
        then "CRITICAL"
        else if existsb (fun a => SeverityLevel_eqb (Anomaly.severity a)
                                    WARNING) l
             then "WARNING" else "INFO"
    end.
Proof.
  unfold Api.overall_status. destruct l as [|a l]; [reflexivity|].
  pose proof (filter_head_existsb
                (fun a => SeverityLevel_eqb (Anomaly.severity a) CRITICAL)
                (a :: l)) as Hc.
  pose proof (filter_head_existsb
                (fun a => SeverityLevel_eqb (Anomaly.severity a) WARNING)
                (a :: l)) as Hw.
  cbv zeta.
  destruct (List.filter _ (a :: l)); rewrite Hc; [|reflexivity].
  destruct (List.filter _ (a :: l)); rewrite Hw; reflexivity.
Qed.

Lemma get_current_status_unknown validates patient_id now w :
  Api.find_patient patient_id (db w) = None ->
  Api.get_current_status validates patient_id now w
  = (Api.Raised (Api.UnboundLocalError "status"),
     {| thresholds := thresholds w; db := db w;
        new_anomalies := new_anomalies w; new_alerts := new_alerts w;
        journal := (journal w ++ [Log "Error fetching patient status"])%list |}).
Proof.
  intros Ep. unfold Api.get_current_status.
  unfold Api.bind at 1. unfold Api.lift at 1, W.get. cbv beta iota.
  rewrite Ep. reflexivity.
Qed.

Lemma get_current_status_known validates patient_id now w patient :
  Api.find_patient patient_id (db w) = Some patient ->
  Api.get_current_status validates patient_id now w
  = if validates (Api.patient_status patient_id now (db w) patient)
    then (Api.Value (Api.patient_status patient_id now (db w) patient), w)
    else (Api.Raised (Api.AttributeError "HTTP_500_INTERNAL_SERVER_ERROR"),
          {| thresholds := thresholds w; db := db w;
             new_anomalies := new_anomalies w; new_alerts := new_alerts w;
             journal := (journal w
                         ++ [Log "Error fetching patient status"])%list |}).
Proof.
  intros Ep. unfold Api.get_current_status.
  unfold Api.bind at 1. unfold Api.lift at 1, W.get. cbv beta iota.
  rewrite Ep. cbv zeta.
  unfold Api.except_http_reraise.
  destruct (validates (Api.patient_status patient_id now (db w) patient));
    reflexivity.
Qed.

(** [get_current_status] never answers with an [HTTPException]. The
    function assigns to [status], which makes the name a local of it,
    so the [status.HTTP_404_NOT_FOUND] of the check for an unknown
    patient raises [UnboundLocalError]; the handler logs it and raises
    it again at its own [status.HTTP_500_INTERNAL_SERVER_ERROR]. An
    unknown patient is thus answered by an [UnboundLocalError] that
    leaves the endpoint, never by 404, and an error after the assignment
    by an [AttributeError]. The call changes no row and no session. *)
Theorem current_status_never_answers_http
    (validates : PatientStatus.t -> bool) (patient_id : string) (now : Z)
    (w : World) :
  let call := Api.get_current_status validates patient_id now w in
  (forall status_code detail,
     fst call <> Api.Raised (Api.Http status_code detail))
  /\ (Api.find_patient patient_id (db w) = None ->
      fst call = Api.Raised (Api.UnboundLocalError "status"))
  /\ (forall r, fst call = Api.Raised r ->
      journal (snd call)
      = (journal w ++ [Log "Error fetching patient status"])%list)
  /\ (forall response, fst call = Api.Value response -> snd call = w)
  /\ db (snd call) = db w
  /\ new_anomalies (snd call) = new_anomalies w
  /\ new_alerts (snd call) = new_alerts w.
Proof.
  intros call. subst call.
  destruct (Api.find_patient patient_id (db w)) as [patient|] eqn:Ep.
  - rewrite (get_current_status_known validates patient_id now w patient Ep).
    destruct (validates _); cbn; repeat split; try discriminate; auto.
  - rewrite (get_current_status_unknown validates patient_id now w Ep).
    cbn. repeat split; try discriminate; auto.
Qed.

(** The status [get_current_status] returns for a patient is the highest
    severity among the anomalies of the patient on record that are at
    most 24 hours old, and NORMAL when there is none. Whether an anomaly
    has been acknowledged plays no part, and an anomaly dated after the
    clock counts. *)
Theorem current_status_is_the_highest_recent_severity
    (validates : PatientStatus.t -> bool) (patient_id : string) (now : Z)
    (w : World) (response : PatientStatus.t) :
  fst (Api.get_current_status validates patient_id now w)
  = Api.Value response ->
  let recent a :=
    In a (anomalies (db w))
    /\ Anomaly.patient_id a = patient_id
    /\ (now - timedelta_hours 24 <= Anomaly.timestamp a)%Z in
  (forall a, In a (PatientStatus.recent_anomalies response) <-> recent a)
  /\ (PatientStatus.status response = "CRITICAL" <->
      exists a, recent a /\ Anomaly.severity a = CRITICAL)
  /\ (PatientStatus.status response = "WARNING" <->
      (exists a, recent a /\ Anomaly.severity a = WARNING)
      /\ forall a, recent a -> Anomaly.severity a <> CRITICAL)
  /\ (PatientStatus.status response = "INFO" <->
      (exists a, recent a)
      /\ forall a, recent a -> Anomaly.severity a = INFO)
  /\ (PatientStatus.status response = "NORMAL" <->
      forall a, ~ recent a).
Proof.
  intros Hv recent.
  destruct (Api.find_patient patient_id (db w)) as [patient|] eqn:Ep.
  2:{ rewrite (get_current_status_unknown validates patient_id now w Ep) in Hv.
      discriminate Hv. }
  rewrite (get_current_status_known validates patient_id now w patient Ep)
    in Hv.
  destruct (validates _); [|discriminate Hv].
  cbn [fst] in Hv. injection Hv as <-.
  unfold Api.patient_status. cbn [PatientStatus.recent_anomalies
                                     PatientStatus.status].
  set (l := Api.order_by_desc Anomaly.timestamp _).
  assert (Hin : forall a, In a l <-> recent a).
  { intros a. unfold l, recent. rewrite order_by_desc_In, List.filter_In.
    rewrite andb_true_iff, String.eqb_eq, Z.leb_le. tauto. }
  split; [exact Hin|].
  rewrite overall_status_cases.
  assert (Hc : existsb (fun a => SeverityLevel_eqb (Anomaly.severity a)
                                   CRITICAL) l = true
               <-> exists a, recent a /\ Anomaly.severity a = CRITICAL).
  { rewrite List.existsb_exists.
    split; intros (a & H1 & H2); exists a.
    - apply Hin in H1. apply SeverityLevel_eqb_eq in H2. auto.
    - apply Hin in H1. apply SeverityLevel_eqb_eq in H2. auto. }
  assert (Hw : existsb (fun a => SeverityLevel_eqb (Anomaly.severity a)
                                   WARNING) l = true
               <-> exists a, recent a /\ Anomaly.severity a = WARNING).
  { rewrite List.existsb_exists.
    split; intros (a & H1 & H2); exists a.
    - apply Hin in H1. apply SeverityLevel_eqb_eq in H2. auto.
    - apply Hin in H1. apply SeverityLevel_eqb_eq in H2. auto. }
  destruct l as [|a0 l0] eqn:El.
  { assert (Hnone : forall a, ~ recent a).
    { intros a Ha. apply Hin in Ha. destruct Ha. }
    split; [split; [discriminate|]|].
    { intros (a & Ha & _). now elim (Hnone a). }
    split; [split; [discriminate|]|].
    { intros ((a & Ha & _) & _). now elim (Hnone a). }
    split; [split; [discriminate|]|].
    { intros ((a & Ha) & _). now elim (Hnone a). }
    split; [intros _; exact Hnone|reflexivity]. }
  assert (Hsome : recent a0) by (apply Hin; now left).
  destruct (existsb (fun a => SeverityLevel_eqb (Anomaly.severity a) CRITICAL)
              (a0 :: l0)) eqn:Ec.
  { destruct (proj1 Hc eq_refl) as (ac & Hac & Sac).
    split; [split; [intros _; now exists ac|reflexivity]|].
    split; [split; [discriminate|]|].
    { intros (_ & Hno). now elim (Hno ac Hac). }
    split; [split; [discriminate|]|].
    { intros (_ & Hall). specialize (Hall ac Hac). congruence. }
    split; [discriminate|]. intros Hno. now elim (Hno a0). }
  assert (Hnc : forall a, recent a -> Anomaly.severity a <> CRITICAL).
  { intros a Ha Sa.
    assert (false = true) by (apply Hc; eauto).
    discriminate. }
  destruct (existsb (fun a => SeverityLevel_eqb (Anomaly.severity a) WARNING)
              (a0 :: l0)) eqn:Ew.
  { destruct (proj1 Hw eq_refl) as (aw & Haw & Saw).
    split; [split; [discriminate|]|].
    { intros (a & Ha & Sa). now elim (Hnc a Ha). }
    split; [split; [intros _; split; [now exists aw|exact Hnc]|reflexivity]|].
    split; [split; [discriminate|]|].
    { intros (_ & Hall). specialize (Hall aw Haw). congruence. }
    split; [discriminate|]. intros Hno. now elim (Hno a0). }
  assert (Hnw : forall a, recent a -> Anomaly.severity a <> WARNING).
  { intros a Ha Sa.
    assert (false = true) by (apply Hw; eauto).
    discriminate. }
  split; [split; [discriminate|]|].
  { intros (a & Ha & Sa). now elim (Hnc a Ha). }
  split; [split; [discriminate|]|].
  { intros ((a & Ha & Sa) & _). now elim (Hnw a Ha). }
  split.
  { split; [|reflexivity]. intros _. split; [now exists a0|].
    intros a Ha. specialize (Hnc a Ha). specialize (Hnw a Ha).
    destruct (Anomaly.severity a); congruence. }
  split; [discriminate|]. intros Hno. now elim (Hno a0).
Qed.

(** ** [create_alert_configuration] *)

Lemma same_key_iff config c :
  Api.same_key config c = true <-> configuration_key c = configuration_key config.
Proof.
  unfold Api.same_key, configuration_key.
  rewrite andb_true_iff, !String.eqb_eq.
  split; [intros [-> ->]; reflexivity|intros H; injection H; auto].
Qed.

Lemma first_at_some {A} (f : A -> bool) l i x :
  Api.first_at f l = Some (i, x) -> l !! i = Some x /\ f x = true.
Proof.
  revert i. induction l as [|y l IH]; intros i; cbn; [discriminate|].
  destruct (f y) eqn:Ey.
  - intros H. injection H as <- <-. auto.
  - destruct (Api.first_at f l) as [[j z]|]; [|discriminate].
    intros H. injection H as <- <-. cbn. now apply IH.
Qed.

Lemma first_at_none {A} (f : A -> bool) l :
  Api.first_at f l = None -> forall x, In x l -> f x = false.
Proof.
  induction l as [|y l IH]; cbn; [intros _ x []|].
  destruct (f y) eqn:Ey; [discriminate|].
  destruct (Api.first_at f l) as [[j z]|]; [discriminate|].
  intros _ x [<-|Hx]; [exact Ey|now apply IH].
Qed.

Lemma updated_configuration config existing :
  Api.same_key config existing = true ->
  {| AlertConfiguration.patient_id := AlertConfiguration.patient_id existing;
     AlertConfiguration.metric_name := AlertConfiguration.metric_name existing;
     AlertConfiguration.min_threshold := AlertConfiguration.min_threshold config;
     AlertConfiguration.max_threshold := AlertConfiguration.max_threshold config;
     AlertConfiguration.is_active := AlertConfiguration.is_active config;
     AlertConfiguration.notification_email :=
       AlertConfiguration.notification_email config |} = config.
Proof.
  unfold Api.same_key. rewrite andb_true_iff, !String.eqb_eq.
  intros [-> ->]. now destruct config.
Qed.

Lemma create_alert_configuration_cases P E config w :
  Api.create_alert_configuration P E config w
  = if Api.configuration_ok E config
       && forallb (insert_anomaly_ok P) (new_anomalies w)
       && forallb (insert_alert_ok P) (new_alerts w)
    then (Api.Value config,
          {| thresholds := thresholds w;
             db := {| patients := patients (db w);
                      vital_signs := vital_signs (db w);
                      anomalies := anomalies (db w) ++ new_anomalies w;
                      alerts := alerts (db w) ++ new_alerts w;
                      alert_configurations :=
                        upserted config (alert_configurations (db w)) |};
             new_anomalies := []; new_alerts := [];
             journal := (journal w ++ [Commit])%list |})
    else (Api.Raised (Api.Http 500 "Failed to create alert configuration"),
          {| thresholds := thresholds w; db := db w;
             new_anomalies := []; new_alerts := [];
             journal :=
               (journal w
                ++ [LogException "Error creating alert configuration"
                      IntegrityError;
                    Rollback])%list |}).
Proof.
  unfold Api.create_alert_configuration, Api.except_exception.
  unfold Api.bind at 1. unfold Api.lift at 1, W.get. cbv beta iota.
  unfold upserted.
  destruct (Api.first_at (Api.same_key config) (alert_configurations (db w)))
    as [[i existing]|] eqn:Ef.
  - apply first_at_some in Ef as (_ & Ek).
    cbv zeta. rewrite (updated_configuration config existing Ek).
    unfold Api.bind at 1. unfold Api.commit_with.
    destruct (_ && _ && _); cbn; [reflexivity|].
    rewrite <- app_assoc. reflexivity.
  - cbv zeta. unfold Api.bind at 1. unfold Api.commit_with.
    destruct (_ && _ && _); cbn; [reflexivity|].
    rewrite <- app_assoc. reflexivity.
Qed.

Lemma upserted_holds config configs : In config (upserted config configs).
Proof.
  unfold upserted.
  destruct (Api.first_at (Api.same_key config) configs) as [[i existing]|] eqn:Ef.
  - apply first_at_some in Ef as (Ei & _).
    apply list_elem_of_In. apply list_elem_of_lookup. exists i.
    apply list_lookup_insert_eq. now apply lookup_lt_Some in Ei.
  - apply in_or_app. right. now left.
Qed.

Lemma upserted_others config configs c :
  configuration_key c <> configuration_key config ->
  In c (upserted config configs) <-> In c configs.
Proof.
  intros Hk. unfold upserted.
  destruct (Api.first_at (Api.same_key config) configs) as [[i existing]|] eqn:Ef.
  - apply first_at_some in Ef as (Ei & Ek). apply same_key_iff in Ek.
    rewrite <- !list_elem_of_In, !list_elem_of_lookup.
    split; intros (j & Hj).
    + destruct (decide (i = j)) as [->|Hne].
      * rewrite list_lookup_insert_eq in Hj by now apply lookup_lt_Some in Ei.
        injection Hj as <-. now elim Hk.
      * rewrite list_lookup_insert_ne in Hj by exact Hne. now exists j.
    + destruct (decide (i = j)) as [->|Hne].
      * rewrite Ei in Hj. injection Hj as <-. now elim Hk.
      * exists j. now rewrite list_lookup_insert_ne.
  - rewrite in_app_iff. split; [|auto].
    intros [H|[<-|[]]]; [exact H|now elim Hk].
Qed.

Lemma upserted_keys config configs :
  List.NoDup (map configuration_key configs) ->
  List.NoDup (map configuration_key (upserted config configs)).
Proof.
  intros Hnd. unfold upserted.
  destruct (Api.first_at (Api.same_key config) configs) as [[i existing]|] eqn:Ef.
  - apply first_at_some in Ef as (Ei & Ek). apply same_key_iff in Ek.
    replace (map configuration_key (<[i:=config]> configs))
      with (map configuration_key configs); [exact Hnd|].
    change (map configuration_key (<[i:=config]> configs))
      with (configuration_key <$> <[i:=config]> configs).
    rewrite list_fmap_insert. symmetry. apply list_insert_id.
    rewrite list_lookup_fmap, Ei. cbn. now rewrite Ek.
  - rewrite map_app. cbn [map].
    apply List.NoDup_app; [exact Hnd| |].
    + constructor; [intros []|constructor].
    + intros k Hk [<-|[]]. apply in_map_iff in Hk as (c & Hc & Hin).
      pose proof (first_at_none _ _ Ef c Hin) as Hf.
      apply same_key_iff in Hc. congruence.
Qed.

Lemma upserted_only config configs c :
  List.NoDup (map configuration_key configs) ->
  In c (upserted config configs) ->
  configuration_key c = configuration_key config ->
  c = config.
Proof.
  intros Hnd Hin Hk.
  pose proof (upserted_keys config configs Hnd) as Hnd'.
  pose proof (upserted_holds config configs) as Hc.
  revert Hnd' Hin Hc. generalize (upserted config configs) as l.
  induction l as [|x l IH]; cbn; [intros _ []|].
  intros Hn. inversion Hn as [|? ? Hx Hl]; subst.
  intros [->|Hin] [Hc|Hc]; auto.
  - elim Hx. rewrite Hk. now apply in_map.
  - subst x. elim Hx. rewrite <- Hk. now apply in_map.
Qed.

(** [create_alert_configuration] keeps one configuration for each pair
    of patient and metric. A call that returns answers the
    configuration it was given and leaves it in the table, in the row of
    the pair when there was one and in a new row otherwise; the
    configurations of every other pair are as before; and pairs that
    were pairwise distinct stay so, whatever the answer. A refused
    commit is answered 500 and changes no row. *)
Theorem configuration_is_upserted (P : Platform) (E : Api.Engine)
    (config : AlertConfiguration.t) (w : World) :
  let call := Api.create_alert_configuration P E config w in
  let before := alert_configurations (db w) in
  let after := alert_configurations (db (snd call)) in
  (forall row,
     fst call = Api.Value row ->
     row = config
     /\ In config after
     /\ (forall c, configuration_key c <> configuration_key config ->
         In c after <-> In c before)
     /\ length after
        = if existsb (Api.same_key config) before then length before
          else S (length before))
  /\ (List.NoDup (map configuration_key before) ->
      List.NoDup (map configuration_key after))
  /\ (forall r,
        fst call = Api.Raised r ->
        r = Api.Http 500 "Failed to create alert configuration"
        /\ db (snd call) = db w).
Proof.
  intros call before after. subst call before after.
  rewrite create_alert_configuration_cases.
  destruct (Api.configuration_ok E config
            && forallb (insert_anomaly_ok P) (new_anomalies w)
            && forallb (insert_alert_ok P) (new_alerts w));
    cbn [fst snd db alert_configurations].
  - split; [|split; [apply upserted_keys|discriminate]].
    intros row H. injection H as <-.
    split; [reflexivity|]. split; [apply upserted_holds|].
    split; [intros c; apply upserted_others|].
    unfold upserted.
    pose proof (filter_head_existsb (Api.same_key config)
                  (alert_configurations (db w))) as Hex.
    destruct (Api.first_at (Api.same_key config) (alert_configurations (db w)))
      as [[i existing]|] eqn:Ef.
    + apply first_at_some in Ef as (Ei & Ek).
      replace (existsb (Api.same_key config) (alert_configurations (db w)))
        with true.
      * apply length_insert.
      * symmetry. apply List.existsb_exists. exists existing.
        split; [|exact Ek]. apply list_elem_of_In.
        apply list_elem_of_lookup. now exists i.
    + replace (existsb (Api.same_key config) (alert_configurations (db w)))
        with false.
      * rewrite length_app. cbn. lia.
      * symmetry. apply not_true_is_false. intros H.
        apply List.existsb_exists in H as (c & Hin & Hc).
        rewrite (first_at_none _ _ Ef c Hin) in Hc. discriminate.
  - split; [discriminate|]. split; [auto|].
    intros r H. injection H as <-. auto.
Qed.

Lemma last_bound_unique (side : AlertConfiguration.t -> option Q) metric l c
    (acc : option Q) :
  (forall c', In c' l -> AlertConfiguration.metric_name c' = metric ->
              c' = c) ->
  fold_left (fun acc c =>
               if String.eqb (AlertConfiguration.metric_name c) metric
               then match side c with Some b => Some b | None => acc end
               else acc) l acc
  = if existsb (fun c' => String.eqb (AlertConfiguration.metric_name c')
                                     metric) l
    then match side c with Some b => Some b | None => acc end
    else acc.
Proof.
  revert acc. induction l as [|x l IH]; intros acc Hu; [reflexivity|].
  cbn [fold_left existsb].
  rewrite IH by (intros c' Hc'; apply Hu; now right).
  destruct (String.eqb_spec (AlertConfiguration.metric_name x) metric)
    as [Ex|Nx]; cbn [orb]; [|reflexivity].
  rewrite (Hu x (or_introl eq_refl) Ex).
  destruct (existsb _ l); destruct (side c); reflexivity.
Qed.

(** A configuration reaches the detector with the next reading of its
    patient. While the table holds one configuration for each pair of
    patient and metric, the range detection uses for the metric after a
    configuration was posted is the range the shared thresholds had,
    with each bound the configuration gives in its place, when the
    configuration is active. Posted inactive it changes nothing: the
    range stays as the shared thresholds had it, which are the defaults
    only if no earlier call had overridden them. *)
Theorem posted_configuration_reaches_the_detector (P P' : Platform)
    (E : Api.Engine) (config row : AlertConfiguration.t) (w : World)
    (vitals_data : list (string * pyval)) (now : Z) :
  List.NoDup (map configuration_key (alert_configurations (db w))) ->
  fst (Api.create_alert_configuration P E config w) = Api.Value row ->
  let posted := snd (Api.create_alert_configuration P E config w) in
  let detected :=
    snd (detect_anomalies P' (AlertConfiguration.patient_id config)
           vitals_data now posted) in
  let metric := AlertConfiguration.metric_name config in
  thresholds detected !! metric
  = if AlertConfiguration.is_active config
    then overridden [config] metric <$> thresholds w !! metric
    else thresholds w !! metric.
Proof.
  intros Hnd Hv posted detected metric. subst posted detected.
  rewrite create_alert_configuration_cases in Hv |- *.
  destruct (Api.configuration_ok E config
            && forallb (insert_anomaly_ok P) (new_anomalies w)
            && forallb (insert_alert_ok P) (new_alerts w));
    [|discriminate Hv].
  clear Hv. cbn [snd].
  rewrite detect_anomalies_thresholds, fold_apply_config_lookup.
  cbn [thresholds db]. unfold custom_configs. cbn [alert_configurations].
  set (mine := List.filter _ _).
  assert (Hu : forall c', In c' mine ->
                 AlertConfiguration.metric_name c' = metric -> c' = config).
  { intros c' Hin Hm. unfold mine in Hin. apply List.filter_In in Hin.
    destruct Hin as (Hin & Hf). apply andb_true_iff in Hf as (Hp & _).
    apply String.eqb_eq in Hp.
    apply (upserted_only config (alert_configurations (db w))); auto.
    unfold configuration_key. now rewrite Hp, Hm. }
  assert (Hex : existsb (fun c' => String.eqb
                                     (AlertConfiguration.metric_name c') metric)
                  mine = AlertConfiguration.is_active config).
  { destruct (AlertConfiguration.is_active config) eqn:Ha.
    - apply List.existsb_exists. exists config. split.
      + unfold mine. apply List.filter_In. split.
        * apply upserted_holds.
        * now rewrite String.eqb_refl, Ha.
      + apply String.eqb_refl.
    - apply not_true_is_false. intros H.
      apply List.existsb_exists in H as (c' & Hin & Hm).
      apply String.eqb_eq in Hm. pose proof (Hu c' Hin Hm) as ->.
      unfold mine in Hin. apply List.filter_In in Hin as (_ & Hf).
      rewrite Ha in Hf. rewrite andb_false_r in Hf. discriminate Hf. }
  destruct (thresholds w !! metric) as [t|];
    [|now destruct (AlertConfiguration.is_active config)].
  unfold overridden, last_bound.
  rewrite !(last_bound_unique _ metric mine config None Hu), Hex.
  cbn [fold_left]. fold metric. rewrite String.eqb_refl.
  destruct (AlertConfiguration.is_active config);
    cbn [fmap option_fmap option_map]; [|now destruct t].
  destruct (AlertConfiguration.min_threshold config),
           (AlertConfiguration.max_threshold config); reflexivity.
Qed.

(** ** Worked calls of the endpoints *)
Lemma duplicate_patient_is_answered_500_witness :
  fst (Api.create_patient sound_platform lenient_engine patient_P1_request
         (start clinic_db))
  = Api.Raised (Api.Http 500 "Failed to create patient").
Proof.
  pose proof (proj1 (duplicate_patient_is_answered_500 sound_platform
                       lenient_engine patient_P1_request (start clinic_db))
                patient_P1 eq_refl) as H.
  cbv zeta in H. now rewrite H.
Defined.

Lemma created_patient_is_on_record_witness :
  let call := Api.create_patient sound_platform lenient_engine
                patient_P1_request (start empty_db) in
  fst call = Api.Value patient_P1
  /\ Api.get_patient "P1" (snd call) = (Api.Value patient_P1, snd call).
Proof.
  split; [reflexivity|].
  apply (proj1 (created_patient_is_on_record sound_platform lenient_engine
                  patient_P1_request (start empty_db)) patient_P1 eq_refl).
Defined.


Lemma current_status_is_the_highest_recent_severity_witness :
  let call := Api.get_current_status (fun _ => true) "P1" (timedelta_hours 48)
                (start observed_db) in
  exists response,
    fst call = Api.Value response
    /\ PatientStatus.status response = "WARNING"
    /\ (PatientStatus.status response = "WARNING" <->
        (exists a,
           (In a (anomalies observed_db)
            /\ Anomaly.patient_id a = "P1"
            /\ (timedelta_hours 48 - timedelta_hours 24
                <= Anomaly.timestamp a)%Z)
           /\ Anomaly.severity a = WARNING)
        /\ forall a,
             (In a (anomalies observed_db)
              /\ Anomaly.patient_id a = "P1"
              /\ (timedelta_hours 48 - timedelta_hours 24
                  <= Anomaly.timestamp a)%Z) ->
             Anomaly.severity a <> CRITICAL).
Proof.
  eexists. split; [reflexivity|]. split; [reflexivity|].
  apply (current_status_is_the_highest_recent_severity (fun _ => true) "P1"
           (timedelta_hours 48) (start observed_db) _ eq_refl).
Defined.

Lemma posted_configuration_reaches_the_detector_witness :
  let w := snd (detect_anomalies sound_platform "A" [] 0
                  (start overrides_db)) in
  let posted := snd (Api.create_alert_configuration sound_platform
                       lenient_engine (deactivate spo2_override) w) in
  let detected := snd (detect_anomalies sound_platform "A" [] 1 posted) in
  (alert_configurations (db posted) = [deactivate spo2_override]
   /\ default_thresholds !! "spo2" = Some spo2_default)
  /\ thresholds detected !! "spo2" = Some {| tmin := 94; tmax := 100 |}.
Proof.
  split; [split; reflexivity|].
  etransitivity.
  - apply (posted_configuration_reaches_the_detector sound_platform
             sound_platform lenient_engine (deactivate spo2_override)
             (deactivate spo2_override)
             (snd (detect_anomalies sound_platform "A" [] 0
                     (start overrides_db))) [] 1).
    + repeat constructor. intros [].
    + reflexivity.
  - reflexivity.
Defined.

(** ** What the pipeline puts on record *)

Lemma check_and_create_alerts_anomalies globals P patient_id found now w :
  new_anomalies w = [] ->
  anomalies
    (db (snd (check_and_create_alerts globals P patient_id found now w)))
  = anomalies (db w).
Proof.
  intros Hn.
  destruct (check_and_create_alerts globals P patient_id found now w)
    as [r0 w0] eqn:Hc.
  cbn [snd]. revert Hc.
  unfold check_and_create_alerts, W.try_except, check_and_create_alerts_try.
  unfold W.bind at 1.
  destruct (alerts_loop_frame globals patient_id now found w)
    as (r & created & w1 & -> & (A1 & A2 & A3 & A4 & A5) & _ & R).
  destruct r as [l|e].
  2:{ intros H. injection H as _ <-. cbn. now rewrite A2. }
  destruct l as [|al l].
  { intros H. injection H as _ <-. now rewrite A2. }
  unfold W.bind at 1. unfold W.commit.
  destruct (forallb (insert_anomaly_ok P) (new_anomalies w1)
            && forallb (insert_alert_ok P) (new_alerts w1)).
  2:{ intros H. injection H as _ <-. cbn. now rewrite A2. }
  unfold W.bind at 1. unfold W.emit at 1.
  match goal with
  | |- context [notify_all P ?l ?wc] =>
      destruct (notify_all_outcome P l wc) as (w2 & -> & (J1 & J2 & _))
  end.
  intros H. injection H as _ <-.
  rewrite J2. cbn. rewrite A2, A3, Hn. apply app_nil_r.
Qed.

Lemma detect_anomalies_found P patient_id vitals_data now w th st :
  new_anomalies w = [] ->
  new_alerts w = [] ->
  detect_threshold_anomalies
    (fold_left apply_config (custom_configs patient_id (db w)) (thresholds w))
    vitals_data = Ok th ->
  detect_statistical_anomalies (np_sqrt P) patient_id vitals_data now (db w)
  = Ok st ->
  forallb (insert_anomaly_ok P) (map (make_anomaly patient_id now) (th ++ st))
  = true ->
  exists w',
    detect_anomalies P patient_id vitals_data now w
    = (Ok (map (make_anomaly patient_id now) (th ++ st)), w')
    /\ anomalies (db w')
       = (anomalies (db w) ++ map (make_anomaly patient_id now) (th ++ st))%list
    /\ new_anomalies w' = [].
Proof.
  intros Hn Ha Hth Hst Hok.
  unfold detect_anomalies, W.try_except, detect_anomalies_try.
  unfold W.bind, W.get, W.set_thresholds, W.lift.
  cbn [thresholds db]. rewrite Hth, Hst.
  rewrite save_anomalies_adds.
  cbn [thresholds db new_anomalies new_alerts journal].
  rewrite Hn. cbn [app].
  destruct (map (make_anomaly patient_id now) (th ++ st)) as [|a l] eqn:El.
  - eexists. split; [reflexivity|]. cbn. rewrite app_nil_r. auto.
  - unfold W.commit, W.emit, W.ret.
    cbn [thresholds db new_anomalies new_alerts journal].
    rewrite Hok, Ha. cbn [forallb andb].
    eexists. split; [reflexivity|]. cbn. auto.
Qed.

(** A reading is analysed against a history that holds it. The endpoint
    commits the reading and then runs detection, and the statistical
    detector reads the committed readings: in a fresh session, for a
    patient on record and rows the engine accepts, the anomalies on
    record after [record_vital_signs] are those on record before it
    followed by what the threshold detector finds in the sample and
    what the statistical detector finds in it against the readings
    with the new one among them, whatever the alert service does. *)
Theorem recorded_reading_is_analysed_with_itself (globals : list string)
    (P : Platform) (E : Api.Engine) (patient_id : string)
    (vitals : VitalSignCreate.t) (now detection_time alert_time : Z)
    (w : World) (th st : list anomaly_data) :
  Api.find_patient patient_id (db w) <> None ->
  new_anomalies w = [] ->
  new_alerts w = [] ->
  let row := Api.vital_sign_row patient_id vitals now in
  let sample := Api.vitals_data_of patient_id vitals now in
  let found := map (make_anomaly patient_id detection_time) (th ++ st) in
  Api.vital_sign_ok E row = true ->
  detect_threshold_anomalies
    (fold_left apply_config (custom_configs patient_id (db w)) (thresholds w))
    sample = Ok th ->
  detect_statistical_anomalies (np_sqrt P) patient_id sample detection_time
    (Api.add_vital_sign row (db w)) = Ok st ->
  forallb (insert_anomaly_ok P) found = true ->
  anomalies (db (snd (Api.record_vital_signs globals P E patient_id vitals
                        now detection_time alert_time w)))
  = (anomalies (db w) ++ found)%list.
Proof.
  intros Ep Hn Ha row sample found Hrow Hth Hst Hok.
  destruct (Api.record_vital_signs globals P E patient_id vitals now
              detection_time alert_time w) as [o w0] eqn:Hcall.
  cbn [snd]. revert Hcall.
  unfold Api.record_vital_signs, Api.except_http_reraise.
  unfold Api.bind at 1. unfold Api.lift at 1, W.get. cbv beta iota.
  destruct (Api.find_patient patient_id (db w)) as [patient|];
    [|now elim Ep].
  cbv zeta. unfold Api.bind at 1. unfold Api.commit_with.
  fold row. rewrite Hrow, Hn, Ha. cbn [forallb andb].
  unfold Api.bind at 1.
  unfold Api.run_detection, Api.except_exception.
  unfold Api.bind at 1. unfold Api.lift at 1.
  fold sample.
  match goal with
  | |- context [detect_anomalies P patient_id sample detection_time ?wc] =>
      destruct (detect_anomalies_found P patient_id sample detection_time wc
                  th st eq_refl eq_refl) as (w1 & -> & Fa & Fn)
  end.
  { exact Hth. }
  { cbn [db]. rewrite !app_nil_r.
    replace {| patients := patients (db w);
               vital_signs := vital_signs (db w);
               anomalies := anomalies (db w);
               alerts := alerts (db w);
               alert_configurations := alert_configurations (db w) |}
      with (db w) by now destruct (db w).
    exact Hst. }
  { exact Hok. }
  cbn [db anomalies Api.add_vital_sign] in Fa. rewrite app_nil_r in Fa.
  fold found in Fa |- *.
  destruct found as [|a l] eqn:Ef.
  { intros H. injection H as _ <-. cbn. exact Fa. }
  unfold Api.bind at 1. unfold Api.lift at 1. unfold W.emit.
  unfold Api.bind at 1. unfold Api.lift at 1.
  match goal with
  | |- context [check_and_create_alerts globals P patient_id ?l ?t ?wc] =>
      pose proof (check_and_create_alerts_anomalies globals P patient_id l t
                    wc Fn) as Fc;
      destruct (check_and_create_alerts_returns globals P patient_id l t wc)
        as (l2 & Hl2);
      destruct (check_and_create_alerts globals P patient_id l t wc)
        as [r2 w2]
  end.
  cbn [fst snd db] in Hl2, Fc. subst r2.
  intros H. injection H as _ <-. cbn. rewrite Fc. exact Fa.
Qed.

Lemma recorded_reading_is_analysed_with_itself_witness :
  let w := start nine_readings_db in
  let call := Api.record_vital_signs alert_service_globals sound_platform
                lenient_engine "P1" (heart_rate_request 102) 2000 2000 2000
                w in
  (detect_statistical_anomalies sqrt_exact "P1"
     (Api.vitals_data_of "P1" (heart_rate_request 102) 2000) 2000 (db w)
   = Ok []
   /\ map Anomaly.anomaly_type (anomalies (db (snd call)))
      = ["heart_rate_statistical"])
  /\ exists st,
       detect_statistical_anomalies sqrt_exact "P1"
         (Api.vitals_data_of "P1" (heart_rate_request 102) 2000) 2000
         (Api.add_vital_sign
            (Api.vital_sign_row "P1" (heart_rate_request 102) 2000) (db w))
       = Ok st
       /\ anomalies (db (snd call))
          = map (make_anomaly "P1" 2000) ([] ++ st)%list.
Proof.
  split; [split; vm_compute; reflexivity|].
  eexists. split; [vm_compute; reflexivity|].
  apply (recorded_reading_is_analysed_with_itself alert_service_globals
           sound_platform lenient_engine "P1" (heart_rate_request 102)
           2000 2000 2000 (start nine_readings_db) []).
  - discriminate.
  - reflexivity.
  - reflexivity.
  - reflexivity.
  - vm_compute. reflexivity.
  - vm_compute. reflexivity.
  - reflexivity.
Defined.
